(** * Marogo Civils website: the admin content dispatchers and the image
    optimizer of [app.py], embedded in Rocq.

    The Flask application is modelled as state-passing code over a [world]
    (upload directory, database, session, flashed messages, and what the
    application takes from the platform under it: the remote image service,
    the clock, the interpreter's Unicode tables, the file system's limit on
    names, SQLite's reading of a text as a key).  A request handler is a
    computation in the monad [M], which threads the world and may raise a
    Python exception. *)

From Stdlib Require Import ZArith Ascii String List Lia Bool.
From stdpp Require Import base option strings gmap list.

Local Open Scope string_scope.

(** ** Text

    A Python [str] is modelled as the Rocq [string] of its UTF-8 bytes, so
    that ASCII text is modelled by itself and a character outside ASCII by
    bytes of 128 and more. *)

(** Do all the characters of the string pass the test? *)
Fixpoint all_chars (p : ascii -> bool) (s : string) : bool :=
  match s with
  | EmptyString => true
  | String c s' => p c && all_chars p s'
  end.

Definition is_ascii (c : ascii) : bool := (nat_of_ascii c <? 128)%nat.

(** ** Python [str] methods used by the application

    The methods are written out on ASCII text.  What they make of other
    text is decided by the Unicode tables of the interpreter, which differ
    between its versions: the model takes it from the [runtime] the
    application runs on. *)

Module Py.

Definition is_upper (c : ascii) : bool :=
  let n := nat_of_ascii c in (65 <=? n)%nat && (n <=? 90)%nat.

Definition is_lower (c : ascii) : bool :=
  let n := nat_of_ascii c in (97 <=? n)%nat && (n <=? 122)%nat.

Definition is_digit (c : ascii) : bool :=
  let n := nat_of_ascii c in (48 <=? n)%nat && (n <=? 57)%nat.

Definition is_cased (c : ascii) : bool := is_upper c || is_lower c.

(** [str.isspace] on one ASCII character: tab, line feed, vertical tab,
    form feed, carriage return, the separators 0x1c-0x1f and the space. *)
Definition is_space (c : ascii) : bool :=
  let n := nat_of_ascii c in
  ((9 <=? n)%nat && (n <=? 13)%nat) || ((28 <=? n)%nat && (n <=? 32)%nat).

(** [Py_ISSPACE], the whitespace that the number parser skips: tab, line
    feed, vertical tab, form feed, carriage return and the space (not the
    separators 0x1c-0x1f). *)
Definition is_c_space (c : ascii) : bool :=
  let n := nat_of_ascii c in
  ((9 <=? n)%nat && (n <=? 13)%nat) || (n =? 32)%nat.

Definition lower_char (c : ascii) : ascii :=
  if is_upper c then ascii_of_nat (nat_of_ascii c + 32) else c.

Definition upper_char (c : ascii) : ascii :=
  if is_lower c then ascii_of_nat (nat_of_ascii c - 32) else c.

(** [s.lower()] on ASCII text. *)
Fixpoint lower_ascii (s : string) : string :=
  match s with
  | EmptyString => EmptyString
  | String c s' => String (lower_char c) (lower_ascii s')
  end.

(** [s.lower()], given what it makes of text that is not all ASCII. *)
Definition lower_with (unicode_lower : string -> string) (s : string) : string :=
  if all_chars is_ascii s then lower_ascii s else unicode_lower s.

(** An ASCII character that is not a capital letter. *)
Definition plain_lower (c : ascii) : bool := is_ascii c && negb (is_upper c).

(** The interpreter the application runs on, as far as the application
    depends on it:
    - [unicode_lower s] is [s.lower()] for a text that is not all ASCII;
    - [nfkd_ascii s] is
      [unicodedata.normalize('NFKD', s).encode('ascii', 'ignore')] for such
      a text;
    - [decimal_to_ascii s] is what [int] reads in place of such a text:
      every decimal digit replaced by its ASCII digit and every whitespace
      character by a space, the text cut after the first other character
      outside ASCII, which becomes a question mark;
    - [int_max_str_digits] is [sys.get_int_max_str_digits()], zero when the
      interpreter sets no limit.
    Lowering gives text without ASCII capitals, which lowering leaves as it
    is; and text that lowering leaves as it is stays so when one of its
    ASCII characters is replaced by ASCII text without capitals. *)
Record runtime := mkruntime {
  unicode_lower : string -> string;
  nfkd_ascii : string -> string;
  decimal_to_ascii : string -> string;
  int_max_str_digits : nat;
  lower_no_capital :
    forall s, all_chars (fun c => negb (is_upper c)) (unicode_lower s) = true;
  lower_lowered :
    forall s, lower_with unicode_lower (unicode_lower s) = unicode_lower s;
  lower_fixed_edit :
    forall (a : string) (c : ascii) (t b : string),
      is_ascii c = true -> all_chars plain_lower t = true ->
      lower_with unicode_lower (a ++ String c b) = a ++ String c b ->
      lower_with unicode_lower (a ++ t ++ b) = a ++ t ++ b
}.

(** [s.lower()] *)
Definition lower (py : runtime) (s : string) : string :=
  lower_with (unicode_lower py) s.

(** [s.replace(old, new)] for a pattern [old] of one character, which is
    the only way the application calls it. *)
Fixpoint replace (old : ascii) (new : string) (s : string) : string :=
  match s with
  | EmptyString => EmptyString
  | String c s' =>
      if Ascii.eqb c old then new ++ replace old new s'
      else String c (replace old new s')
  end.

(** [s.title()]: a cased character is upper-cased when the character before
    it is not cased, and lower-cased otherwise.  The application calls it on
    the keys of its registries, which are ASCII. *)
Fixpoint title_from (prev_cased : bool) (s : string) : string :=
  match s with
  | EmptyString => EmptyString
  | String c s' =>
      String (if prev_cased then lower_char c else upper_char c)
             (title_from (is_cased c) s')
  end.

Definition title (s : string) : string := title_from false s.

(** [s[:-1]] *)
Fixpoint drop_last (s : string) : string :=
  match s with
  | EmptyString => EmptyString
  | String c EmptyString => EmptyString
  | String c s' => String c (drop_last s')
  end.

(** [s.lstrip(chars)] and [s.rstrip(chars)] for a predicate on characters. *)
Fixpoint lstrip (p : ascii -> bool) (s : string) : string :=
  match s with
  | EmptyString => EmptyString
  | String c s' => if p c then lstrip p s' else s
  end.

Fixpoint rstrip (p : ascii -> bool) (s : string) : string :=
  match s with
  | EmptyString => EmptyString
  | String c s' =>
      match rstrip p s' with
      | EmptyString => if p c then EmptyString else String c EmptyString
      | r => String c r
      end
  end.

Definition strip (p : ascii -> bool) (s : string) : string :=
  rstrip p (lstrip p s).

(** [s.split()] on ASCII text: the maximal runs of non-whitespace
    characters. *)
Fixpoint split_from (cur : string) (s : string) : list string :=
  match s with
  | EmptyString => if String.eqb cur "" then [] else [cur]
  | String c s' =>
      if is_space c
      then (if String.eqb cur "" then split_from "" s'
            else cur :: split_from "" s')
      else split_from (cur ++ String c EmptyString) s'
  end.

Definition split (s : string) : list string := split_from "" s.

(** [sep.join(parts)] *)
Fixpoint join (sep : string) (parts : list string) : string :=
  match parts with
  | [] => ""
  | [p] => p
  | p :: ps => p ++ sep ++ join sep ps
  end.

Fixpoint filter (p : ascii -> bool) (s : string) : string :=
  match s with
  | EmptyString => EmptyString
  | String c s' => if p c then String c (filter p s') else filter p s'
  end.

(** Decimal digits with single underscores allowed between digits, as
    [int] accepts them; [acc] is the value read so far and [after_digit]
    tells whether the previous character was a digit. *)
Fixpoint digits_from (acc : Z) (after_digit : bool) (s : string) : option Z :=
  match s with
  | EmptyString => if after_digit then Some acc else None
  | String c s' =>
      if is_digit c
      then digits_from (10 * acc + Z.of_nat (nat_of_ascii c - 48)) true s'
      else if Ascii.eqb c "_" && after_digit
           then match s' with
                | EmptyString => None
                | String d _ => if is_digit d then digits_from acc false s' else None
                end
           else None
  end.

(** The number of digits in a literal. *)
Fixpoint count_digits (s : string) : nat :=
  match s with
  | EmptyString => 0
  | String c s' => if is_digit c then S (count_digits s') else count_digits s'
  end.

(** The guard on the length of a literal: more than 640 digits are checked
    against the limit of the interpreter, when it has one. *)
Definition exceeds_digit_limit (limit digits : nat) : bool :=
  (640 <? digits)%nat && (0 <? limit)%nat && (limit <? digits)%nat.

(** [PyLong_FromString] in base ten: surrounding whitespace, an optional
    sign, digits.  [None] stands for the [ValueError] that [int] raises. *)
Definition int_ascii (limit : nat) (s : string) : option Z :=
  let digits ds :=
    if exceeds_digit_limit limit (count_digits ds) then None
    else digits_from 0 false ds in
  match strip is_c_space s with
  | String "-" ds => Z.opp <$> digits ds
  | String "+" ds => digits ds
  | ds => digits ds
  end.

(** [int(s)] *)
Definition int (py : runtime) (s : string) : option Z :=
  int_ascii (int_max_str_digits py)
    (if all_chars is_ascii s then s else decimal_to_ascii py s).

(** Truth value of a string and of an optional string ([None] or [''] are
    false). *)
Definition truthy (o : option string) : bool :=
  match o with
  | Some s => negb (String.eqb s "")
  | None => false
  end.

End Py.

(** ** Library functions the application imports *)

(** [werkzeug.utils.secure_filename] on a POSIX host.  The text is
    decomposed (NFKD) and encoded as ASCII, which drops what has no ASCII
    form and leaves ASCII text as it is; the path separator becomes a
    space, the whitespace-separated words are joined by underscores, every
    character other than a letter, a digit, [_], [.] and [-] is removed,
    and leading and trailing dots and underscores are stripped.  The result
    can be empty. *)
Definition filename_char_ok (c : ascii) : bool :=
  Py.is_upper c || Py.is_lower c || Py.is_digit c
  || Ascii.eqb c "_" || Ascii.eqb c "." || Ascii.eqb c "-".

Definition dot_or_underscore (c : ascii) : bool :=
  Ascii.eqb c "." || Ascii.eqb c "_".

Definition secure_filename (py : Py.runtime) (filename : string) : string :=
  let filename :=
    if all_chars is_ascii filename then filename else Py.nfkd_ascii py filename in
  let filename := Py.replace "/" " " filename in
  Py.strip dot_or_underscore
    (Py.filter filename_char_ok (Py.join "_" (Py.split filename))).

(** [os.path.splitext] (posixpath): the extension starts at the last dot
    of the last path component, unless that component has only leading
    dots before it. *)
Fixpoint rfind_from (i : Z) (c : ascii) (s : string) : Z :=
  match s with
  | EmptyString => (-1)%Z
  | String d s' =>
      let r := rfind_from (i + 1) c s' in
      if (0 <=? r)%Z then r else if Ascii.eqb d c then i else (-1)%Z
  end.

Definition rfind (c : ascii) (s : string) : Z := rfind_from 0 c s.

(** The [while filenameIndex < dotIndex] loop of [_splitext]: is there a
    character other than a dot among the [n] characters from index [i]? *)
Fixpoint has_non_dot (n : nat) (i : nat) (p : string) : bool :=
  match n with
  | O => false
  | S n' =>
      match String.get i p with
      | Some c => if Ascii.eqb c "." then has_non_dot n' (S i) p else true
      | None => true
      end
  end.

Definition splitext (p : string) : string * string :=
  let sepIndex := rfind "/" p in
  let dotIndex := rfind "." p in
  if (sepIndex <? dotIndex)%Z
     && has_non_dot (Z.to_nat (dotIndex - (sepIndex + 1))) (Z.to_nat (sepIndex + 1)) p
  then (String.substring 0 (Z.to_nat dotIndex) p,
        String.substring (Z.to_nat dotIndex) (String.length p - Z.to_nat dotIndex) p)
  else (p, "").

(** ** Database models

    One module per [db.Model] class.  A nullable column is an [option]; the
    primary key is the row's [id]. *)

Module Project.
Record t := mk {
  id : nat; title : string; client : option string; location : option string;
  project_value : option string; completion_date : option string;
  details : string; image_url : option string; category : string;
  date_posted : Z }.
End Project.

Module ProjectImage.
Record t := mk { id : nat; image_url : string; project_id : nat }.
End ProjectImage.

Module Service.
Record t := mk {
  id : nat; title : string; slug : string; image_url : option string;
  summary : string; full_content : string; order_num : Z;
  header_image_url : option string; project_category_link : option string }.
End Service.

Module BlogPost.
Record t := mk {
  id : nat; title : string; content : string; author : string; date_posted : Z }.
End BlogPost.

Module Testimonial.
Record t := mk { id : nat; author : string; position : option string; quote : string }.
End Testimonial.

Module ContactSubmission.
Record t := mk {
  id : nat; name : string; email : string; subject : option string;
  message : string; submitted_on : Z }.
End ContactSubmission.

Module Statistic.
Record t := mk { id : nat; name : string; value : Z; icon : string; order_num : Z }.
End Statistic.

Module TeamMember.
Record t := mk {
  id : nat; name : string; position : string; bio : option string;
  image_url : string; order_num : Z }.
End TeamMember.

Module ClientLogo.
Record t := mk {
  id : nat; name : string; image_url : string; website_url : option string;
  order_num : Z }.
End ClientLogo.

Module Certification.
Record t := mk {
  id : nat; name : string; issuing_body : option string;
  image_url : option string; order_num : Z }.
End Certification.

(** The model classes, as the values of the [models] dictionaries. *)
Inductive model :=
| ProjectModel | BlogPostModel | TestimonialModel | ContactSubmissionModel
| StatisticModel | TeamMemberModel | ServiceModel | ClientLogoModel
| CertificationModel.

(** An instance of one of the model classes. *)
Inductive entity :=
| EProject (r : Project.t)
| EBlogPost (r : BlogPost.t)
| ETestimonial (r : Testimonial.t)
| EContactSubmission (r : ContactSubmission.t)
| EStatistic (r : Statistic.t)
| ETeamMember (r : TeamMember.t)
| EService (r : Service.t)
| EClientLogo (r : ClientLogo.t)
| ECertification (r : Certification.t).

Record database := mkdb {
  projects : list Project.t;
  project_images : list ProjectImage.t;
  services : list Service.t;
  blog_posts : list BlogPost.t;
  testimonials : list Testimonial.t;
  submissions : list ContactSubmission.t;
  statistics : list Statistic.t;
  team_members : list TeamMember.t;
  client_logos : list ClientLogo.t;
  certifications : list Certification.t }.

(** What every table row offers: its primary key, and a copy of the row
    under another key (the key is assigned on insertion). *)
Class Row (T : Type) := { pk : T -> nat; with_pk : nat -> T -> T }.

#[export] Instance Project_row : Row Project.t :=
  {| pk := Project.id;
     with_pk i r := Project.mk i (Project.title r) (Project.client r) (Project.location r)
       (Project.project_value r) (Project.completion_date r) (Project.details r)
       (Project.image_url r) (Project.category r) (Project.date_posted r) |}.
#[export] Instance ProjectImage_row : Row ProjectImage.t :=
  {| pk := ProjectImage.id;
     with_pk i r := ProjectImage.mk i (ProjectImage.image_url r) (ProjectImage.project_id r) |}.
#[export] Instance Service_row : Row Service.t :=
  {| pk := Service.id;
     with_pk i r := Service.mk i (Service.title r) (Service.slug r) (Service.image_url r)
       (Service.summary r) (Service.full_content r) (Service.order_num r)
       (Service.header_image_url r) (Service.project_category_link r) |}.
#[export] Instance BlogPost_row : Row BlogPost.t :=
  {| pk := BlogPost.id;
     with_pk i r := BlogPost.mk i (BlogPost.title r) (BlogPost.content r) (BlogPost.author r)
       (BlogPost.date_posted r) |}.
#[export] Instance Testimonial_row : Row Testimonial.t :=
  {| pk := Testimonial.id;
     with_pk i r := Testimonial.mk i (Testimonial.author r) (Testimonial.position r)
       (Testimonial.quote r) |}.
#[export] Instance ContactSubmission_row : Row ContactSubmission.t :=
  {| pk := ContactSubmission.id;
     with_pk i r := ContactSubmission.mk i (ContactSubmission.name r) (ContactSubmission.email r)
       (ContactSubmission.subject r) (ContactSubmission.message r)
       (ContactSubmission.submitted_on r) |}.
#[export] Instance Statistic_row : Row Statistic.t :=
  {| pk := Statistic.id;
     with_pk i r := Statistic.mk i (Statistic.name r) (Statistic.value r) (Statistic.icon r)
       (Statistic.order_num r) |}.
#[export] Instance TeamMember_row : Row TeamMember.t :=
  {| pk := TeamMember.id;
     with_pk i r := TeamMember.mk i (TeamMember.name r) (TeamMember.position r)
       (TeamMember.bio r) (TeamMember.image_url r) (TeamMember.order_num r) |}.
#[export] Instance ClientLogo_row : Row ClientLogo.t :=
  {| pk := ClientLogo.id;
     with_pk i r := ClientLogo.mk i (ClientLogo.name r) (ClientLogo.image_url r)
       (ClientLogo.website_url r) (ClientLogo.order_num r) |}.
#[export] Instance Certification_row : Row Certification.t :=
  {| pk := Certification.id;
     with_pk i r := Certification.mk i (Certification.name r) (Certification.issuing_body r)
       (Certification.image_url r) (Certification.order_num r) |}.

Section Tables.
Context {T : Type} `{Row T}.

(** [Model.query.get(i)] *)
Definition table_get (i : nat) (rows : list T) : option T :=
  List.find (fun r => Nat.eqb (pk r) i) rows.

(** The key SQLite gives to a new row: one more than the largest key. *)
Definition next_pk (rows : list T) : nat :=
  S (List.fold_right Nat.max 0 (List.map pk rows)).

Definition table_insert (r : T) (rows : list T) : list T :=
  rows ++ [with_pk (next_pk rows) r].

(** Writing back the changed attributes of a loaded row. *)
Definition table_update (r : T) (rows : list T) : list T :=
  List.map (fun x => if Nat.eqb (pk x) (pk r) then r else x) rows.

Definition table_delete (i : nat) (rows : list T) : list T :=
  List.filter (fun x => negb (Nat.eqb (pk x) i)) rows.
End Tables.

(** ** The world a request runs in *)

Definition bytes := list Byte.byte.

(** The Python exceptions that the modelled code can raise.  An exception
    that leaves a route is answered by Flask with an error response (404
    for [NotFound], 400 for [BadRequestKeyError], 500 for the others). *)
Inductive exn :=
| TinifyError (message : string)        (* tinify.Error and its subclasses *)
| IOError (message : string)            (* reading an upload stream *)
| RuntimeError (message : string)       (* any other failure of a library call *)
| IsADirectoryError (path : string)     (* open() on the directory itself *)
| BadRequestKeyError (key : string)     (* request.form[key], request.files[key] *)
| ValueError (literal : string)         (* int(literal) *)
| NotFound                              (* get_or_404 *)
| IntegrityError (constraint : string)  (* a UNIQUE constraint at commit *)
| OSError (message : string)            (* open() on a name the file system refuses *)
| OverflowError.                        (* an int that SQLite cannot take *)

(** [str(e)], as the flashed messages embed it. *)
Definition exn_str (e : exn) : string :=
  match e with
  | TinifyError m | IOError m | RuntimeError m => m
  | IsADirectoryError p => "[Errno 21] Is a directory: '" ++ p ++ "'"
  | BadRequestKeyError k => "400 Bad Request: " ++ k
  | ValueError l => "invalid literal for int() with base 10: '" ++ l ++ "'"
  | NotFound => "404 Not Found"
  | IntegrityError c => "UNIQUE constraint failed: " ++ c
  | OSError m => m
  | OverflowError => "Python int too large to convert to SQLite INTEGER"
  end.

Inductive result (A : Type) :=
| Returned (a : A)
| Raised (e : exn).
Arguments Returned {A} a.
Arguments Raised {A} e.

(** The four branches of the resize choice in [optimize_with_tinypng]. *)
Inductive resize :=
| Fit (width height : N)
| ScaleWidth (width : N)
| ScaleHeight (height : N)
| NoResize.

Record world := mkworld {
  uploads : gmap string bytes;          (* UPLOAD_FOLDER: file name -> content *)
  db : database;                        (* the committed database *)
  session_user : option nat;            (* session['user_id'] *)
  flashes : list (string * string);     (* flash(message, category), oldest first *)
  utcnow : Z;                           (* datetime.datetime.utcnow() *)
  tinify : bytes -> resize -> result bytes;
    (* the remote service: the WebP bytes for an image resized as asked, or
       the exception its client raises *)
  python : Py.runtime;                  (* the interpreter *)
  name_max : nat;
    (* the longest file name, in bytes, that the file system of the upload
       directory takes (NAME_MAX, 255 on the usual Linux file systems) *)
  sqlite_integer : string -> option Z
    (* the integer that SQLite reads in a text that is compared with an
       INTEGER column, if it reads one in it *)
}.

Definition set_uploads (u : gmap string bytes) (w : world) : world :=
  mkworld u (db w) (session_user w) (flashes w) (utcnow w) (tinify w)
    (python w) (name_max w) (sqlite_integer w).
Definition set_db (d : database) (w : world) : world :=
  mkworld (uploads w) d (session_user w) (flashes w) (utcnow w) (tinify w)
    (python w) (name_max w) (sqlite_integer w).
Definition set_flashes (f : list (string * string)) (w : world) : world :=
  mkworld (uploads w) (db w) (session_user w) f (utcnow w) (tinify w)
    (python w) (name_max w) (sqlite_integer w).

(** Two worlds that differ at most in the upload directory and in the
    flashed messages. *)
Definition same_data (w w' : world) : Prop :=
  db w' = db w /\ session_user w' = session_user w
  /\ utcnow w' = utcnow w /\ tinify w' = tinify w
  /\ python w' = python w /\ name_max w' = name_max w
  /\ sqlite_integer w' = sqlite_integer w.

(** A computation reads and changes the world and returns or raises; the
    changes made before an exception stay. *)
Definition M (A : Type) : Type := world -> result A * world.

Definition ret {A} (a : A) : M A := fun w => (Returned a, w).
Definition raise {A} (e : exn) : M A := fun w => (Raised e, w).
Definition bind {A B} (m : M A) (k : A -> M B) : M B :=
  fun w => match m w with
           | (Returned a, w') => k a w'
           | (Raised e, w') => (Raised e, w')
           end.

Notation "'let*' x ':=' m 'in' k" := (bind m (fun x => k))
  (at level 10, x name, m at level 100, k at level 200).
Notation "m ';;' k" := (bind m (fun _ => k))
  (at level 100, k at level 200, right associativity).

(** [try: body except ...: handler]; an exception raised by the handler
    itself is not caught. *)
Definition try_except {A} (body : M A) (handler : exn -> M A) : M A :=
  fun w => match body w with
           | (Returned a, w') => (Returned a, w')
           | (Raised e, w') => handler e w'
           end.

Definition get_world : M world := fun w => (Returned w, w).

Definition flash (message category : string) : M unit :=
  fun w => (Returned tt, set_flashes (flashes w ++ [(message, category)]) w).

(** *** The upload directory

    [os.path.join(UPLOAD_FOLDER, name)] names the entry [name] of a flat
    directory.  With an empty [name] the joined path is the directory
    itself, and opening it for writing raises; so does opening a name that
    is longer than the file system takes. *)
Definition write_file (name : string) (data : bytes) : M unit :=
  fun w => if String.eqb name ""
           then (Raised (IsADirectoryError "uploads/"), w)
           else if (name_max w <? String.length name)%nat
           then (Raised (OSError ("[Errno 36] File name too long: 'uploads/" ++ name ++ "'")), w)
           else (Returned tt, set_uploads (<[name := data]> (uploads w)) w).

(** [os.path.exists(os.path.join(UPLOAD_FOLDER, name))]; the directory
    itself exists. *)
Definition path_exists (name : string) : M bool :=
  fun w => (Returned (String.eqb name "" || bool_decide (is_Some (uploads w !! name))), w).

(** [try: os.remove(os.path.join(UPLOAD_FOLDER, name)) except OSError: print(...)]:
    the file is gone afterwards; a missing file (or the directory itself)
    makes [os.remove] raise [OSError], which every caller catches. *)
Definition try_remove (name : string) : M unit :=
  fun w => (Returned tt, set_uploads (delete name (uploads w)) w).

(** *** Uploaded files and requests *)

(** A [werkzeug.datastructures.FileStorage]: the client's file name and the
    uploaded bytes ([None]: reading the stream fails). *)
Record FileStorage := mkfile { filename : string; stream : option bytes }.

Inductive http_method := GET | POST.

Record request := mkrequest {
  method : http_method;
  url : string;                           (* request.url *)
  form : list (string * string);          (* request.form, a MultiDict *)
  files : list (string * FileStorage)     (* request.files, a MultiDict *)
}.

(** [d.get(key)] on a MultiDict: the first value of the key. *)
Fixpoint multi_get {V} (key : string) (d : list (string * V)) : option V :=
  match d with
  | [] => None
  | (k, v) :: d' => if String.eqb k key then Some v else multi_get key d'
  end.

(** [d.getlist(key)] *)
Fixpoint multi_getlist {V} (key : string) (d : list (string * V)) : list V :=
  match d with
  | [] => []
  | (k, v) :: d' =>
      if String.eqb k key then v :: multi_getlist key d' else multi_getlist key d'
  end.

(** [key in d] *)
Definition multi_mem {V} (key : string) (d : list (string * V)) : bool :=
  match multi_get key d with Some _ => true | None => false end.

(** [d[key]]: a missing key raises [BadRequestKeyError]. *)
Definition multi_index {V} (key : string) (d : list (string * V)) : M V :=
  match multi_get key d with
  | Some v => ret v
  | None => raise (BadRequestKeyError key)
  end.

(** [d.get(key, default)] *)
Definition multi_get_default (key default : string) (d : list (string * string)) : string :=
  match multi_get key d with Some v => v | None => default end.

(** [int(request.form[key])] *)
Definition form_int (key : string) (d : list (string * string)) : M Z :=
  let* v := multi_index key d in
  let* w := get_world in
  match Py.int (python w) v with
  | Some n => ret n
  | None => raise (ValueError v)
  end.

(** Where a response goes. *)
Inductive location :=
| Dashboard                          (* url_for('dashboard') *)
| Login                              (* url_for('login') *)
| ManageContent (content_type : string)  (* url_for('manage_content', content_type=...) *)
| Url (u : string).                  (* request.url *)

Inductive response :=
| Redirect (to : location)
| RenderTemplate (template content_type : string)
| Status (body : string) (code : nat).

(** ** The image optimizer *)

(** [file_storage.read()] *)
Definition read (file_storage : FileStorage) : M bytes :=
  match stream file_storage with
  | Some data => ret data
  | None => raise (IOError "read failed")
  end.

(** [file_storage.seek(0); file_storage.save(os.path.join(UPLOAD_FOLDER, name))] *)
Definition save (file_storage : FileStorage) (name : string) : M unit :=
  let* data := read file_storage in
  write_file name data.

(** A bound counts when it is given and not zero (Python truth value). *)
Definition given (bound : option N) : option N :=
  match bound with
  | Some 0%N | None => None
  | Some n => Some n
  end.

Definition resize_method (max_width max_height : option N) : resize :=
  match given max_width, given max_height with
  | Some w, Some h => Fit w h
  | Some w, None => ScaleWidth w
  | None, Some h => ScaleHeight h
  | None, None => NoResize
  end.

(** [tinify.from_buffer(image_data)], the resize, [convert] and the
    download of the result: the remote service answers with the converted
    bytes or its client raises, in either case before any file is opened. *)
Definition tinify_convert (image_data : bytes) (how : resize) : M bytes :=
  fun w => (tinify w image_data how, w).

(** [optimize_with_tinypng(file_storage, app.config['UPLOAD_FOLDER'],
    max_width, max_height)]; every caller passes the upload directory as
    [output_path].  The result is the new file name, or [None]. *)
Definition optimize_with_tinypng (file_storage : FileStorage)
    (max_width max_height : option N) : M (option string) :=
  if String.eqb (filename file_storage) "" then ret None
  else
    let* w := get_world in
    let secure_filename := secure_filename (python w) in
    let filename_base := fst (splitext (secure_filename (filename file_storage))) in
    let new_filename := filename_base ++ ".webp" in
    try_except
      (let* image_data := read file_storage in
       let* converted := tinify_convert image_data (resize_method max_width max_height) in
       write_file new_filename converted;;
       ret (Some new_filename))
      (fun e =>
         match e with
         | TinifyError message =>
             flash ("Image optimization failed: " ++ message
                    ++ ". Attempting to save original file.") "warning";;
             let original_filename := secure_filename (filename file_storage) in
             save file_storage original_filename;;
             ret (Some original_filename)
         | _ =>
             flash ("An unexpected error occurred during image processing: "
                    ++ exn_str e) "danger";;
             ret None
         end).

(** The default of the [max_width] parameter. *)
Definition default_max_width : option N := Some 1920%N.

(** ** The SQLAlchemy session

    Changes are collected in a pending copy of the database; the first
    statement that SQLite refuses is remembered as the exception that
    [commit] raises: an integer that does not fit a column, or a UNIQUE
    constraint that the change breaks. *)
Record session := mksession { pending : database; violation : option exn }.

Definition begin (d : database) : session := mksession d None.

Definition set_projects (x : list Project.t) (d : database) : database :=
  mkdb x (project_images d) (services d) (blog_posts d) (testimonials d)
       (submissions d) (statistics d) (team_members d) (client_logos d) (certifications d).
Definition set_project_images (x : list ProjectImage.t) (d : database) : database :=
  mkdb (projects d) x (services d) (blog_posts d) (testimonials d)
       (submissions d) (statistics d) (team_members d) (client_logos d) (certifications d).
Definition set_services (x : list Service.t) (d : database) : database :=
  mkdb (projects d) (project_images d) x (blog_posts d) (testimonials d)
       (submissions d) (statistics d) (team_members d) (client_logos d) (certifications d).
Definition set_blog_posts (x : list BlogPost.t) (d : database) : database :=
  mkdb (projects d) (project_images d) (services d) x (testimonials d)
       (submissions d) (statistics d) (team_members d) (client_logos d) (certifications d).
Definition set_testimonials (x : list Testimonial.t) (d : database) : database :=
  mkdb (projects d) (project_images d) (services d) (blog_posts d) x
       (submissions d) (statistics d) (team_members d) (client_logos d) (certifications d).
Definition set_submissions (x : list ContactSubmission.t) (d : database) : database :=
  mkdb (projects d) (project_images d) (services d) (blog_posts d) (testimonials d)
       x (statistics d) (team_members d) (client_logos d) (certifications d).
Definition set_statistics (x : list Statistic.t) (d : database) : database :=
  mkdb (projects d) (project_images d) (services d) (blog_posts d) (testimonials d)
       (submissions d) x (team_members d) (client_logos d) (certifications d).
Definition set_team_members (x : list TeamMember.t) (d : database) : database :=
  mkdb (projects d) (project_images d) (services d) (blog_posts d) (testimonials d)
       (submissions d) (statistics d) x (client_logos d) (certifications d).
Definition set_client_logos (x : list ClientLogo.t) (d : database) : database :=
  mkdb (projects d) (project_images d) (services d) (blog_posts d) (testimonials d)
       (submissions d) (statistics d) (team_members d) x (certifications d).
Definition set_certifications (x : list Certification.t) (d : database) : database :=
  mkdb (projects d) (project_images d) (services d) (blog_posts d) (testimonials d)
       (submissions d) (statistics d) (team_members d) (client_logos d) x.

(** [Service.title] and [Service.slug] are [unique=True]: does a row other
    than the one keyed [self] already hold the title or the slug of [r]? *)
Definition service_clash (self : option nat) (r : Service.t) (rows : list Service.t) : bool :=
  existsb (fun x =>
             negb (bool_decide (self = Some (Service.id x)))
             && (String.eqb (Service.title x) (Service.title r)
                 || String.eqb (Service.slug x) (Service.slug r))) rows.

(** [Statistic.name] is [unique=True]. *)
Definition statistic_clash (self : option nat) (r : Statistic.t) (rows : list Statistic.t) : bool :=
  existsb (fun x =>
             negb (bool_decide (self = Some (Statistic.id x)))
             && String.eqb (Statistic.name x) (Statistic.name r)) rows.

(** An INTEGER column takes a signed value of 64 bits; the driver raises
    [OverflowError] when it is given another one. *)
Definition fits_sqlite_integer (n : Z) : bool :=
  (- 2 ^ 63 <=? n)%Z && (n <? 2 ^ 63)%Z.

(** The outcome of the INSERT or UPDATE of a row whose integers submitted
    with the request are [integers]: the values are bound before the
    statement runs and meets the constraints. *)
Definition note_violation (integers : list Z) (clash : bool) (constraint : string)
    (s : session) : option exn :=
  match violation s with
  | Some e => Some e
  | None =>
      if negb (forallb fits_sqlite_integer integers) then Some OverflowError
      else if clash then Some (IntegrityError constraint) else None
  end.

(** [Model.query.get(i)] on the pending database. *)
Definition query_get (m : model) (i : nat) (d : database) : option entity :=
  match m with
  | ProjectModel => EProject <$> table_get i (projects d)
  | BlogPostModel => EBlogPost <$> table_get i (blog_posts d)
  | TestimonialModel => ETestimonial <$> table_get i (testimonials d)
  | ContactSubmissionModel => EContactSubmission <$> table_get i (submissions d)
  | StatisticModel => EStatistic <$> table_get i (statistics d)
  | TeamMemberModel => ETeamMember <$> table_get i (team_members d)
  | ServiceModel => EService <$> table_get i (services d)
  | ClientLogoModel => EClientLogo <$> table_get i (client_logos d)
  | CertificationModel => ECertification <$> table_get i (certifications d)
  end.

(** [db.session.add(new_item)]: the row is inserted under a fresh key; the
    columns with [default=datetime.datetime.utcnow] take the time [now]. *)
Definition session_add (now : Z) (e : entity) (s : session) : session :=
  let d := pending s in
  match e with
  | EProject r =>
      let r := Project.mk 0 (Project.title r) (Project.client r) (Project.location r)
                 (Project.project_value r) (Project.completion_date r) (Project.details r)
                 (Project.image_url r) (Project.category r) now in
      mksession (set_projects (table_insert r (projects d)) d) (violation s)
  | EBlogPost r =>
      let r := BlogPost.mk 0 (BlogPost.title r) (BlogPost.content r) (BlogPost.author r) now in
      mksession (set_blog_posts (table_insert r (blog_posts d)) d) (violation s)
  | ETestimonial r =>
      mksession (set_testimonials (table_insert r (testimonials d)) d) (violation s)
  | EContactSubmission r =>
      let r := ContactSubmission.mk 0 (ContactSubmission.name r) (ContactSubmission.email r)
                 (ContactSubmission.subject r) (ContactSubmission.message r) now in
      mksession (set_submissions (table_insert r (submissions d)) d) (violation s)
  | EStatistic r =>
      mksession (set_statistics (table_insert r (statistics d)) d)
                (note_violation [Statistic.value r; Statistic.order_num r]
                   (statistic_clash None r (statistics d)) "statistic.name" s)
  | ETeamMember r =>
      mksession (set_team_members (table_insert r (team_members d)) d)
                (note_violation [TeamMember.order_num r] false "" s)
  | EService r =>
      mksession (set_services (table_insert r (services d)) d)
                (note_violation [Service.order_num r]
                   (service_clash None r (services d)) "service.title, service.slug" s)
  | EClientLogo r =>
      mksession (set_client_logos (table_insert r (client_logos d)) d)
                (note_violation [ClientLogo.order_num r] false "" s)
  | ECertification r =>
      mksession (set_certifications (table_insert r (certifications d)) d)
                (note_violation [Certification.order_num r] false "" s)
  end.

(** [db.session.add(ProjectImage(...))] *)
Definition session_add_image (r : ProjectImage.t) (s : session) : session :=
  let d := pending s in
  mksession (set_project_images (table_insert r (project_images d)) d) (violation s).

(** The attribute assignments [item.x = ...] on a loaded row, written back
    when the session is flushed. *)
Definition session_update (e : entity) (s : session) : session :=
  let d := pending s in
  match e with
  | EProject r => mksession (set_projects (table_update r (projects d)) d) (violation s)
  | EBlogPost r => mksession (set_blog_posts (table_update r (blog_posts d)) d) (violation s)
  | ETestimonial r => mksession (set_testimonials (table_update r (testimonials d)) d) (violation s)
  | EContactSubmission r => mksession (set_submissions (table_update r (submissions d)) d) (violation s)
  | EStatistic r =>
      mksession (set_statistics (table_update r (statistics d)) d)
                (note_violation [Statistic.value r; Statistic.order_num r]
                   (statistic_clash (Some (Statistic.id r)) r (statistics d))
                   "statistic.name" s)
  | ETeamMember r =>
      mksession (set_team_members (table_update r (team_members d)) d)
                (note_violation [TeamMember.order_num r] false "" s)
  | EService r =>
      mksession (set_services (table_update r (services d)) d)
                (note_violation [Service.order_num r]
                   (service_clash (Some (Service.id r)) r (services d))
                   "service.title, service.slug" s)
  | EClientLogo r =>
      mksession (set_client_logos (table_update r (client_logos d)) d)
                (note_violation [ClientLogo.order_num r] false "" s)
  | ECertification r =>
      mksession (set_certifications (table_update r (certifications d)) d)
                (note_violation [Certification.order_num r] false "" s)
  end.

(** [Project.images]: the [ProjectImage] rows whose [project_id] is the
    project's key. *)
Definition images_of (project : nat) (d : database) : list ProjectImage.t :=
  List.filter (fun im => Nat.eqb (ProjectImage.project_id im) project) (project_images d).

(** [db.session.delete(item)].  Deleting a [Project] deletes its
    [ProjectImage] rows with it ([cascade="all, delete-orphan"]). *)
Definition session_delete (e : entity) (s : session) : session :=
  let d := pending s in
  let d' :=
    match e with
    | EProject r =>
        set_project_images
          (List.filter (fun im => negb (Nat.eqb (ProjectImage.project_id im) (Project.id r)))
                       (project_images d))
          (set_projects (table_delete (Project.id r) (projects d)) d)
    | EBlogPost r => set_blog_posts (table_delete (BlogPost.id r) (blog_posts d)) d
    | ETestimonial r => set_testimonials (table_delete (Testimonial.id r) (testimonials d)) d
    | EContactSubmission r => set_submissions (table_delete (ContactSubmission.id r) (submissions d)) d
    | EStatistic r => set_statistics (table_delete (Statistic.id r) (statistics d)) d
    | ETeamMember r => set_team_members (table_delete (TeamMember.id r) (team_members d)) d
    | EService r => set_services (table_delete (Service.id r) (services d)) d
    | EClientLogo r => set_client_logos (table_delete (ClientLogo.id r) (client_logos d)) d
    | ECertification r => set_certifications (table_delete (Certification.id r) (certifications d)) d
    end in
  mksession d' (violation s).

(** [db.session.delete(image_to_delete)] *)
Definition session_delete_image (i : nat) (s : session) : session :=
  let d := pending s in
  mksession (set_project_images (table_delete i (project_images d)) d) (violation s).

(** [db.session.commit()] *)
Definition commit (s : session) : M unit :=
  match violation s with
  | Some e => raise e
  | None => fun w => (Returned tt, set_db (pending s) w)
  end.

(** [Model.query.get_or_404(item_id)].  The keys of a table are SQLite
    integers, so an [item_id] of 2^63 or more is the key of no row: the
    driver cannot bind it and raises [OverflowError], where a missing key
    that it can bind is answered by 404. *)
Definition get_or_404 (m : model) (item_id : nat) : M entity :=
  fun w => match query_get m item_id (db w) with
           | Some e => (Returned e, w)
           | None =>
               if fits_sqlite_integer (Z.of_nat item_id) then (Raised NotFound, w)
               else (Raised OverflowError, w)
           end.

(** ** The admin routes *)

(** The [login_required] decorator. *)
Definition login_required (f : M response) : M response :=
  fun w => match session_user w with
           | None => (flash "Please log in to access this page." "warning";;
                      ret (Redirect Login)) w
           | Some _ => f w
           end.

(** The slug of a service title:
    [title.lower().replace(' ', '-').replace('&', 'and').replace('/', '_')]. *)
Definition slugify (py : Py.runtime) (title : string) : string :=
  Py.replace "/" "_" (Py.replace "&" "and" (Py.replace " " "-" (Py.lower py title))).

(** [content_type.replace("_", " ").title()[:-1]], the name in the
    flashed messages. *)
Definition display_name (content_type : string) : string :=
  Py.drop_last (Py.title (Py.replace "_" " " content_type)).

(** The guard ['field' not in request.files or
    request.files['field'].filename == '']. *)
Definition upload_missing (field : string) (rq : request) : bool :=
  match multi_get field (files rq) with
  | None => true
  | Some file => String.eqb (filename file) ""
  end.

(** The upload that passes [if 'field' in request.files:] and then
    [if file and file.filename != '':], if there is one. *)
Definition upload_given (field : string) (rq : request) : option FileStorage :=
  match multi_get field (files rq) with
  | None => None
  | Some file => if String.eqb (filename file) "" then None else Some file
  end.

(** The [models] dictionary of [manage_content] and of [edit_content]. *)
Definition manage_models : gmap string model :=
  list_to_map [
    ("projects", ProjectModel); ("blog", BlogPostModel); ("testimonials", TestimonialModel);
    ("statistics", StatisticModel); ("team_members", TeamMemberModel);
    ("services", ServiceModel); ("client_logos", ClientLogoModel);
    ("certifications", CertificationModel) ].

Definition edit_models : gmap string model :=
  list_to_map [
    ("projects", ProjectModel); ("blog", BlogPostModel); ("testimonials", TestimonialModel);
    ("statistics", StatisticModel); ("team_members", TeamMemberModel);
    ("services", ServiceModel); ("client_logos", ClientLogoModel);
    ("certifications", CertificationModel) ].

(** The [models] dictionary of [delete_content]. *)
Definition delete_models : gmap string model :=
  list_to_map [
    ("projects", ProjectModel); ("blog", BlogPostModel); ("testimonials", TestimonialModel);
    ("submissions", ContactSubmissionModel); ("statistics", StatisticModel);
    ("team_members", TeamMemberModel); ("services", ServiceModel);
    ("client_logos", ClientLogoModel); ("certifications", CertificationModel) ].

(** *** Create: the POST half of [manage_content]

    A branch either returns a response at once, or leaves [new_item]
    bound, or leaves it unbound. *)
Inductive created :=
| Respond (r : response)
| NewItem (new_item : entity)
| NoItem.

Definition image_required (message : string) (rq : request) : M created :=
  flash message "danger";;
  ret (Respond (Redirect (Url (url rq)))).

Definition create_project (rq : request) : M created :=
  if upload_missing "project_image" rq
  then image_required "An image file is required for the project." rq
  else
    let* file := multi_index "project_image" (files rq) in
    let* filename := optimize_with_tinypng file default_max_width None in
    if Py.truthy filename then
      let* title := multi_index "title" (form rq) in
      let* details := multi_index "details" (form rq) in
      let* category := multi_index "category" (form rq) in
      ret (NewItem (EProject
        (Project.mk 0 title (multi_get "client" (form rq)) (multi_get "location" (form rq))
           (multi_get "project_value" (form rq)) (multi_get "completion_date" (form rq))
           details filename category 0)))
    else ret NoItem.

Definition create_blog (rq : request) : M created :=
  let* title := multi_index "title" (form rq) in
  let* content := multi_index "content" (form rq) in
  ret (NewItem (EBlogPost (BlogPost.mk 0 title content "Admin" 0))).

Definition create_testimonial (rq : request) : M created :=
  let* author := multi_index "author" (form rq) in
  let* quote := multi_index "quote" (form rq) in
  ret (NewItem (ETestimonial
    (Testimonial.mk 0 author (Some (multi_get_default "position" "" (form rq))) quote))).

Definition create_statistic (rq : request) : M created :=
  let* name := multi_index "name" (form rq) in
  let* value := form_int "value" (form rq) in
  let* icon := multi_index "icon" (form rq) in
  let* order_num := form_int "order_num" (form rq) in
  ret (NewItem (EStatistic (Statistic.mk 0 name value icon order_num))).

Definition create_team_member (rq : request) : M created :=
  if upload_missing "member_image" rq
  then image_required "An image file is required for the team member." rq
  else
    let* file := multi_index "member_image" (files rq) in
    let* filename := optimize_with_tinypng file (Some 800%N) None in
    if Py.truthy filename then
      let* name := multi_index "name" (form rq) in
      let* position := multi_index "position" (form rq) in
      let* bio := multi_index "bio" (form rq) in
      let* order_num := form_int "order_num" (form rq) in
      ret (NewItem (ETeamMember
        (TeamMember.mk 0 name position (Some bio) (default "" filename) order_num)))
    else ret NoItem.

Definition create_service (rq : request) : M created :=
  let* service_title := multi_index "title" (form rq) in
  let* w := get_world in
  let service_slug := slugify (python w) service_title in
  if upload_missing "service_thumbnail_image" rq
  then image_required "A service thumbnail image is required." rq
  else
    let* file := multi_index "service_thumbnail_image" (files rq) in
    let* thumbnail_image_filename := optimize_with_tinypng file (Some 150%N) (Some 150%N) in
    let* header_image_filename :=
      match upload_given "service_header_image" rq with
      | Some file => optimize_with_tinypng file (Some 1920%N) None
      | None => ret None
      end in
    let* summary := multi_index "summary" (form rq) in
    let* full_content := multi_index "full_content" (form rq) in
    let* order_num := form_int "order_num" (form rq) in
    ret (NewItem (EService
      (Service.mk 0 service_title service_slug thumbnail_image_filename summary
         full_content order_num header_image_filename
         (multi_get "project_category_link" (form rq))))).

Definition create_client_logo (rq : request) : M created :=
  if upload_missing "logo_image" rq
  then image_required "An image file is required for the client logo." rq
  else
    let* file := multi_index "logo_image" (files rq) in
    let* filename := optimize_with_tinypng file (Some 400%N) None in
    if Py.truthy filename then
      let* name := multi_index "name" (form rq) in
      let* order_num := form_int "order_num" (form rq) in
      ret (NewItem (EClientLogo
        (ClientLogo.mk 0 name (default "" filename)
           (Some (multi_get_default "website_url" "" (form rq))) order_num)))
    else ret NoItem.

Definition create_certification (rq : request) : M created :=
  if upload_missing "certification_image" rq
  then image_required "A certification image file is required." rq
  else
    let* file := multi_index "certification_image" (files rq) in
    let* filename := optimize_with_tinypng file (Some 200%N) (Some 200%N) in
    if Py.truthy filename then
      let* name := multi_index "name" (form rq) in
      let* order_num := form_int "order_num" (form rq) in
      ret (NewItem (ECertification
        (Certification.mk 0 name (Some (multi_get_default "issuing_body" "" (form rq)))
           filename order_num)))
    else
      flash "Failed to upload certification image." "danger";;
      ret (Respond (Redirect (Url (url rq)))).

(** The [if content_type == ... elif ...] chain of the POST half. *)
Definition create (content_type : string) (rq : request) : M created :=
  if String.eqb content_type "projects" then create_project rq
  else if String.eqb content_type "blog" then create_blog rq
  else if String.eqb content_type "testimonials" then create_testimonial rq
  else if String.eqb content_type "statistics" then create_statistic rq
  else if String.eqb content_type "team_members" then create_team_member rq
  else if String.eqb content_type "services" then create_service rq
  else if String.eqb content_type "client_logos" then create_client_logo rq
  else if String.eqb content_type "certifications" then create_certification rq
  else ret NoItem.

(** [manage_content(content_type)].  The template context of the GET half
    (the listed rows) is not modelled. *)
Definition manage_content (content_type : string) (rq : request) : M response :=
  login_required
    match manage_models !! content_type with
    | None =>
        flash "Invalid content type." "danger";;
        ret (Redirect Dashboard)
    | Some Model =>
        match method rq with
        | POST =>
            let* outcome := create content_type rq in
            match outcome with
            | Respond r => ret r
            | NewItem new_item =>
                let* w := get_world in
                commit (session_add (utcnow w) new_item (begin (db w)));;
                flash (display_name content_type ++ " added successfully!") "success";;
                ret (Redirect (ManageContent content_type))
            | NoItem => ret (Redirect (ManageContent content_type))
            end
        | GET => ret (RenderTemplate "admin/manage_content.html" content_type)
        end
    end.

(** *** Update: the POST half of [edit_content] *)

(** [if filename: item.field = filename] *)
Definition assign_if (filename current : option string) : option string :=
  if Py.truthy filename then filename else current.

(** The gallery loop: every non-empty upload that the optimizer accepts
    becomes a new [ProjectImage] row of the project. *)
Fixpoint add_gallery_images (project_id : nat) (gallery : list FileStorage)
    (s : session) : M session :=
  match gallery with
  | [] => ret s
  | file :: rest =>
      if String.eqb (filename file) "" then add_gallery_images project_id rest s
      else
        let* filename := optimize_with_tinypng file (Some 1200%N) None in
        add_gallery_images project_id rest
          (if Py.truthy filename
           then session_add_image (ProjectImage.mk 0 (default "" filename) project_id) s
           else s)
  end.

(** [ProjectImage.query.get(img_id)] for an id taken from the form.  The
    text goes to SQLite as it is and is compared with the INTEGER key of
    the table: the row found is the one whose key SQLite reads in the
    text, and a text in which it reads no integer finds nothing. *)
Definition image_by_form_id (as_integer : string -> option Z) (img_id : string)
    (d : database) : option ProjectImage.t :=
  match as_integer img_id with
  | Some z => if (0 <=? z)%Z then table_get (Z.to_nat z) (project_images d) else None
  | None => None
  end.

(** The [delete_images] loop. *)
Fixpoint delete_gallery_images (ids : list string) (s : session) : M session :=
  match ids with
  | [] => ret s
  | img_id :: rest =>
      let* w := get_world in
      match image_by_form_id (sqlite_integer w) img_id (pending s) with
      | Some image_to_delete =>
          try_remove (ProjectImage.image_url image_to_delete);;
          delete_gallery_images rest (session_delete_image (ProjectImage.id image_to_delete) s)
      | None => delete_gallery_images rest s
      end
  end.

Definition edit_project (item : Project.t) (rq : request) (s : session) : M session :=
  let* title := multi_index "title" (form rq) in
  let* details := multi_index "details" (form rq) in
  let* category := multi_index "category" (form rq) in
  let* image_url :=
    match upload_given "project_image" rq with
    | Some file =>
        let* filename := optimize_with_tinypng file default_max_width None in
        ret (assign_if filename (Project.image_url item))
    | None => ret (Project.image_url item)
    end in
  let item' :=
    Project.mk (Project.id item) title (multi_get "client" (form rq))
      (multi_get "location" (form rq)) (multi_get "project_value" (form rq))
      (multi_get "completion_date" (form rq)) details image_url category
      (Project.date_posted item) in
  let* s := add_gallery_images (Project.id item) (multi_getlist "gallery_images" (files rq))
              (session_update (EProject item') s) in
  delete_gallery_images (multi_getlist "delete_images" (form rq)) s.

Definition edit_blog (item : BlogPost.t) (rq : request) (s : session) : M session :=
  let* title := multi_index "title" (form rq) in
  let* content := multi_index "content" (form rq) in
  ret (session_update
         (EBlogPost (BlogPost.mk (BlogPost.id item) title content (BlogPost.author item)
                       (BlogPost.date_posted item))) s).

Definition edit_testimonial (item : Testimonial.t) (rq : request) (s : session) : M session :=
  let* author := multi_index "author" (form rq) in
  let* quote := multi_index "quote" (form rq) in
  ret (session_update
         (ETestimonial (Testimonial.mk (Testimonial.id item) author
                          (Some (multi_get_default "position" "" (form rq))) quote)) s).

Definition edit_statistic (item : Statistic.t) (rq : request) (s : session) : M session :=
  let* name := multi_index "name" (form rq) in
  let* value := form_int "value" (form rq) in
  let* icon := multi_index "icon" (form rq) in
  let* order_num := form_int "order_num" (form rq) in
  ret (session_update (EStatistic (Statistic.mk (Statistic.id item) name value icon order_num)) s).

Definition edit_team_member (item : TeamMember.t) (rq : request) (s : session) : M session :=
  let* name := multi_index "name" (form rq) in
  let* position := multi_index "position" (form rq) in
  let* bio := multi_index "bio" (form rq) in
  let* order_num := form_int "order_num" (form rq) in
  let* image_url :=
    match upload_given "member_image" rq with
    | Some file =>
        let* filename := optimize_with_tinypng file (Some 800%N) None in
        ret (if Py.truthy filename then default "" filename else TeamMember.image_url item)
    | None => ret (TeamMember.image_url item)
    end in
  ret (session_update
         (ETeamMember (TeamMember.mk (TeamMember.id item) name position (Some bio)
                         image_url order_num)) s).

(** The block that the service thumbnail, the service header image and the
    certification image share: [if item.field:], then
    [if os.path.exists(old_image_path):], then the guarded [os.remove]. *)
Definition remove_old_image (old : option string) : M unit :=
  if Py.truthy old then
    let* there := path_exists (default "" old) in
    if there then try_remove (default "" old) else ret tt
  else ret tt.

(** One single-image field of an edit: with a non-empty upload, the old
    file is removed, then the optimizer runs, then the field is assigned if
    the optimizer gave a name.  The result is the value of the field. *)
Definition edit_single_image (field : string) (old : option string)
    (max_width max_height : option N) (rq : request) : M (option string) :=
  match upload_given field rq with
  | Some file =>
      remove_old_image old;;
      let* filename := optimize_with_tinypng file max_width max_height in
      ret (assign_if filename old)
  | None => ret old
  end.

Definition edit_service (item : Service.t) (rq : request) (s : session) : M session :=
  let* title := multi_index "title" (form rq) in
  let* w := get_world in
  let slug := slugify (python w) title in
  let* summary := multi_index "summary" (form rq) in
  let* full_content := multi_index "full_content" (form rq) in
  let* order_num := form_int "order_num" (form rq) in
  let project_category_link := multi_get "project_category_link" (form rq) in
  let* image_url :=
    edit_single_image "service_thumbnail_image" (Service.image_url item)
      (Some 150%N) (Some 150%N) rq in
  let* header_image_url :=
    edit_single_image "service_header_image" (Service.header_image_url item)
      (Some 1920%N) None rq in
  ret (session_update
         (EService (Service.mk (Service.id item) title slug image_url summary full_content
                      order_num header_image_url project_category_link)) s).

Definition edit_certification (item : Certification.t) (rq : request) (s : session) : M session :=
  let* name := multi_index "name" (form rq) in
  let issuing_body := multi_get_default "issuing_body" "" (form rq) in
  let* order_num := form_int "order_num" (form rq) in
  let* image_url :=
    edit_single_image "certification_image" (Certification.image_url item)
      (Some 200%N) (Some 200%N) rq in
  ret (session_update
         (ECertification (Certification.mk (Certification.id item) name (Some issuing_body)
                            image_url order_num)) s).

(** The [if content_type == ... elif ...] chain of the POST half; there is
    no branch for ['client_logos'].  The registry pairs each identifier with
    its model, so the loaded item is of the branch's class. *)
Definition edit (content_type : string) (item : entity) (rq : request) (s : session) : M session :=
  if String.eqb content_type "projects" then
    match item with EProject r => edit_project r rq s | _ => ret s end
  else if String.eqb content_type "blog" then
    match item with EBlogPost r => edit_blog r rq s | _ => ret s end
  else if String.eqb content_type "testimonials" then
    match item with ETestimonial r => edit_testimonial r rq s | _ => ret s end
  else if String.eqb content_type "statistics" then
    match item with EStatistic r => edit_statistic r rq s | _ => ret s end
  else if String.eqb content_type "team_members" then
    match item with ETeamMember r => edit_team_member r rq s | _ => ret s end
  else if String.eqb content_type "services" then
    match item with EService r => edit_service r rq s | _ => ret s end
  else if String.eqb content_type "certifications" then
    match item with ECertification r => edit_certification r rq s | _ => ret s end
  else ret s.

(** [edit_content(content_type, item_id)].  The template context of the
    GET half is not modelled. *)
Definition edit_content (content_type : string) (item_id : nat) (rq : request) : M response :=
  login_required
    match edit_models !! content_type with
    | None =>
        flash "Invalid content type." "danger";;
        ret (Redirect Dashboard)
    | Some Model =>
        let* item := get_or_404 Model item_id in
        match method rq with
        | POST =>
            let* w := get_world in
            let* s := edit content_type item rq (begin (db w)) in
            commit s;;
            flash (display_name content_type ++ " updated successfully!") "success";;
            ret (Redirect (ManageContent content_type))
        | GET => ret (RenderTemplate "admin/edit_content.html" content_type)
        end
    end.

(** *** Delete *)

(** [hasattr(item, 'image_url') and item.image_url], as the name to
    remove. *)
Definition entity_image_url (item : entity) : option string :=
  match item with
  | EProject r => Project.image_url r
  | EService r => Service.image_url r
  | ETeamMember r => Some (TeamMember.image_url r)
  | EClientLogo r => Some (ClientLogo.image_url r)
  | ECertification r => Certification.image_url r
  | EBlogPost _ | ETestimonial _ | EContactSubmission _ | EStatistic _ => None
  end.

(** [for img in item.images:] with the guarded [os.remove]. *)
Fixpoint remove_gallery_files (images : list ProjectImage.t) : M unit :=
  match images with
  | [] => ret tt
  | img :: rest => try_remove (ProjectImage.image_url img);; remove_gallery_files rest
  end.

(** [delete_content(content_type, item_id)]; the route accepts POST only. *)
Definition delete_content (content_type : string) (item_id : nat) (rq : request) : M response :=
  login_required
    match delete_models !! content_type with
    | None => ret (Status "Invalid content type" 404)
    | Some Model =>
        let* item := get_or_404 Model item_id in
        (if Py.truthy (entity_image_url item)
         then try_remove (default "" (entity_image_url item)) else ret tt);;
        let* w := get_world in
        (match item with
         | EProject r =>
             if String.eqb content_type "projects"
             then remove_gallery_files (images_of (Project.id r) (db w)) else ret tt
         | _ => ret tt
         end);;
        (match item with
         | EService r =>
             if String.eqb content_type "services" && Py.truthy (Service.header_image_url r)
             then try_remove (default "" (Service.header_image_url r)) else ret tt
         | _ => ret tt
         end);;
        commit (session_delete item (begin (db w)));;
        flash (display_name content_type ++ " deleted.") "info";;
        if String.eqb content_type "submissions"
        then ret (Redirect Dashboard)
        else ret (Redirect (ManageContent content_type))
    end.

(** ** The other routes that reach the database or the upload directory *)

Definition set_session_user (u : option nat) (w : world) : world :=
  mkworld (uploads w) (db w) u (flashes w) (utcnow w) (tinify w)
    (python w) (name_max w) (sqlite_integer w).

(** [logout()]: [session.pop('user_id', None)] (the user name kept beside
    it in the session is read by no route), a message, and the redirect to
    the login page. *)
Definition logout : M response :=
  fun w => (flash "You have been logged out." "info";;
            ret (Redirect Login)) (set_session_user None w).

(** The answers of the public routes modelled here. *)
Inductive public_response :=
| Json (status message : string)        (* jsonify({'status': ..., 'message': ...}) *)
| Page (template : string).             (* render_template(template) *)

(** [contact()]: a POST stores the four form fields as a new
    [ContactSubmission]; the route asks for no login. *)
Definition contact (rq : request) : M public_response :=
  match method rq with
  | POST =>
      let* name := multi_index "name" (form rq) in
      let* email := multi_index "email" (form rq) in
      let* subject := multi_index "subject" (form rq) in
      let* message := multi_index "message" (form rq) in
      let* w := get_world in
      commit (session_add (utcnow w)
                (EContactSubmission (ContactSubmission.mk 0 name email (Some subject) message 0))
                (begin (db w)));;
      ret (Json "success" "Thank you! Your message has been sent successfully.")
  | GET => ret (Page "contact.html")
  end.

(** Does the string hold the character? *)
Fixpoint contains (c : ascii) (s : string) : bool :=
  match s with
  | EmptyString => false
  | String d s' => Ascii.eqb d c || contains c s'
  end.

(** [uploaded_file(filename)], that is
    [send_from_directory(app.config['UPLOAD_FOLDER'], filename)]: the bytes
    of the file of that name.  The route gives the function one path
    segment; [safe_join] refuses [..], and what is not a regular file of the
    directory (the directory itself, a missing name) is answered by 404. *)
Definition uploaded_file (filename : string) : M bytes :=
  fun w =>
    if contains "/" filename || String.eqb filename "" || String.eqb filename "."
       || String.eqb filename ".."
    then (Raised NotFound, w)
    else match uploads w !! filename with
         | Some data => (Returned data, w)
         | None => (Raised NotFound, w)
         end.

(** [Model.query.all()], in table order. *)
Definition query_all (m : model) (d : database) : list entity :=
  match m with
  | ProjectModel => EProject <$> projects d
  | BlogPostModel => EBlogPost <$> blog_posts d
  | TestimonialModel => ETestimonial <$> testimonials d
  | ContactSubmissionModel => EContactSubmission <$> submissions d
  | StatisticModel => EStatistic <$> statistics d
  | TeamMemberModel => ETeamMember <$> team_members d
  | ServiceModel => EService <$> services d
  | ClientLogoModel => EClientLogo <$> client_logos d
  | CertificationModel => ECertification <$> certifications d
  end.

(** [item.id] *)
Definition entity_id (item : entity) : nat :=
  match item with
  | EProject r => Project.id r
  | EBlogPost r => BlogPost.id r
  | ETestimonial r => Testimonial.id r
  | EContactSubmission r => ContactSubmission.id r
  | EStatistic r => Statistic.id r
  | ETeamMember r => TeamMember.id r
  | EService r => Service.id r
  | EClientLogo r => ClientLogo.id r
  | ECertification r => Certification.id r
  end.

(** A computation that leaves the database, the session, the clock and the
    remote service as they are, whatever it returns or raises: it can only
    write or remove files and flash messages. *)
Definition keeps_data {A} (m : M A) : Prop :=
  forall w, same_data w (m w).2.


(** The model class of an instance. *)
Definition model_of (item : entity) : model :=
  match item with
  | EProject _ => ProjectModel
  | EBlogPost _ => BlogPostModel
  | ETestimonial _ => TestimonialModel
  | EContactSubmission _ => ContactSubmissionModel
  | EStatistic _ => StatisticModel
  | ETeamMember _ => TeamMemberModel
  | EService _ => ServiceModel
  | EClientLogo _ => ClientLogoModel
  | ECertification _ => CertificationModel
  end.

(** A create branch that binds [new_item] only to instances with the
    property [P]. *)
Definition creates_only (P : entity -> Prop) (m : M created) : Prop :=
  forall w new_item, (m w).1 = Returned (NewItem new_item) -> P new_item.




(** The characters that the slug derivation replaces or lowers. *)
Definition slug_char_ok (c : ascii) : bool :=
  negb (Ascii.eqb c " " || Ascii.eqb c "&" || Ascii.eqb c "/" || Py.is_upper c).

(** The answer of [login_required] to a request without a logged-in user. *)
Definition refused (w : world) : result response * world :=
  (Returned (Redirect Login),
   set_flashes (flashes w ++ [("Please log in to access this page.", "warning")]) w).


(** A computation whose returned values all have the property [P]. *)
Definition returns_only {A} (P : A -> Prop) (m : M A) : Prop :=
  forall w a, (m w).1 = Returned a -> P a.

(** A session whose pending database agrees with [d] on every row other
    than the row of [Model] under the id [i]. *)
Definition touches_only (Model : model) (i : nat) (d : database) (s : session) : Prop :=
  forall Other j,
    Other <> Model \/ j <> i ->
    query_get Other j (pending s) = query_get Other j d.


(** The file that an image column names, if it names one (Python truth
    value of the column). *)
Definition owned (column : option string) : list string :=
  match column with
  | Some name => if String.eqb name "" then [] else [name]
  | None => []
  end.

(** The files that the columns of an instance name: its [image_url] and,
    for a service, its [header_image_url]. *)
Definition entity_images (item : entity) : list string :=
  match item with
  | EProject r => owned (Project.image_url r)
  | EService r => (owned (Service.image_url r) ++ owned (Service.header_image_url r))%list
  | ETeamMember r => owned (Some (TeamMember.image_url r))
  | EClientLogo r => owned (Some (ClientLogo.image_url r))
  | ECertification r => owned (Certification.image_url r)
  | EBlogPost _ | ETestimonial _ | EContactSubmission _ | EStatistic _ => []
  end.


(** * Statements under test and worked inputs *)

(** ** Sample data *)

Definition empty_db : database := mkdb [] [] [] [] [] [] [] [] [] [].

Definition png : bytes := [Byte.x89; Byte.x50; Byte.x4e; Byte.x47].
Definition webp : bytes := [Byte.x52; Byte.x49; Byte.x46; Byte.x46].
Definition stale : bytes := [Byte.x00; Byte.x01].

(** A remote service that converts every image, one that refuses every
    image with a service error, and one whose client fails in another
    way. *)
Definition service_up : bytes -> resize -> result bytes :=
  fun _ _ => Returned webp.
Definition service_down : bytes -> resize -> result bytes :=
  fun _ _ => Raised (TinifyError "Credentials are invalid.").
Definition service_broken : bytes -> resize -> result bytes :=
  fun _ _ => Raised (RuntimeError "unexpected failure").

(** An interpreter that knows ASCII only: lowering leaves the bytes of
    other characters as they are, encoding a name to ASCII drops them, and
    [int] reads no digit in them; its limit on the digits of a literal is
    the default of 4300.  On ASCII text, which is all that the worked
    inputs hold, it is any interpreter. *)
Definition ascii_python : Py.runtime.
Proof.
  assert (Hchar : forall c, Py.is_upper (Py.lower_char c) = false
                            /\ Py.lower_char (Py.lower_char c) = Py.lower_char c
                            /\ (Py.is_upper c = false -> Py.lower_char c = c)).
  { abstract (intros [[] [] [] [] [] [] [] []]; vm_compute; repeat split; congruence). }
  assert (Hsame : forall s, Py.lower_with Py.lower_ascii s = Py.lower_ascii s).
  { abstract (intros s; unfold Py.lower_with; destruct (all_chars is_ascii s); reflexivity). }
  refine (Py.mkruntime Py.lower_ascii (Py.filter is_ascii) (fun s => s) 4300 _ _ _).
  - abstract (intros s; induction s as [|c s IH]; [reflexivity|];
              cbn [Py.lower_ascii all_chars]; rewrite IH;
              destruct (Hchar c) as (-> & _); reflexivity).
  - abstract (intros s; rewrite Hsame; induction s as [|c s IH]; [reflexivity|];
              cbn [Py.lower_ascii]; rewrite IH;
              destruct (Hchar c) as (_ & -> & _); reflexivity).
  - abstract (intros a c t b _ Ht; rewrite !Hsame;
              induction a as [|x a IH];
              [ change ("" ++ String c b) with (String c b);
                change ("" ++ t ++ b) with (t ++ b);
                cbn [Py.lower_ascii]; intros [= _ Hb];
                induction t as [|d t IHt]; [exact Hb|];
                cbn [all_chars] in Ht; apply andb_prop in Ht as [Hd Ht];
                apply andb_prop in Hd as [_ Hd]; apply negb_true_iff in Hd;
                change (String d t ++ b) with (String d (t ++ b));
                cbn [Py.lower_ascii];
                destruct (Hchar d) as (_ & _ & Hfix); rewrite (Hfix Hd), (IHt Ht); reflexivity
              | change (String x a ++ String c b) with (String x (a ++ String c b));
                change (String x a ++ t ++ b) with (String x (a ++ t ++ b));
                cbn [Py.lower_ascii]; intros [= Hx Hrest];
                rewrite Hx, (IH Hrest); reflexivity ]).
Defined.

(** SQLite's reading of a text of decimal digits, which is how the worked
    inputs write a key. *)
Fixpoint decimal_from (acc : Z) (s : string) : option Z :=
  match s with
  | EmptyString => Some acc
  | String c s' =>
      if Py.is_digit c
      then decimal_from (10 * acc + Z.of_nat (nat_of_ascii c - 48)) s'
      else None
  end.

Definition decimal_key (s : string) : option Z :=
  match s with
  | EmptyString => None
  | _ => decimal_from 0 s
  end.

(** An admin is logged in; file names can have 255 bytes. *)
Definition admin_world (files : list (string * bytes)) (d : database)
    (remote : bytes -> resize -> result bytes) : world :=
  mkworld (list_to_map files) d (Some 1) [] 0 remote ascii_python 255 decimal_key.

(** ** The fallback of the optimizer, as the specification words it *)

(** With a non-empty upload and a remote service error, the original bytes
    are written under the sanitized name, that name is returned, and exactly
    one new file is left in the directory. *)
Definition fallback_leaves_one_new_file (w : world) (file : FileStorage)
    (max_width max_height : option N) : Prop :=
  forall data message,
    filename file <> "" -> stream file = Some data -> data <> [] ->
    tinify w data (resize_method max_width max_height) = Raised (TinifyError message) ->
    exists w',
      optimize_with_tinypng file max_width max_height w
        = (Returned (Some (secure_filename (python w) (filename file))), w')
      /\ uploads w' !! secure_filename (python w) (filename file) = Some data
      /\ size (uploads w') = S (size (uploads w)).


(** ** The answer to an unknown content type, as the specification words it *)

(** The request is answered by a redirect to the dashboard, with an error
    message flashed. *)
Definition redirects_to_dashboard_with_error (m : M response) (w : world) : Prop :=
  exists w' message,
    m w = (Returned (Redirect Dashboard), w')
    /\ flashes w' = (flashes w ++ [(message, "danger")])%list.

(** A dispatcher does so for every identifier missing from its registry. *)
Definition unknown_type_redirects (handler : string -> request -> M response)
    (registry : gmap string model) : Prop :=
  forall content_type rq w u,
    registry !! content_type = None ->
    session_user w = Some u ->
    redirects_to_dashboard_with_error (handler content_type rq) w.

Definition post_request (u : string) (fields : list (string * string))
    (uploads : list (string * FileStorage)) : request :=
  mkrequest POST u fields uploads.


(** ** A create request without its required image, as the specification
    words it *)

(** The content types whose create branch insists on an image, with the
    name of the upload field. *)
Definition required_image_field (content_type : string) : option string :=
  if String.eqb content_type "projects" then Some "project_image"
  else if String.eqb content_type "team_members" then Some "member_image"
  else if String.eqb content_type "services" then Some "service_thumbnail_image"
  else if String.eqb content_type "client_logos" then Some "logo_image"
  else if String.eqb content_type "certifications" then Some "certification_image"
  else None.

(** The request omits the field, or supplies it with an empty file name. *)
Definition image_omitted (field : string) (rq : request) : Prop :=
  multi_get field (files rq) = None
  \/ exists file, multi_get field (files rq) = Some file /\ filename file = "".

(** The create fails with the missing-image error: an error message is
    flashed, the client is sent back to the form, and nothing else changes
    (no entity, no file). *)
Definition missing_image_rejected (content_type : string) (rq : request) (w : world) : Prop :=
  exists message,
    manage_content content_type rq w
    = (Returned (Redirect (Url (url rq))),
       set_flashes (flashes w ++ [(message, "danger")]) w).

Definition missing_image_always_rejected : Prop :=
  forall content_type field rq w u,
    required_image_field content_type = Some field ->
    session_user w = Some u ->
    method rq = POST ->
    image_omitted field rq ->
    missing_image_rejected content_type rq w.


Definition solar : Service.t :=
  Service.mk 1 "Solar Systems" "solar-systems" (Some "old-thumb.webp") "Panels"
    "We install panels." 1 (Some "old-banner.webp") None.

Definition solar_form : list (string * string) :=
  [("title", "Solar & Power Systems"); ("summary", "Panels and batteries");
   ("full_content", "We install panels."); ("order_num", "2")].


Definition iso9001 : Certification.t :=
  Certification.mk 1 "ISO 9001" (Some "ISO") (Some "old-cert.webp") 1.

Definition solar_world (remote : bytes -> resize -> result bytes) : world :=
  admin_world [("old-thumb.webp", stale); ("old-banner.webp", stale)]
    (set_services [solar] empty_db) remote.

Definition iso_world (remote : bytes -> resize -> result bytes) : world :=
  admin_world [("old-cert.webp", stale)] (set_certifications [iso9001] empty_db) remote.


Definition banda : TeamMember.t :=
  TeamMember.mk 1 "C. Banda" "Site Engineer" (Some "Roads and drainage.") "old-photo.webp" 1.

Definition banda_form : list (string * string) :=
  [("name", "C. Banda"); ("position", "Project Manager");
   ("bio", "Roads and drainage."); ("order_num", "1")].

Definition banda_world : world :=
  admin_world [("old-photo.webp", stale)] (set_team_members [banda] empty_db) service_up.

Definition office_block : Project.t :=
  Project.mk 4 "Office Block" (Some "Phiri Investments") None None None
    "A three-storey office block." (Some "office.webp") "Building Construction" 0.

Definition office_world : world :=
  admin_world
    [("office.webp", stale); ("site-1.webp", stale); ("site-2.webp", stale);
     ("logo.webp", stale)]
    (set_project_images [ProjectImage.mk 1 "site-1.webp" 4; ProjectImage.mk 2 "site-2.webp" 4]
       (set_projects [office_block] empty_db))
    service_up.

Definition inbox_world : world :=
  admin_world []
    (set_submissions [ContactSubmission.mk 3 "T. Mwale" "t@example.org" (Some "Quote")
                        "Please call." 0] empty_db)
    service_up.


(** ** The slug derivation, as the specification words it *)

(** The three replacements of the derivation, which follow the lowering. *)
Definition slug_replace (s : string) : string :=
  Py.replace "/" "_" (Py.replace "&" "and" (Py.replace " " "-" s)).

(** Lowercase the title and replace spaces, ampersands and slashes with
    fixed substitutes: a space gives a hyphen, an ampersand gives "and", a
    slash gives an underscore, and every other character of the lowered
    title stays. *)
Definition slug_substitute (c : ascii) : string :=
  if Ascii.eqb c " " then "-"
  else if Ascii.eqb c "&" then "and"
  else if Ascii.eqb c "/" then "_"
  else String c "".

Fixpoint substitute_all (s : string) : string :=
  match s with
  | EmptyString => EmptyString
  | String c s' => slug_substitute c ++ substitute_all s'
  end.

Definition slug_as_stated (py : Py.runtime) (title : string) : string :=
  substitute_all (Py.lower py title).

(** ** More sample data *)

Definition anonymous_world : world :=
  mkworld ∅ empty_db None [] 0 service_up ascii_python 255 decimal_key.

Definition site_plan : FileStorage := mkfile "site plan.png" (Some png).

Definition bad_order_request : request :=
  post_request "/admin/manage/team_members"
    [("name", "C. Banda"); ("position", "Site Engineer"); ("bio", "Roads.");
     ("order_num", "first")]
    [("member_image", mkfile "new photo.png" (Some png))].

Definition escom : ClientLogo.t :=
  ClientLogo.mk 2 "ESCOM" "escom-logo.webp" (Some "https://www.escom.mw") 2.

Definition logo_world : world :=
  admin_world [("escom-logo.webp", stale)] (set_client_logos [escom] empty_db) service_up.


Definition contact_request : request :=
  post_request "/contact"
    [("name", "T. Mwale"); ("email", "t@example.org"); ("subject", "Quote");
     ("message", "Please call.")] [].

Definition blog_request : request :=
  post_request "/admin/manage/blog"
    [("title", "Sustainable construction"); ("content", "Green materials.")] [].

(** An office block with one site photograph, beside a photograph that
    belongs to another project. *)
Definition shared_world : world :=
  admin_world [("site-1.webp", stale); ("bridge.webp", stale)]
    (set_project_images [ProjectImage.mk 1 "site-1.webp" 4; ProjectImage.mk 7 "bridge.webp" 9]
       (set_projects [office_block] empty_db))
    service_up.



(** * Properties *)

Example lower_ex py : Py.lower py "Solar & Power" = "solar & power".
Proof. reflexivity. Qed.

Example title_ex : Py.drop_last (Py.title (Py.replace "_" " " "team_members")) = "Team Member".
Proof. reflexivity. Qed.

Example int_ex py :
  Py.int py " -1_000 " = Some (-1000)%Z /\ Py.int py "1__0" = None /\ Py.int py "" = None
  /\ Py.int py "12a" = None /\ Py.int py (String (ascii_of_nat 28) "5") = None
  /\ Py.int py "+ 5" = None /\ Py.int py "007" = Some 7%Z.
Proof. repeat split; reflexivity. Qed.

Example split_ex : Py.split "  my  file name.png " = ["my"; "file"; "name.png"].
Proof. reflexivity. Qed.

Example sf1 py : secure_filename py "My cool movie.mov" = "My_cool_movie.mov".
Proof. reflexivity. Qed.
Example sf2 py : secure_filename py "../../../etc/passwd" = "etc_passwd".
Proof. reflexivity. Qed.
Example sf3 py : secure_filename py "..." = "" /\ secure_filename py "???" = "".
Proof. split; reflexivity. Qed.
Example se1 : splitext "photo.tar.gz" = ("photo.tar", ".gz") /\ splitext ".bashrc" = (".bashrc", "")
   /\ splitext "a/b.c/d" = ("a/b.c/d", "") /\ splitext "" = ("", "") /\ splitext "..x.y" = ("..x", ".y").
Proof. repeat split; reflexivity. Qed.

(** On ASCII text the interpreter does not matter: lowering, sanitizing and
    reading a number give what they give on the interpreter of the worked
    inputs (reading a number, when the limit on digits is the same). *)
Lemma ascii_text_on_any_interpreter (py : Py.runtime) (s : string) :
  all_chars is_ascii s = true ->
  Py.lower py s = Py.lower ascii_python s
  /\ secure_filename py s = secure_filename ascii_python s
  /\ (Py.int_max_str_digits py = 4300 -> Py.int py s = Py.int ascii_python s).
Proof.
  intros Hascii. unfold Py.lower, Py.lower_with, secure_filename, Py.int.
  rewrite Hascii. split; [reflexivity|]. split; [reflexivity|].
  intros ->. reflexivity.
Qed.

(** ** Slug derivation *)

Lemma append_cons (x : ascii) (a b : string) : String x a ++ b = String x (a ++ b).
Proof. reflexivity. Qed.

Lemma append_assoc (a b c : string) : (a ++ b) ++ c = a ++ (b ++ c).
Proof.
  induction a as [|x a IH]; [reflexivity|].
  now rewrite !append_cons, IH.
Qed.

Lemma append_empty (a : string) : a ++ "" = a.
Proof. induction a as [|x a IH]; [reflexivity|]. now rewrite append_cons, IH. Qed.

Lemma all_chars_app p a b : all_chars p (a ++ b) = all_chars p a && all_chars p b.
Proof.
  induction a as [|c a IH]; [reflexivity|].
  rewrite append_cons. cbn [all_chars]. now rewrite IH, andb_assoc.
Qed.

Lemma all_chars_impl (p q : ascii -> bool) s :
  (forall c, p c = true -> q c = true) -> all_chars p s = true -> all_chars q s = true.
Proof.
  intros Hpq. induction s as [|c s IH]; [reflexivity|]. cbn [all_chars].
  intros [Hc Hs]%andb_prop. now rewrite (Hpq _ Hc), IH.
Qed.

Lemma replace_cons old new c s :
  Py.replace old new (String c s)
  = (if Ascii.eqb c old then new else String c "") ++ Py.replace old new s.
Proof. simpl. destruct (Ascii.eqb c old); reflexivity. Qed.

Lemma replace_app old new a b :
  Py.replace old new (a ++ b) = Py.replace old new a ++ Py.replace old new b.
Proof.
  induction a as [|c a IH]; [reflexivity|].
  now rewrite append_cons, !replace_cons, IH, append_assoc.
Qed.

Lemma slugify_replace py title : slugify py title = slug_replace (Py.lower py title).
Proof. reflexivity. Qed.

Lemma slug_replace_app a b : slug_replace (a ++ b) = slug_replace a ++ slug_replace b.
Proof. unfold slug_replace. now rewrite !replace_app. Qed.

Lemma slug_replace_char c : slug_replace (String c "") = slug_substitute c.
Proof. destruct c as [[] [] [] [] [] [] [] []]; reflexivity. Qed.

(** The three replacements, made one after the other on the whole text,
    come to the substitution of each character on its own. *)
Lemma slug_replace_substitute s : slug_replace s = substitute_all s.
Proof.
  induction s as [|c s IH]; [reflexivity|].
  change (String c s) with (String c "" ++ s).
  rewrite slug_replace_app, slug_replace_char, IH. reflexivity.
Qed.

(** A character that the derivation leaves in a slug. *)
Lemma slug_substitute_ok c :
  Py.is_upper c = false -> all_chars slug_char_ok (slug_substitute c) = true.
Proof. destruct c as [[] [] [] [] [] [] [] []]; vm_compute; congruence. Qed.

Lemma substitute_all_ok s :
  all_chars (fun c => negb (Py.is_upper c)) s = true ->
  all_chars slug_char_ok (substitute_all s) = true.
Proof.
  induction s as [|c s IH]; [reflexivity|]. cbn [all_chars substitute_all].
  intros [Hc Hs]%andb_prop. apply negb_true_iff in Hc.
  now rewrite all_chars_app, (slug_substitute_ok _ Hc), IH.
Qed.

Lemma substitute_all_fixed s :
  all_chars slug_char_ok s = true -> substitute_all s = s.
Proof.
  induction s as [|c s IH]; [reflexivity|]. cbn [all_chars substitute_all].
  intros [Hc Hs]%andb_prop. rewrite (IH Hs).
  revert Hc. destruct c as [[] [] [] [] [] [] [] []]; vm_compute; congruence.
Qed.

Lemma lower_ascii_no_capital s :
  all_chars (fun c => negb (Py.is_upper c)) (Py.lower_ascii s) = true.
Proof.
  induction s as [|c s IH]; [reflexivity|]. cbn [Py.lower_ascii all_chars].
  rewrite IH, andb_true_r. destruct c as [[] [] [] [] [] [] [] []]; reflexivity.
Qed.

Lemma lower_ascii_fixed s :
  all_chars (fun c => negb (Py.is_upper c)) s = true -> Py.lower_ascii s = s.
Proof.
  induction s as [|c s IH]; [reflexivity|]. cbn [Py.lower_ascii all_chars].
  intros [Hc Hs]%andb_prop. rewrite (IH Hs). f_equal.
  unfold Py.lower_char. apply negb_true_iff in Hc. now rewrite Hc.
Qed.

(** Lowering leaves no ASCII capital, on any interpreter. *)
Lemma lower_no_capital py s :
  all_chars (fun c => negb (Py.is_upper c)) (Py.lower py s) = true.
Proof.
  unfold Py.lower, Py.lower_with. destruct (all_chars is_ascii s).
  - apply lower_ascii_no_capital.
  - apply Py.lower_no_capital.
Qed.

Lemma lower_ascii_ascii s :
  all_chars is_ascii s = true -> all_chars is_ascii (Py.lower_ascii s) = true.
Proof.
  induction s as [|c s IH]; [reflexivity|]. cbn [Py.lower_ascii all_chars].
  intros [Hc Hs]%andb_prop. rewrite (IH Hs), andb_true_r.
  revert Hc. destruct c as [[] [] [] [] [] [] [] []]; vm_compute; congruence.
Qed.

(** Lowering a lowered text changes nothing. *)
Lemma lower_lower py s : Py.lower py (Py.lower py s) = Py.lower py s.
Proof.
  assert (Hs : (Py.lower py s = Py.lower_ascii s /\ all_chars is_ascii s = true)
               \/ Py.lower py s = Py.unicode_lower py s).
  { unfold Py.lower, Py.lower_with. destruct (all_chars is_ascii s); auto. }
  destruct Hs as [[-> Hascii] | ->].
  - unfold Py.lower, Py.lower_with. rewrite (lower_ascii_ascii _ Hascii).
    apply lower_ascii_fixed, lower_ascii_no_capital.
  - apply Py.lower_lowered.
Qed.

(** A replacement of an ASCII character by ASCII text without capitals
    keeps a lowered text lowered. *)
Lemma lowered_replace py (c : ascii) (new : string) (a b : string) :
  is_ascii c = true -> all_chars Py.plain_lower new = true ->
  Py.lower py (a ++ b) = a ++ b ->
  Py.lower py (a ++ Py.replace c new b) = a ++ Py.replace c new b.
Proof.
  intros Hc Hnew. revert a. induction b as [|d b IH]; intros a Hfixed; [exact Hfixed|].
  cbn [Py.replace]. destruct (Ascii.eqb_spec d c) as [->|Hne].
  - rewrite <- append_assoc. apply IH. rewrite append_assoc.
    exact (Py.lower_fixed_edit py a c new b Hc Hnew Hfixed).
  - change (String d (Py.replace c new b)) with (String d "" ++ Py.replace c new b).
    rewrite <- append_assoc. apply IH. now rewrite append_assoc.
Qed.

Lemma lowered_slug_replace py s :
  Py.lower py s = s -> Py.lower py (slug_replace s) = slug_replace s.
Proof.
  intros Hfixed. unfold slug_replace.
  apply (lowered_replace py "/" "_" ""); [reflexivity | reflexivity |].
  apply (lowered_replace py "&" "and" ""); [reflexivity | reflexivity |].
  apply (lowered_replace py " " "-" ""); [reflexivity | reflexivity |].
  exact Hfixed.
Qed.

Lemma slugify_ok py title : all_chars slug_char_ok (slugify py title) = true.
Proof.
  rewrite slugify_replace, slug_replace_substitute.
  apply substitute_all_ok, lower_no_capital.
Qed.

Lemma slugify_idempotent py title : slugify py (slugify py title) = slugify py title.
Proof.
  rewrite !slugify_replace.
  rewrite (lowered_slug_replace py _ (lower_lower py title)).
  rewrite (slug_replace_substitute (slug_replace _)).
  apply substitute_all_fixed. rewrite <- slugify_replace. apply slugify_ok.
Qed.

(** ** What the optimizer leaves alone *)

Lemma same_data_refl w : same_data w w.
Proof. repeat split. Qed.

Lemma same_data_trans w1 w2 w3 : same_data w1 w2 -> same_data w2 w3 -> same_data w1 w3.
Proof.
  unfold same_data. intros (?&?&?&?&?&?&?) (?&?&?&?&?&?&?). repeat split; congruence.
Qed.

Lemma append_nonempty (a b : string) : b <> "" -> a ++ b <> "".
Proof. destruct a; simpl; [tauto | discriminate]. Qed.

(** Running the monadic plumbing of a computation. *)
Ltac run :=
  cbv beta iota zeta delta
    [bind ret raise try_except flash read save write_file tinify_convert
     get_world path_exists try_remove commit get_or_404 image_required
     multi_index form_int fst snd fmap option_fmap option_map].

Ltac frame_auto :=
  repeat split; simpl; try reflexivity; try discriminate; try congruence.

Lemma optimize_frame file mw mh w :
  same_data w (optimize_with_tinypng file mw mh w).2
  /\ ((optimize_with_tinypng file mw mh w).1 = Returned None ->
      uploads (optimize_with_tinypng file mw mh w).2 = uploads w)
  /\ (forall name, (optimize_with_tinypng file mw mh w).1 = Returned (Some name) ->
        name <> "").
Proof.
  unfold optimize_with_tinypng.
  destruct (String.eqb (filename file) "") eqn:Hname; [frame_auto|].
  run.
  destruct (stream file) as [data|]; simpl; [|frame_auto].
  destruct (tinify w data (resize_method mw mh)) as [converted|e] eqn:Hremote; simpl.
  - destruct (String.eqb (_ ++ ".webp") "") eqn:Hnew; simpl.
    + apply String.eqb_eq, append_nonempty in Hnew; [contradiction | discriminate].
    + destruct (name_max w <? _)%nat; simpl; [frame_auto|].
      frame_auto. intros name [= <-]. apply append_nonempty. discriminate.
  - destruct e; simpl; try (frame_auto; fail).
    destruct (String.eqb (secure_filename (python w) (filename file)) "") eqn:Hsafe; simpl.
    + frame_auto.
    + destruct (name_max w <? _)%nat; simpl; [frame_auto|].
      frame_auto. intros name [= <-]. now apply String.eqb_neq.
Qed.

(** ** The fallback of the optimizer *)

(** C2, as stated, fails: when the directory already holds a file under the
    sanitized name, the fallback overwrites it and no new file appears; and
    when the sanitized name is empty, the fallback raises instead of
    returning a name. *)
Lemma fallback_leaves_one_new_file_fails :
  ~ fallback_leaves_one_new_file
      (admin_world [("photo.png", stale)] empty_db service_down)
      (mkfile "photo.png" (Some png)) (Some 150%N) (Some 150%N)
  /\ ~ fallback_leaves_one_new_file
      (admin_world [] empty_db service_down)
      (mkfile "..." (Some png)) (Some 150%N) (Some 150%N).
Proof.
  split; intros H.
  - destruct (H png "Credentials are invalid.") as (w' & Hrun & _ & Hsize);
      [discriminate | reflexivity | discriminate | reflexivity |].
    vm_compute in Hrun. injection Hrun as <-. vm_compute in Hsize. discriminate.
  - destruct (H png "Credentials are invalid.") as (w' & Hrun & _ & Hsize);
      [discriminate | reflexivity | discriminate | reflexivity |].
    vm_compute in Hrun. discriminate.
Qed.

(** C2, amended: with a non-empty file name whose sanitized form is not
    empty and not longer than the file system takes, and a remote service
    error, the original bytes are written under the sanitized name and that
    name is returned; the directory changes at that name only, so one new
    file is left when no file had that name, and an existing file of that
    name is overwritten. *)
Theorem fallback_saves_original (w : world) (file : FileStorage) (mw mh : option N)
    (data : bytes) (message : string) :
  filename file <> "" ->
  stream file = Some data ->
  tinify w data (resize_method mw mh) = Raised (TinifyError message) ->
  secure_filename (python w) (filename file) <> "" ->
  String.length (secure_filename (python w) (filename file)) <= name_max w ->
  exists w',
    optimize_with_tinypng file mw mh w
      = (Returned (Some (secure_filename (python w) (filename file))), w')
    /\ uploads w' = <[secure_filename (python w) (filename file) := data]> (uploads w)
    /\ (uploads w !! secure_filename (python w) (filename file) = None ->
        size (uploads w') = S (size (uploads w)))
    /\ (is_Some (uploads w !! secure_filename (python w) (filename file)) ->
        size (uploads w') = size (uploads w))
    /\ same_data w w'
    /\ flashes w' = (flashes w ++
         [(("Image optimization failed: " ++ message
            ++ ". Attempting to save original file.")%string, "warning")])%list.
Proof.
  intros Hname Hstream Hremote Hsafe Hshort.
  apply String.eqb_neq in Hname, Hsafe. apply Nat.ltb_ge in Hshort.
  unfold optimize_with_tinypng. rewrite Hname. run.
  rewrite Hstream. run. rewrite Hremote. run. rewrite Hsafe.
  cbn [python name_max set_flashes]. rewrite Hshort.
  eexists. split; [reflexivity|]. simpl.
  split; [reflexivity|].
  split; [apply map_size_insert_None|].
  split; [apply map_size_insert_Some|].
  split; [frame_auto | reflexivity].
Qed.

(** The fallback at an upload named "site plan.png". *)
Lemma fallback_saves_original_witness :
  exists w',
    optimize_with_tinypng (mkfile "site plan.png" (Some png)) (Some 150%N) (Some 150%N)
      (admin_world [] empty_db service_down)
      = (Returned (Some "site_plan.png"), w')
    /\ uploads w' !! "site_plan.png" = Some png
    /\ size (uploads w') = 1.
Proof.
  destruct (fallback_saves_original (admin_world [] empty_db service_down)
              (mkfile "site plan.png" (Some png)) (Some 150%N) (Some 150%N) png
              "Credentials are invalid.")
    as (w' & Hrun & Hup & Hnew & _);
    [discriminate | reflexivity | reflexivity | discriminate | vm_compute; lia |].
  exists w'. split; [exact Hrun|].
  split; [rewrite Hup; apply lookup_insert_eq|].
  rewrite Hnew; reflexivity.
Defined.

(** A failure inside the [try] block that is not a service error is
    caught: the optimizer returns [None] and writes nothing. *)
Lemma optimizer_other_failures_return_none (file : FileStorage) (mw mh : option N)
    (w : world) :
  filename file <> "" ->
  (stream file = None
   \/ exists data e,
        stream file = Some data
        /\ tinify w data (resize_method mw mh) = Raised e
        /\ forall message, e <> TinifyError message) ->
  (optimize_with_tinypng file mw mh w).1 = Returned None
  /\ uploads (optimize_with_tinypng file mw mh w).2 = uploads w.
Proof.
  intros Hname Hfailure. apply String.eqb_neq in Hname.
  unfold optimize_with_tinypng. rewrite Hname. run.
  destruct Hfailure as [Hstream | (data & e & Hstream & Hremote & Hother)];
    rewrite Hstream; run; [split; reflexivity|].
  rewrite Hremote. run.
  destruct e; try (split; reflexivity).
  now destruct (Hother message).
Qed.

(** So is a failure to open the converted file: when the name made for it
    is longer than the file system takes, the optimizer returns [None]
    with an error message flashed, and when the sanitized name is, the
    fallback save raises. *)
Lemma optimizer_long_name (file : FileStorage) (mw mh : option N) (w : world) (data : bytes) :
  filename file <> "" ->
  stream file = Some data ->
  (forall converted,
     tinify w data (resize_method mw mh) = Returned converted ->
     name_max w
     < String.length (fst (splitext (secure_filename (python w) (filename file))) ++ ".webp") ->
     (optimize_with_tinypng file mw mh w).1 = Returned None
     /\ uploads (optimize_with_tinypng file mw mh w).2 = uploads w
     /\ exists text, flashes (optimize_with_tinypng file mw mh w).2
                     = (flashes w ++ [(text, "danger")])%list)
  /\ (forall message,
        tinify w data (resize_method mw mh) = Raised (TinifyError message) ->
        name_max w < String.length (secure_filename (python w) (filename file)) ->
        exists text, (optimize_with_tinypng file mw mh w).1 = Raised (OSError text)
                     /\ uploads (optimize_with_tinypng file mw mh w).2 = uploads w).
Proof.
  intros Hname Hstream. apply String.eqb_neq in Hname.
  unfold optimize_with_tinypng. rewrite Hname. run. rewrite Hstream. run.
  split.
  - intros converted Hremote Hlong. apply Nat.ltb_lt in Hlong. rewrite Hremote. run.
    destruct (String.eqb (_ ++ ".webp") "") eqn:Hnew.
    { apply String.eqb_eq, append_nonempty in Hnew; [contradiction | discriminate]. }
    rewrite Hlong. cbn [fst snd uploads flashes set_flashes].
    split; [reflexivity|]. split; [reflexivity|]. eexists. reflexivity.
  - intros message Hremote Hlong. apply Nat.ltb_lt in Hlong. rewrite Hremote. run.
    destruct (String.eqb (secure_filename _ _) "") eqn:Hsafe.
    { apply String.eqb_eq in Hsafe. rewrite Hsafe in Hlong. discriminate. }
    cbn [python name_max set_flashes]. rewrite Hlong. cbn [fst snd uploads set_flashes].
    eexists. split; reflexivity.
Qed.

(** C5: the fallback save of an upload whose sanitized name is empty raises
    out of the optimizer; no name and no [None] is returned. *)
Theorem fallback_failure_propagates :
  filename (mkfile "..." (Some png)) <> ""
  /\ (optimize_with_tinypng (mkfile "..." (Some png)) default_max_width None
        (admin_world [] empty_db service_down)).1
     = Raised (IsADirectoryError "uploads/").
Proof. split; [discriminate | vm_compute; reflexivity]. Qed.

(** ** The registries of the three dispatchers *)

Lemma login_required_logged_in (f : M response) w u :
  session_user w = Some u -> login_required f w = f w.
Proof. intros H. unfold login_required. now rewrite H. Qed.

Lemma manage_content_unknown content_type rq w u :
  session_user w = Some u ->
  manage_models !! content_type = None ->
  manage_content content_type rq w
  = (Returned (Redirect Dashboard),
     set_flashes (flashes w ++ [("Invalid content type.", "danger")]) w).
Proof.
  intros Hu Hunknown. unfold manage_content.
  now rewrite (login_required_logged_in _ _ _ Hu), Hunknown.
Qed.

Lemma edit_content_unknown content_type item_id rq w u :
  session_user w = Some u ->
  edit_models !! content_type = None ->
  edit_content content_type item_id rq w
  = (Returned (Redirect Dashboard),
     set_flashes (flashes w ++ [("Invalid content type.", "danger")]) w).
Proof.
  intros Hu Hunknown. unfold edit_content.
  now rewrite (login_required_logged_in _ _ _ Hu), Hunknown.
Qed.

Lemma delete_content_unknown content_type item_id rq w u :
  session_user w = Some u ->
  delete_models !! content_type = None ->
  delete_content content_type item_id rq w
  = (Returned (Status "Invalid content type" 404), w).
Proof.
  intros Hu Hunknown. unfold delete_content.
  now rewrite (login_required_logged_in _ _ _ Hu), Hunknown.
Qed.

(** C9, as stated, fails for the delete dispatcher: an unknown identifier is
    answered there by a 404 response, with no redirect and no message. *)
Lemma unknown_type_redirects_fails_for_delete :
  ~ unknown_type_redirects (fun content_type => delete_content content_type 1) delete_models.
Proof.
  intros H.
  destruct (H "galleries" (post_request "/admin/delete/galleries/1" [] [])
              (admin_world [] empty_db service_up) 1)
    as (w' & message & Hrun & _); [reflexivity | reflexivity |].
  vm_compute in Hrun. discriminate.
Qed.

(** C9, amended: with an identifier missing from its registry,
    [manage_content] and [edit_content] flash "Invalid content type." as an
    error and redirect to the dashboard, and [delete_content] answers with
    the 404 response "Invalid content type"; none of them raises, and none
    touches the database or the upload directory. *)
Theorem unknown_content_type (content_type : string) (item_id : nat) (rq : request)
    (w : world) (u : nat) :
  session_user w = Some u ->
  (manage_models !! content_type = None ->
     manage_content content_type rq w
     = (Returned (Redirect Dashboard),
        set_flashes (flashes w ++ [("Invalid content type.", "danger")]) w))
  /\ (edit_models !! content_type = None ->
     edit_content content_type item_id rq w
     = (Returned (Redirect Dashboard),
        set_flashes (flashes w ++ [("Invalid content type.", "danger")]) w))
  /\ (delete_models !! content_type = None ->
     delete_content content_type item_id rq w
     = (Returned (Status "Invalid content type" 404), w)).
Proof.
  intros Hu. split; [|split]; intros Hunknown.
  - now apply (manage_content_unknown _ _ _ u).
  - now apply (edit_content_unknown _ _ _ _ u).
  - now apply (delete_content_unknown _ _ _ _ u).
Qed.

(** The three dispatchers at the identifier "galleries". *)
Lemma unknown_content_type_witness :
  let w := admin_world [] empty_db service_up in
  let rq := post_request "/admin/manage/galleries" [] [] in
  manage_content "galleries" rq w
  = (Returned (Redirect Dashboard),
     set_flashes (flashes w ++ [("Invalid content type.", "danger")]) w)
  /\ edit_content "galleries" 7 rq w
  = (Returned (Redirect Dashboard),
     set_flashes (flashes w ++ [("Invalid content type.", "danger")]) w)
  /\ delete_content "galleries" 7 rq w
  = (Returned (Status "Invalid content type" 404), w).
Proof.
  intros w rq.
  destruct (unknown_content_type "galleries" 7 rq w 1 eq_refl) as (Hm & He & Hd).
  split; [apply Hm; reflexivity|].
  split; [apply He; reflexivity | apply Hd; reflexivity].
Defined.

Lemma registries_differ_by_submissions (content_type : string) :
  manage_models !! content_type
  = if String.eqb content_type "submissions" then None else delete_models !! content_type.
Proof.
  unfold manage_models, delete_models. cbn [list_to_map foldr fst snd curry].
  destruct (String.eqb_spec content_type "submissions") as [->|Hne]; [reflexivity|].
  rewrite !lookup_insert.
  repeat (case_decide; [simplify_eq; try reflexivity|]); try reflexivity; congruence.
Qed.

(** C10: ['submissions'] is a key of the registry of [delete_content] only,
    which is otherwise the registry of the other two dispatchers;
    [manage_content] and [edit_content] answer it as an invalid content
    type, and [delete_content] deletes the submission and redirects to the
    dashboard, where every other deletion redirects to the listing of its
    content type. *)
Theorem submissions_only_in_delete (w : world) (rq : request) (item_id u : nat)
    (submission : ContactSubmission.t) :
  session_user w = Some u ->
  table_get item_id (submissions (db w)) = Some submission ->
  delete_models !! "submissions" = Some ContactSubmissionModel
  /\ manage_models !! "submissions" = None
  /\ edit_models !! "submissions" = None
  /\ (forall content_type,
        manage_models !! content_type
        = if String.eqb content_type "submissions" then None
          else delete_models !! content_type)
  /\ edit_models = manage_models
  /\ manage_content "submissions" rq w
     = (Returned (Redirect Dashboard),
        set_flashes (flashes w ++ [("Invalid content type.", "danger")]) w)
  /\ edit_content "submissions" item_id rq w
     = (Returned (Redirect Dashboard),
        set_flashes (flashes w ++ [("Invalid content type.", "danger")]) w)
  /\ delete_content "submissions" item_id rq w
     = (Returned (Redirect Dashboard),
        set_flashes (flashes w ++ [("Submission deleted.", "info")])
          (set_db (set_submissions (table_delete (ContactSubmission.id submission)
                                      (submissions (db w))) (db w)) w))
  /\ (forall content_type i r w',
        content_type <> "submissions" ->
        is_Some (delete_models !! content_type) ->
        delete_content content_type i rq w = (Returned r, w') ->
        r = Redirect (ManageContent content_type)).
Proof.
  intros Hu Hsub.
  split; [reflexivity|]. split; [reflexivity|]. split; [reflexivity|].
  split; [exact registries_differ_by_submissions|]. split; [reflexivity|].
  split; [apply (manage_content_unknown _ _ _ u Hu); reflexivity|].
  split; [apply (edit_content_unknown _ _ _ _ u Hu); reflexivity|].
  split.
  - unfold delete_content. rewrite (login_required_logged_in _ _ _ Hu).
    replace (delete_models !! "submissions") with (Some ContactSubmissionModel) by reflexivity.
    run. unfold query_get. run. rewrite Hsub. run. simpl. run. reflexivity.
  - intros ct i r w' Hne [m Hm] Hrun.
    unfold delete_content in Hrun. rewrite (login_required_logged_in _ _ _ Hu), Hm in Hrun.
    apply String.eqb_neq in Hne. rewrite Hne in Hrun.
    revert Hrun. run.
    repeat (case_match; simplify_eq; try discriminate); congruence.
Qed.

(** ** Create requests without the required image *)

(** Case analysis on the next comparison of a content type with a literal. *)
Ltac case_content_type ct :=
  match goal with
  | |- context [String.eqb ct ?s] => destruct (String.eqb_spec ct s) as [->|?]
  end.

Lemma image_omitted_guard field rq :
  image_omitted field rq -> upload_missing field rq = true.
Proof.
  unfold upload_missing. intros [H | (file & H & Hname)]; rewrite H; [reflexivity|].
  now apply String.eqb_eq.
Qed.

Lemma required_image_field_cases content_type field :
  required_image_field content_type = Some field ->
  (content_type = "projects" /\ field = "project_image")
  \/ (content_type = "team_members" /\ field = "member_image")
  \/ (content_type = "services" /\ field = "service_thumbnail_image")
  \/ (content_type = "client_logos" /\ field = "logo_image")
  \/ (content_type = "certifications" /\ field = "certification_image").
Proof.
  unfold required_image_field.
  repeat (case_content_type content_type;
          [simpl; intros H; injection H as H; subst; auto 12|]).
  discriminate.
Qed.

(** C6, as stated, fails for services: the title is read from the form
    before the image is looked at, so a request with neither is answered as
    a bad request, not with the missing-image error. *)
Lemma missing_image_always_rejected_fails : ~ missing_image_always_rejected.
Proof.
  intros H.
  destruct (H "services" "service_thumbnail_image"
              (post_request "/admin/manage/services" [] [])
              (admin_world [] empty_db service_up) 1)
    as (message & Hrun); [reflexivity | reflexivity | reflexivity | now left |].
  vm_compute in Hrun. discriminate.
Qed.

(** C6, amended: a create request for an image-required content type that
    omits the required image, or gives it an empty file name, persists no
    entity and writes no file; it fails with the missing-image error, unless
    it is a services request without a title, which fails as a bad request
    before the image is looked at. *)
Theorem create_without_required_image (content_type field : string) (rq : request)
    (w : world) (u : nat) :
  required_image_field content_type = Some field ->
  session_user w = Some u ->
  method rq = POST ->
  image_omitted field rq ->
  db (manage_content content_type rq w).2 = db w
  /\ uploads (manage_content content_type rq w).2 = uploads w
  /\ ((content_type = "services" -> is_Some (multi_get "title" (form rq))) ->
      missing_image_rejected content_type rq w)
  /\ (content_type = "services" -> multi_get "title" (form rq) = None ->
      manage_content content_type rq w = (Raised (BadRequestKeyError "title"), w)).
Proof.
  intros Hfield Hu Hpost Homitted.
  apply image_omitted_guard in Homitted.
  unfold missing_image_rejected, manage_content.
  rewrite (login_required_logged_in _ _ _ Hu).
  destruct (required_image_field_cases _ _ Hfield)
    as [[-> ->] | [[-> ->] | [[-> ->] | [[-> ->] | [-> ->]]]]].
  - replace (manage_models !! "projects") with (Some ProjectModel) by reflexivity.
    rewrite Hpost. cbn [create String.eqb Ascii.eqb Bool.eqb]. unfold create_project.
    rewrite Homitted. run.
    repeat split; try discriminate. intros _. eexists. reflexivity.
  - replace (manage_models !! "team_members") with (Some TeamMemberModel) by reflexivity.
    rewrite Hpost. cbn [create String.eqb Ascii.eqb Bool.eqb]. unfold create_team_member.
    rewrite Homitted. run.
    repeat split; try discriminate. intros _. eexists. reflexivity.
  - replace (manage_models !! "services") with (Some ServiceModel) by reflexivity.
    rewrite Hpost. cbn [create String.eqb Ascii.eqb Bool.eqb]. unfold create_service.
    run. destruct (multi_get "title" (form rq)) as [title|] eqn:Htitle; run.
    + rewrite Homitted. run.
      repeat split; try discriminate. intros _. eexists. reflexivity.
    + repeat split. intros H. destruct (H eq_refl) as [? [=]].
  - replace (manage_models !! "client_logos") with (Some ClientLogoModel) by reflexivity.
    rewrite Hpost. cbn [create String.eqb Ascii.eqb Bool.eqb]. unfold create_client_logo.
    rewrite Homitted. run.
    repeat split; try discriminate. intros _. eexists. reflexivity.
  - replace (manage_models !! "certifications") with (Some CertificationModel) by reflexivity.
    rewrite Hpost. cbn [create String.eqb Ascii.eqb Bool.eqb]. unfold create_certification.
    rewrite Homitted. run.
    repeat split; try discriminate. intros _. eexists. reflexivity.
Qed.

(** ** Deleting a project *)

Lemma table_get_pk {T} `{Row T} (i : nat) (rows : list T) (r : T) :
  table_get i rows = Some r -> pk r = i /\ In r rows.
Proof.
  unfold table_get. intros Hfind. apply List.find_some in Hfind as [Hin Hpk].
  split; [now apply Nat.eqb_eq | exact Hin].
Qed.

Lemma table_delete_In {T} `{Row T} (i : nat) (rows : list T) (r : T) :
  In r (table_delete i rows) <-> In r rows /\ pk r <> i.
Proof.
  unfold table_delete. rewrite List.filter_In, negb_true_iff, Nat.eqb_neq. reflexivity.
Qed.

Lemma truthy_Some (name : string) : name <> "" -> Py.truthy (Some name) = true.
Proof. intros Hne. simpl. now apply String.eqb_neq in Hne as ->. Qed.

(** C8: deleting a project that has a primary image and two gallery images
    removes the project record, the two gallery records, and the three
    files; the other files and the other projects stay. *)
Theorem delete_project_with_gallery (w : world) (rq : request) (item_id u : nat)
    (project : Project.t) (primary : string) (g1 g2 : ProjectImage.t) :
  session_user w = Some u ->
  table_get item_id (projects (db w)) = Some project ->
  Project.image_url project = Some primary ->
  primary <> "" ->
  images_of item_id (db w) = [g1; g2] ->
  exists w',
    delete_content "projects" item_id rq w
    = (Returned (Redirect (ManageContent "projects")), w')
    /\ (forall p, In p (projects (db w')) -> Project.id p <> item_id)
    /\ (forall im, In im (project_images (db w')) -> ProjectImage.project_id im <> item_id)
    /\ ~ In g1 (project_images (db w')) /\ ~ In g2 (project_images (db w'))
    /\ uploads w' !! primary = None
    /\ uploads w' !! ProjectImage.image_url g1 = None
    /\ uploads w' !! ProjectImage.image_url g2 = None
    /\ (forall name, name <> primary -> name <> ProjectImage.image_url g1 ->
          name <> ProjectImage.image_url g2 -> uploads w' !! name = uploads w !! name)
    /\ (forall p, In p (projects (db w)) -> Project.id p <> item_id ->
          In p (projects (db w'))).
Proof.
  intros Hu Hproject Hprimary Hne Hgallery.
  destruct (table_get_pk _ _ _ Hproject) as [Hid _]. simpl in Hid.
  assert (Hg : forall g, In g [g1; g2] -> ProjectImage.project_id g = item_id).
  { intros g Hin. rewrite <- Hgallery in Hin. unfold images_of in Hin.
    apply List.filter_In in Hin as [_ Hin]. now apply Nat.eqb_eq. }
  unfold delete_content. rewrite (login_required_logged_in _ _ _ Hu).
  replace (delete_models !! "projects") with (Some ProjectModel) by reflexivity.
  run. unfold query_get. run. rewrite Hproject. run.
  cbn [entity_image_url]. rewrite Hprimary, (truthy_Some _ Hne).
  cbn [String.eqb Ascii.eqb Bool.eqb default db set_uploads].
  rewrite Hid, Hgallery. cbn [remove_gallery_files]. run.
  cbn [session_delete begin pending violation].
  eexists. split; [reflexivity|].
  cbn [db set_db set_flashes uploads set_uploads projects project_images
       set_project_images set_projects].
  rewrite Hid.
  split. { intros p Hin. now apply table_delete_In in Hin as [_ Hin]. }
  assert (Himages : forall im,
            In im (List.filter (fun im => negb (Nat.eqb (ProjectImage.project_id im) item_id))
                     (project_images (db w))) ->
            ProjectImage.project_id im <> item_id).
  { intros im Hin. apply List.filter_In in Hin as [_ Hin].
    now apply negb_true_iff, Nat.eqb_neq in Hin. }
  split; [exact Himages|].
  split. { intros Hin. apply Himages in Hin. apply Hin, Hg. now left. }
  split. { intros Hin. apply Himages in Hin. apply Hin, Hg. right. now left. }
  split.
  { destruct (decide (ProjectImage.image_url g2 = primary)) as [->|?];
      [apply lookup_delete_eq | rewrite lookup_delete_ne by done].
    destruct (decide (ProjectImage.image_url g1 = primary)) as [->|?];
      [apply lookup_delete_eq | rewrite lookup_delete_ne by done].
    apply lookup_delete_eq. }
  split.
  { destruct (decide (ProjectImage.image_url g2 = ProjectImage.image_url g1)) as [->|?];
      [apply lookup_delete_eq | rewrite lookup_delete_ne by done].
    apply lookup_delete_eq. }
  split; [apply lookup_delete_eq|].
  split.
  { intros name H0 H1 H2. now rewrite !lookup_delete_ne by done. }
  intros p Hin Hother. apply table_delete_In. split; [exact Hin | exact Hother].
Qed.

(** ** Replacing a single image on edit *)

Lemma set_uploads_same w : set_uploads (uploads w) w = w.
Proof. now destruct w. Qed.

(** The shared block removes the old file, if the field names one, before
    anything else happens. *)
Lemma remove_old_image_run (old : string) (w : world) :
  old <> "" ->
  remove_old_image (Some old) w = (Returned tt, set_uploads (delete old (uploads w)) w).
Proof.
  intros Hne. unfold remove_old_image. rewrite (truthy_Some _ Hne). run.
  cbn [default]. unfold id. apply String.eqb_neq in Hne as ->. cbn [orb].
  destruct (bool_decide (is_Some (uploads w !! old))) eqn:Hthere; [reflexivity|].
  apply bool_decide_eq_false in Hthere. rewrite <- eq_None_not_Some in Hthere.
  now rewrite (delete_id _ _ Hthere), set_uploads_same.
Qed.

Lemma edit_single_image_run field (old : string) mw mh rq file w :
  old <> "" ->
  upload_given field rq = Some file ->
  edit_single_image field (Some old) mw mh rq w
  = let run := optimize_with_tinypng file mw mh (set_uploads (delete old (uploads w)) w) in
    (match run.1 with
     | Returned filename => Returned (assign_if filename (Some old))
     | Raised e => Raised e
     end, run.2).
Proof.
  intros Hne Hfile. unfold edit_single_image. rewrite Hfile.
  unfold bind at 1. rewrite (remove_old_image_run _ _ Hne).
  unfold bind. cbn zeta.
  destruct (optimize_with_tinypng _ _ _ _) as [[filename|e] w2]; reflexivity.
Qed.

Lemma edit_single_image_skip field old mw mh rq w :
  upload_given field rq = None ->
  edit_single_image field old mw mh rq w = (Returned old, w).
Proof. intros Hnone. unfold edit_single_image. now rewrite Hnone. Qed.

Lemma table_get_update {T} `{Row T} (i : nat) (rows : list T) (r x : T) :
  pk r = i -> table_get i rows = Some x -> table_get i (table_update r rows) = Some r.
Proof.
  intros <-. unfold table_get, table_update.
  induction rows as [|y rows IH]; [discriminate|]. cbn [List.map List.find].
  destruct (Nat.eqb (pk y) (pk r)) eqn:Hy.
  - intros _. now rewrite Nat.eqb_refl.
  - intros Hfind. rewrite Hy. now apply IH.
Qed.

(** Reading the literal comparisons of a dispatch chain. *)
Ltac dispatch := cbn [String.eqb Ascii.eqb Bool.eqb].

(** C4: an edit that uploads a new image for a single-image field removes
    the old file before the optimizer is called.  When the optimizer then
    accepts nothing, the old file is gone all the same, the row still names
    it, and the edit is reported as done: so it is for the thumbnail of a
    service, for its header image, and for the image of a certification. *)
Theorem failed_upload_removes_old_image :
  let thumb_rq := post_request "/admin/edit/services/1" solar_form
                    [("service_thumbnail_image", mkfile "new thumb.png" (Some png))] in
  let banner_rq := post_request "/admin/edit/services/1" solar_form
                     [("service_header_image", mkfile "new banner.png" (Some png))] in
  let cert_rq := post_request "/admin/edit/certifications/1"
                   [("name", "ISO 9001"); ("order_num", "1")]
                   [("certification_image", mkfile "new cert.png" (Some png))] in
  let thumb := edit_content "services" 1 thumb_rq (solar_world service_broken) in
  let banner := edit_content "services" 1 banner_rq (solar_world service_broken) in
  let cert := edit_content "certifications" 1 cert_rq (iso_world service_broken) in
  (uploads (solar_world service_broken) !! "old-thumb.webp" = Some stale
   /\ (optimize_with_tinypng (mkfile "new thumb.png" (Some png)) (Some 150%N) (Some 150%N)
         (solar_world service_broken)).1 = Returned None
   /\ thumb.1 = Returned (Redirect (ManageContent "services"))
   /\ List.last (flashes thumb.2) ("", "") = ("Service updated successfully!", "success")
   /\ uploads thumb.2 !! "old-thumb.webp" = None
   /\ Service.image_url <$> table_get 1 (services (db thumb.2))
      = Some (Some "old-thumb.webp"))
  /\ (uploads (solar_world service_broken) !! "old-banner.webp" = Some stale
      /\ banner.1 = Returned (Redirect (ManageContent "services"))
      /\ List.last (flashes banner.2) ("", "") = ("Service updated successfully!", "success")
      /\ uploads banner.2 !! "old-banner.webp" = None
      /\ Service.header_image_url <$> table_get 1 (services (db banner.2))
         = Some (Some "old-banner.webp"))
  /\ (uploads (iso_world service_broken) !! "old-cert.webp" = Some stale
      /\ cert.1 = Returned (Redirect (ManageContent "certifications"))
      /\ List.last (flashes cert.2) ("", "") = ("Certification updated successfully!", "success")
      /\ uploads cert.2 !! "old-cert.webp" = None
      /\ Certification.image_url <$> table_get 1 (certifications (db cert.2))
         = Some (Some "old-cert.webp")).
Proof.
  cbv zeta. repeat split; vm_compute; reflexivity.
Qed.

(** ** The slug of a service *)

Lemma remove_old_image_frame old w :
  (remove_old_image old w).1 = Returned tt /\ same_data w (remove_old_image old w).2.
Proof.
  unfold remove_old_image. destruct (Py.truthy old); [|frame_auto].
  run. destruct (_ || _); frame_auto.
Qed.

Lemma edit_single_image_frame field old mw mh rq w :
  same_data w (edit_single_image field old mw mh rq w).2.
Proof.
  unfold edit_single_image. destruct (upload_given field rq) as [file|]; [|frame_auto].
  unfold bind at 1.
  destruct (remove_old_image_frame old w) as [Hr Hsame].
  destruct (remove_old_image old w) as [r w1]. cbn [fst snd] in *. subst r.
  unfold bind.
  pose proof (optimize_frame file mw mh w1) as (Hsame' & _).
  destruct (optimize_with_tinypng file mw mh w1) as [[filename|e] w2]; cbn [fst snd] in *;
    exact (same_data_trans _ _ _ Hsame Hsame').
Qed.

(** Running one call of the optimizer, keeping what it leaves alone. *)
Ltac step_optimizer :=
  match goal with
  | |- context [optimize_with_tinypng ?f ?a ?b ?w] =>
      let H := fresh "Hframe" in
      pose proof (optimize_frame f a b w) as (H & _ & _);
      destruct (optimize_with_tinypng f a b w) as [[?|?] ?];
      cbn [fst snd] in H; destruct H as (H & _)
  end.

(** Reading every database through the frame equations at hand. *)
Ltac read_through_frames :=
  repeat match goal with
         | H : db _ = db _ |- _ => rewrite H
         end.

Lemma create_service_slug (rq : request) (w : world) :
  db (manage_content "services" rq w).2 = db w
  \/ exists title row,
       multi_get "title" (form rq) = Some title
       /\ Service.title row = title
       /\ Service.slug row = slugify (python w) title
       /\ db (manage_content "services" rq w).2
          = set_services (services (db w) ++ [row]) (db w).
Proof.
  unfold manage_content, login_required.
  destruct (session_user w); [|left; reflexivity].
  replace (manage_models !! "services") with (Some ServiceModel) by reflexivity.
  destruct (method rq); [left; reflexivity|].
  run. unfold create. dispatch. unfold create_service. run.
  destruct (multi_get "title" (form rq)) as [title|] eqn:Htitle; [|left; reflexivity].
  run. destruct (upload_missing _ rq); [left; reflexivity|].
  run. destruct (multi_get "service_thumbnail_image" (files rq)); [|left; reflexivity].
  run. step_optimizer; [|left; assumption].
  destruct (upload_given "service_header_image" rq).
  - step_optimizer; [|left; congruence].
    destruct (multi_get "summary" (form rq)); run; [|left; congruence].
    destruct (multi_get "full_content" (form rq)); run; [|left; congruence].
    destruct (multi_get "order_num" (form rq)); run; [|left; congruence].
    destruct (Py.int _); run; [|left; congruence].
    cbn [session_add begin pending violation note_violation].
    destruct (negb (forallb fits_sqlite_integer _)); run; [left; congruence|].
    destruct (service_clash _ _ _); run; [left; congruence|].
    right. exists title. eexists. split; [reflexivity|].
    cbn [db set_db set_flashes]. unfold table_insert. read_through_frames.
    split; [|split; [|reflexivity]]; reflexivity.
  - run.
    destruct (multi_get "summary" (form rq)); run; [|left; congruence].
    destruct (multi_get "full_content" (form rq)); run; [|left; congruence].
    destruct (multi_get "order_num" (form rq)); run; [|left; congruence].
    destruct (Py.int _); run; [|left; congruence].
    cbn [session_add begin pending violation note_violation].
    destruct (negb (forallb fits_sqlite_integer _)); run; [left; congruence|].
    destruct (service_clash _ _ _); run; [left; congruence|].
    right. exists title. eexists. split; [reflexivity|].
    cbn [db set_db set_flashes]. unfold table_insert. read_through_frames.
    split; [|split; [|reflexivity]]; reflexivity.
Qed.

Lemma edit_service_slug (item_id : nat) (rq : request) (w : world) :
  db (edit_content "services" item_id rq w).2 = db w
  \/ exists title row,
       multi_get "title" (form rq) = Some title
       /\ Service.id row = item_id
       /\ Service.title row = title
       /\ Service.slug row = slugify (python w) title
       /\ db (edit_content "services" item_id rq w).2
          = set_services (table_update row (services (db w))) (db w).
Proof.
  unfold edit_content, login_required.
  destruct (session_user w); [|left; reflexivity].
  replace (edit_models !! "services") with (Some ServiceModel) by reflexivity.
  run. unfold query_get. run.
  destruct (table_get item_id (services (db w))) as [item|] eqn:Hitem; run;
    [|destruct (fits_sqlite_integer _); left; reflexivity].
  destruct (table_get_pk _ _ _ Hitem) as [Hid _]. simpl in Hid.
  destruct (method rq); [left; reflexivity|].
  run. unfold edit. dispatch. unfold edit_service. run.
  destruct (multi_get "title" (form rq)) as [title|] eqn:Htitle; run; [|left; reflexivity].
  destruct (multi_get "summary" (form rq)); run; [|left; reflexivity].
  destruct (multi_get "full_content" (form rq)); run; [|left; reflexivity].
  destruct (multi_get "order_num" (form rq)); run; [|left; reflexivity].
  destruct (Py.int _); run; [|left; reflexivity].
  pose proof (edit_single_image_frame "service_thumbnail_image" (Service.image_url item)
                (Some 150%N) (Some 150%N) rq w) as Hthumb.
  destruct (edit_single_image "service_thumbnail_image" _ _ _ rq w) as [[image_url|e] w1];
    cbn [fst snd] in Hthumb; destruct Hthumb as (Hdb1 & _); [|left; assumption].
  pose proof (edit_single_image_frame "service_header_image" (Service.header_image_url item)
                (Some 1920%N) None rq w1) as Hheader.
  destruct (edit_single_image "service_header_image" _ _ _ rq w1) as [[header|e] w2];
    cbn [fst snd] in Hheader; destruct Hheader as (Hdb2 & _); [|left; congruence].
  cbn [session_update begin pending violation note_violation].
  destruct (negb (forallb fits_sqlite_integer _)); run; [left; congruence|].
    destruct (service_clash _ _ _); run; [left; congruence|].
  right. exists title. eexists. split; [reflexivity|].
  cbn [db set_db set_flashes].
  split; [|split; [|split; [|reflexivity]]]; [exact Hid | reflexivity | reflexivity].
Qed.

(** C7: the slug is a function of the title (and of the interpreter that
    lowers it): the lowered title with every space replaced by a hyphen,
    every ampersand by "and" and every slash by an underscore, the other
    characters kept.  The title "Solar & Power Systems" gives
    "solar-and-power-systems"; deriving again from a slug gives the slug
    back; and whenever a create or an edit of a service changes the
    database, the row it writes carries the slug derived from the submitted
    title. *)
Theorem slug_derivation :
  (forall py title, slugify py title = slug_as_stated py title)
  /\ (forall py, slugify py "Solar & Power Systems" = "solar-and-power-systems")
  /\ (forall py title, slugify py (slugify py title) = slugify py title)
  /\ (forall rq w,
        db (manage_content "services" rq w).2 = db w
        \/ exists title row,
             multi_get "title" (form rq) = Some title
             /\ Service.title row = title
             /\ Service.slug row = slugify (python w) title
             /\ db (manage_content "services" rq w).2
                = set_services (services (db w) ++ [row]) (db w))
  /\ (forall item_id rq w,
        db (edit_content "services" item_id rq w).2 = db w
        \/ exists title row,
             multi_get "title" (form rq) = Some title
             /\ Service.id row = item_id
             /\ Service.title row = title
             /\ Service.slug row = slugify (python w) title
             /\ db (edit_content "services" item_id rq w).2
                = set_services (table_update row (services (db w))) (db w))
  /\ List.map Service.slug
        (services (db (manage_content "services"
                         (post_request "/admin/manage/services" solar_form
                            [("service_thumbnail_image", mkfile "thumb.png" (Some png))])
                         (admin_world [] empty_db service_up)).2))
     = ["solar-and-power-systems"]
  /\ List.map Service.slug
        (services (db (edit_content "services" 1
                         (post_request "/admin/edit/services/1" solar_form [])
                         (solar_world service_up)).2))
     = ["solar-and-power-systems"].
Proof.
  split; [intros py title; rewrite slugify_replace; apply slug_replace_substitute|].
  split; [reflexivity|].
  split; [exact slugify_idempotent|].
  split; [exact create_service_slug|].
  split; [exact edit_service_slug|].
  split; vm_compute; reflexivity.
Qed.

(** ** Image-required creates when the optimizer gives no name *)

(** C1: when the optimizer returns no name for the thumbnail, the create of
    a service still persists the service, with no thumbnail; the create of a
    team member, in the same situation, persists nothing. *)
Theorem create_service_without_thumbnail :
  let w := admin_world [] empty_db service_broken in
  let upload := mkfile "thumb.png" (Some png) in
  let rq := post_request "/admin/manage/services" solar_form
              [("service_thumbnail_image", upload)] in
  let member_rq := post_request "/admin/manage/team_members" banda_form
                     [("member_image", upload)] in
  (optimize_with_tinypng upload (Some 150%N) (Some 150%N) w).1 = Returned None
  /\ (manage_content "services" rq w).1 = Returned (Redirect (ManageContent "services"))
  /\ services (db (manage_content "services" rq w).2)
     = [Service.mk 1 "Solar & Power Systems" "solar-and-power-systems" None
          "Panels and batteries" "We install panels." 2 None None]
  /\ uploads (manage_content "services" rq w).2 = ∅
  /\ (manage_content "team_members" member_rq w).1
     = Returned (Redirect (ManageContent "team_members"))
  /\ team_members (db (manage_content "team_members" member_rq w).2) = [].
Proof. repeat split; vm_compute; reflexivity. Qed.

(** ** Replacing the image of a team member *)

Lemma optimize_keeps_files (file : FileStorage) (mw mh : option N) (w : world)
    (name : string) :
  is_Some (uploads w !! name) ->
  is_Some (uploads (optimize_with_tinypng file mw mh w).2 !! name).
Proof.
  intros Hthere. unfold optimize_with_tinypng.
  destruct (String.eqb (filename file) ""); [exact Hthere|].
  run. destruct (stream file) as [data|]; run; [|exact Hthere].
  destruct (tinify w data (resize_method mw mh)) as [converted|e]; run.
  - destruct (String.eqb _ ""); cbn [snd uploads set_uploads]; [exact Hthere|].
    destruct (name_max w <? _)%nat; cbn [snd uploads set_uploads set_flashes];
      [exact Hthere|].
    apply lookup_insert_is_Some'. now right.
  - destruct e; run; try exact Hthere.
    destruct (String.eqb _ ""); cbn [snd uploads set_uploads set_flashes]; [exact Hthere|].
    destruct (name_max _ <? _)%nat; cbn [snd uploads set_uploads set_flashes];
      [exact Hthere|].
    apply lookup_insert_is_Some'. now right.
Qed.

(** No edit of a team member removes a file from the upload directory. *)
Lemma edit_team_member_removes_nothing (item_id : nat) (rq : request) (w : world)
    (name : string) :
  is_Some (uploads w !! name) ->
  is_Some (uploads (edit_content "team_members" item_id rq w).2 !! name).
Proof.
  intros Hthere. unfold edit_content, login_required.
  destruct (session_user w); [|exact Hthere].
  replace (edit_models !! "team_members") with (Some TeamMemberModel) by reflexivity.
  run. unfold query_get. run.
  destruct (table_get item_id (team_members (db w))) as [item|]; run;
    [|destruct (fits_sqlite_integer _); exact Hthere].
  destruct (method rq); [exact Hthere|].
  run. unfold edit. dispatch. unfold edit_team_member. run.
  destruct (multi_get "name" (form rq)); run; [|exact Hthere].
  destruct (multi_get "position" (form rq)); run; [|exact Hthere].
  destruct (multi_get "bio" (form rq)); run; [|exact Hthere].
  destruct (multi_get "order_num" (form rq)); run; [|exact Hthere].
  destruct (Py.int _); run; [|exact Hthere].
  destruct (upload_given "member_image" rq) as [file|]; run.
  - pose proof (optimize_keeps_files file (Some 800%N) None w name Hthere) as Hkept.
    destruct (optimize_with_tinypng file (Some 800%N) None w) as [[filename|e] w1];
      cbn [snd] in Hkept; [|exact Hkept].
    cbn [session_update begin pending violation note_violation].
    destruct (negb _); run; exact Hkept.
  - cbn [session_update begin pending violation note_violation].
    destruct (negb _); run; exact Hthere.
Qed.

(** C3: an edit of a team member with a new image that the optimizer
    accepts stores the new name, and the file stored before is still in the
    upload directory; an edit without a new image keeps the name. *)
Theorem edit_team_member_keeps_old_file :
  let rq := post_request "/admin/edit/team_members/1" banda_form
              [("member_image", mkfile "new photo.png" (Some png))] in
  let plain_rq := post_request "/admin/edit/team_members/1" banda_form [] in
  (edit_content "team_members" 1 rq banda_world).1
  = Returned (Redirect (ManageContent "team_members"))
  /\ List.map TeamMember.image_url
       (team_members (db (edit_content "team_members" 1 rq banda_world).2))
     = ["new_photo.webp"]
  /\ uploads (edit_content "team_members" 1 rq banda_world).2 !! "new_photo.webp" = Some webp
  /\ uploads (edit_content "team_members" 1 rq banda_world).2 !! "old-photo.webp" = Some stale
  /\ List.map TeamMember.image_url
       (team_members (db (edit_content "team_members" 1 plain_rq banda_world).2))
     = ["old-photo.webp"].
Proof. repeat split; vm_compute; reflexivity. Qed.

(** ** The theorems at sample requests *)

(** A team member submitted without a photograph. *)
Lemma create_without_required_image_witness :
  missing_image_rejected "team_members"
    (post_request "/admin/manage/team_members" banda_form [])
    (admin_world [] empty_db service_up).
Proof.
  destruct (create_without_required_image "team_members" "member_image"
              (post_request "/admin/manage/team_members" banda_form [])
              (admin_world [] empty_db service_up) 1)
    as (_ & _ & Hrejected & _);
    [reflexivity | reflexivity | reflexivity | left; reflexivity |].
  apply Hrejected. intros Hservices. discriminate Hservices.
Defined.

(** Deleting the office block, with its two site photographs. *)
Lemma delete_project_with_gallery_witness :
  exists w',
    delete_content "projects" 4 (post_request "/admin/delete/projects/4" [] []) office_world
    = (Returned (Redirect (ManageContent "projects")), w')
    /\ uploads w' !! "office.webp" = None
    /\ uploads w' !! "site-1.webp" = None
    /\ uploads w' !! "site-2.webp" = None
    /\ uploads w' !! "logo.webp" = Some stale.
Proof.
  destruct (delete_project_with_gallery office_world
              (post_request "/admin/delete/projects/4" [] []) 4 1 office_block
              "office.webp" (ProjectImage.mk 1 "site-1.webp" 4)
              (ProjectImage.mk 2 "site-2.webp" 4))
    as (w' & Hrun & _ & _ & _ & _ & Hprimary & Hfirst & Hsecond & Hothers & _);
    [reflexivity | reflexivity | reflexivity | discriminate | reflexivity |].
  exists w'. split; [exact Hrun|].
  split; [exact Hprimary|]. split; [exact Hfirst|]. split; [exact Hsecond|].
  rewrite Hothers; [reflexivity | discriminate | discriminate | discriminate].
Defined.

(** Deleting a contact submission from the inbox. *)
Lemma submissions_only_in_delete_witness :
  delete_content "submissions" 3 (post_request "/admin/delete/submissions/3" [] []) inbox_world
  = (Returned (Redirect Dashboard),
     set_flashes [("Submission deleted.", "info")] (set_db empty_db inbox_world))
  /\ manage_content "submissions" (post_request "/admin/delete/submissions/3" [] []) inbox_world
  = (Returned (Redirect Dashboard),
     set_flashes [("Invalid content type.", "danger")] inbox_world).
Proof.
  destruct (submissions_only_in_delete inbox_world
              (post_request "/admin/delete/submissions/3" [] []) 3 1
              (ContactSubmission.mk 3 "T. Mwale" "t@example.org" (Some "Quote")
                 "Please call." 0))
    as (_ & _ & _ & _ & _ & Hmanage & _ & Hdelete & _); [reflexivity | reflexivity |].
  split; [exact Hdelete | exact Hmanage].
Defined.

(** * Further properties of the routes *)

(** ** Computations that leave the database alone *)

Lemma keeps_ret {A} (a : A) : keeps_data (ret a).
Proof. intros w. apply same_data_refl. Qed.

Lemma keeps_raise {A} (e : exn) : keeps_data (@raise A e).
Proof. intros w. apply same_data_refl. Qed.

Lemma keeps_bind {A B} (m : M A) (k : A -> M B) :
  keeps_data m -> (forall a, keeps_data (k a)) -> keeps_data (bind m k).
Proof.
  intros Hm Hk w. unfold bind. specialize (Hm w).
  destruct (m w) as [[a|e] w1]; cbn [snd] in *; [|exact Hm].
  exact (same_data_trans _ _ _ Hm (Hk a w1)).
Qed.

Lemma keeps_try_except {A} (body : M A) (handler : exn -> M A) :
  keeps_data body -> (forall e, keeps_data (handler e)) ->
  keeps_data (try_except body handler).
Proof.
  intros Hbody Hhandler w. unfold try_except. specialize (Hbody w).
  destruct (body w) as [[a|e] w1]; cbn [snd] in *; [exact Hbody|].
  exact (same_data_trans _ _ _ Hbody (Hhandler e w1)).
Qed.

Lemma keeps_flash message category : keeps_data (flash message category).
Proof. intros w. frame_auto. Qed.

Lemma keeps_get_world : keeps_data get_world.
Proof. intros w. apply same_data_refl. Qed.

Lemma keeps_write_file name data : keeps_data (write_file name data).
Proof.
  intros w. unfold write_file. destruct (String.eqb name ""); [frame_auto|].
  destruct (name_max w <? _)%nat; frame_auto.
Qed.

Lemma keeps_path_exists name : keeps_data (path_exists name).
Proof. intros w. apply same_data_refl. Qed.

Lemma keeps_try_remove name : keeps_data (try_remove name).
Proof. intros w. frame_auto. Qed.

Lemma keeps_multi_index {V} key (d : list (string * V)) : keeps_data (multi_index key d).
Proof. unfold multi_index. destruct (multi_get key d); [apply keeps_ret | apply keeps_raise]. Qed.

Lemma keeps_form_int key d : keeps_data (form_int key d).
Proof.
  unfold form_int. apply keeps_bind; [apply keeps_multi_index|]. intros v.
  apply keeps_bind; [apply keeps_get_world|]. intros w.
  destruct (Py.int _ v); [apply keeps_ret | apply keeps_raise].
Qed.

Lemma keeps_optimize file mw mh : keeps_data (optimize_with_tinypng file mw mh).
Proof. intros w. apply optimize_frame. Qed.

Lemma keeps_edit_single_image field old mw mh rq :
  keeps_data (edit_single_image field old mw mh rq).
Proof. intros w. apply edit_single_image_frame. Qed.

Create HintDb keeps.
#[export] Hint Resolve keeps_ret keeps_raise keeps_flash keeps_get_world keeps_write_file
  keeps_path_exists keeps_try_remove keeps_multi_index keeps_form_int keeps_optimize
  keeps_edit_single_image : keeps.

(** Walking through a computation built from the pieces above. *)
Ltac keeps :=
  repeat match goal with
         | |- keeps_data (bind _ _) => apply keeps_bind; [|intro]
         | |- keeps_data (try_except _ _) => apply keeps_try_except; [|intro]
         | |- keeps_data (if ?b then _ else _) => destruct b
         | |- keeps_data (match ?x with _ => _ end) => destruct x
         | |- keeps_data _ => solve [auto with keeps]
         end.

Lemma keeps_create content_type rq : keeps_data (create content_type rq).
Proof.
  unfold create, create_project, create_blog, create_testimonial, create_statistic,
    create_team_member, create_service, create_client_logo, create_certification,
    image_required.
  keeps.
Qed.

Lemma keeps_add_gallery_images project_id gallery s :
  keeps_data (add_gallery_images project_id gallery s).
Proof.
  revert s. induction gallery as [|file rest IH]; intros s; cbn [add_gallery_images]; keeps;
    apply IH.
Qed.

Lemma keeps_delete_gallery_images ids s : keeps_data (delete_gallery_images ids s).
Proof.
  revert s. induction ids as [|img_id rest IH]; intros s; cbn [delete_gallery_images]; keeps;
    apply IH.
Qed.

Lemma keeps_remove_gallery_files images : keeps_data (remove_gallery_files images).
Proof. induction images as [|img rest IH]; cbn [remove_gallery_files]; keeps; exact IH. Qed.

#[export] Hint Resolve keeps_create keeps_add_gallery_images keeps_delete_gallery_images
  keeps_remove_gallery_files : keeps.

Lemma keeps_edit content_type item rq s : keeps_data (edit content_type item rq s).
Proof.
  unfold edit, edit_project, edit_blog, edit_testimonial, edit_statistic, edit_team_member,
    edit_service, edit_certification.
  keeps.
Qed.

(** ** No partial database change *)

Lemma bind_run {A B} (m : M A) (k : A -> M B) (w : world) :
  bind m k w
  = match m w with
    | (Returned a, w') => k a w'
    | (Raised e, w') => (Raised e, w')
    end.
Proof. reflexivity. Qed.

Lemma manage_content_raised content_type rq w e :
  (manage_content content_type rq w).1 = Raised e ->
  db (manage_content content_type rq w).2 = db w.
Proof.
  unfold manage_content, login_required.
  destruct (session_user w); [|discriminate].
  destruct (manage_models !! content_type); [|discriminate].
  destruct (method rq); [discriminate|].
  rewrite bind_run. pose proof (keeps_create content_type rq w) as (Hdb & _).
  destruct (create content_type rq w) as [[outcome|e'] w1]; cbn [fst snd] in *;
    [|intros _; exact Hdb].
  destruct outcome as [r|new_item|]; run; try discriminate.
  destruct (violation _); [intros _; exact Hdb | discriminate].
Qed.

Lemma edit_content_raised content_type item_id rq w e :
  (edit_content content_type item_id rq w).1 = Raised e ->
  db (edit_content content_type item_id rq w).2 = db w.
Proof.
  unfold edit_content, login_required.
  destruct (session_user w); [|discriminate].
  destruct (edit_models !! content_type) as [Model|]; [|discriminate].
  run. destruct (query_get Model item_id (db w)) as [item|];
    [|destruct (fits_sqlite_integer _); reflexivity].
  destruct (method rq); [discriminate|].
  pose proof (keeps_edit content_type item rq (begin (db w)) w) as (Hdb & _).
  destruct (edit content_type item rq (begin (db w)) w) as [[s|e'] w1]; cbn [fst snd] in *;
    [|intros _; exact Hdb].
  destruct (violation s); [intros _; exact Hdb | discriminate].
Qed.

Lemma remove_gallery_files_returns images w :
  (remove_gallery_files images w).1 = Returned tt.
Proof.
  revert w. induction images as [|img rest IH]; intros w; [reflexivity|].
  cbn [remove_gallery_files]. rewrite bind_run. unfold try_remove. apply IH.
Qed.

Lemma delete_content_raised content_type item_id rq w e :
  (delete_content content_type item_id rq w).1 = Raised e ->
  (exists Model, delete_models !! content_type = Some Model
                 /\ query_get Model item_id (db w) = None)
  /\ (e = NotFound /\ (Z.of_nat item_id < 2 ^ 63)%Z
      \/ e = OverflowError /\ (2 ^ 63 <= Z.of_nat item_id)%Z)
  /\ (delete_content content_type item_id rq w).2 = w.
Proof.
  unfold delete_content, login_required.
  destruct (session_user w); [|discriminate].
  destruct (delete_models !! content_type) as [Model|]; [|discriminate].
  run.
  destruct (query_get Model item_id (db w)) as [item|] eqn:Hq.
  2:{ unfold fits_sqlite_integer.
      destruct (Z.ltb_spec (Z.of_nat item_id) (2 ^ 63)) as [Hlt|Hge];
        rewrite ?andb_false_r, ?andb_true_r.
      - replace (- 2 ^ 63 <=? Z.of_nat item_id)%Z with true by (symmetry; apply Z.leb_le; lia).
        intros [= <-]. split; [exists Model; now split|]. split; [left; now split | reflexivity].
      - intros [= <-]. split; [exists Model; now split|]. split; [right; now split | reflexivity]. }
  intros Hraised. exfalso. revert Hraised.
  destruct (Py.truthy (entity_image_url item)); cbn [fst snd].
  all: destruct item; cbn [session_delete begin violation pending];
    repeat match goal with
           | |- context [remove_gallery_files ?l ?w0] =>
               let H := fresh in
               pose proof (remove_gallery_files_returns l w0) as H;
               destruct (remove_gallery_files l w0) as [[[]|?] ?];
               cbn [fst] in H; try discriminate H
           | |- context [if ?b then _ else _] => destruct b
           end; discriminate.
Qed.

(** X1: an admin request that ends in an exception has changed nothing in
    the database, although files may have been written or removed by then;
    [delete_content] raises only for an id that is the key of no row
    ([NotFound], or [OverflowError] for an id that SQLite cannot take), and
    then changes nothing at all. *)
Theorem raised_request_leaves_database (content_type : string) (item_id : nat)
    (rq : request) (w : world) (e : exn) :
  ((manage_content content_type rq w).1 = Raised e ->
   db (manage_content content_type rq w).2 = db w)
  /\ ((edit_content content_type item_id rq w).1 = Raised e ->
      db (edit_content content_type item_id rq w).2 = db w)
  /\ ((delete_content content_type item_id rq w).1 = Raised e ->
      (exists Model, delete_models !! content_type = Some Model
                     /\ query_get Model item_id (db w) = None)
      /\ (e = NotFound \/ e = OverflowError)
      /\ (delete_content content_type item_id rq w).2 = w).
Proof.
  split; [apply manage_content_raised|].
  split; [apply edit_content_raised|].
  intros Hraised.
  destruct (delete_content_raised _ _ _ _ _ Hraised) as (Hmissing & [[-> _] | [-> _]] & Hw);
    auto.
Qed.

(** ** What a create adds *)

Lemma creates_only_bind {A} P (m : M A) (k : A -> M created) :
  (forall a, creates_only P (k a)) -> creates_only P (bind m k).
Proof.
  intros Hk w new_item. rewrite bind_run.
  destruct (m w) as [[a|e] w1]; [apply Hk | discriminate].
Qed.

Lemma creates_only_item P new_item : P new_item -> creates_only P (ret (NewItem new_item)).
Proof. intros HP w e [= <-]. exact HP. Qed.

Lemma creates_only_respond P r : creates_only P (ret (Respond r)).
Proof. intros w e [=]. Qed.

Lemma creates_only_none P : creates_only P (ret NoItem).
Proof. intros w e [=]. Qed.

Lemma creates_only_raise P e : creates_only P (raise e).
Proof. intros w new_item [=]. Qed.

(** Walking through a create branch. *)
Ltac creates :=
  repeat match goal with
         | |- creates_only _ (bind _ _) => apply creates_only_bind; intro
         | |- creates_only _ (ret (NewItem _)) => apply creates_only_item; reflexivity
         | |- creates_only _ (ret (Respond _)) => apply creates_only_respond
         | |- creates_only _ (ret NoItem) => apply creates_only_none
         | |- creates_only _ (if ?b then _ else _) => destruct b
         end.

Lemma create_model content_type rq :
  creates_only (fun new_item => manage_models !! content_type = Some (model_of new_item))
    (create content_type rq).
Proof.
  unfold create.
  repeat (case_content_type content_type;
          [unfold create_project, create_blog, create_testimonial, create_statistic,
             create_team_member, create_service, create_client_logo, create_certification,
             image_required; creates|]).
  creates.
Qed.

Lemma next_pk_above {T} `{Row T} (rows : list T) (r : T) :
  In r rows -> pk r < next_pk rows.
Proof.
  unfold next_pk. induction rows as [|x rows IH]; [intros []|].
  cbn [List.map List.fold_right]. intros [<- | Hin]; [lia|].
  specialize (IH Hin). lia.
Qed.

Lemma session_add_rows now new_item d :
  exists stored,
    model_of stored = model_of new_item
    /\ query_all (model_of new_item) (pending (session_add now new_item (begin d)))
       = (query_all (model_of new_item) d ++ [stored])%list
    /\ (forall old, In old (query_all (model_of new_item) d) -> entity_id old < entity_id stored)
    /\ (forall M, M <> model_of new_item ->
          query_all M (pending (session_add now new_item (begin d))) = query_all M d)
    /\ project_images (pending (session_add now new_item (begin d))) = project_images d.
Proof.
  destruct new_item as [r|r|r|r|r|r|r|r|r];
    cbn [session_add begin pending model_of query_all];
    unfold table_insert; eexists; (split; [|split; [|split; [|split]]]);
    try (cbn [query_all projects blog_posts testimonials submissions statistics team_members
              services client_logos certifications set_projects set_blog_posts
              set_testimonials set_submissions set_statistics set_team_members set_services
              set_client_logos set_certifications];
         rewrite fmap_app; reflexivity);
    try reflexivity;
    try (intros old Hin; apply list_elem_of_In, list_elem_of_fmap in Hin as (x & -> & Hin);
         apply list_elem_of_In in Hin; exact (next_pk_above _ _ Hin));
    try (intros M HM; destruct M; try reflexivity; now destruct HM).
Qed.

(** X2: whatever the request, [manage_content] leaves the database as it
    was or adds exactly one row: a new instance of the model registered for
    the content type, after the rows already there and under an id above
    all of theirs; the rows already there, the other tables and the gallery
    records stay as they were. *)
Theorem create_adds_one_row (content_type : string) (rq : request) (w : world) :
  db (manage_content content_type rq w).2 = db w
  \/ exists Model stored,
       manage_models !! content_type = Some Model
       /\ model_of stored = Model
       /\ query_all Model (db (manage_content content_type rq w).2)
          = (query_all Model (db w) ++ [stored])%list
       /\ (forall old, In old (query_all Model (db w)) -> entity_id old < entity_id stored)
       /\ (forall Other, Other <> Model ->
             query_all Other (db (manage_content content_type rq w).2)
             = query_all Other (db w))
       /\ project_images (db (manage_content content_type rq w).2) = project_images (db w).
Proof.
  unfold manage_content, login_required.
  destruct (session_user w); [|left; reflexivity].
  destruct (manage_models !! content_type) as [Model|] eqn:Hmodel; [|left; reflexivity].
  destruct (method rq); [left; reflexivity|].
  rewrite bind_run.
  pose proof (keeps_create content_type rq w) as (Hdb & _ & Hnow & _).
  pose proof (create_model content_type rq w) as Hclass.
  destruct (create content_type rq w) as [[outcome|e] w1]; cbn [fst snd] in *;
    [|left; exact Hdb].
  destruct outcome as [r|new_item|]; run; try (left; exact Hdb).
  destruct (violation _); run; [left; exact Hdb|].
  right. cbn [db set_db set_flashes]. rewrite Hdb, Hnow.
  specialize (Hclass new_item eq_refl). rewrite Hmodel in Hclass. injection Hclass as ->.
  destruct (session_add_rows (utcnow w) new_item (db w))
    as (stored & Hstored & Hrows & Hfresh & Hothers & Himages).
  exists (model_of new_item), stored. repeat split; assumption.
Qed.

(** ** The optimizer and the upload directory *)

(** X3: the optimizer touches nothing but the upload directory and the
    flashed messages; the only directory entry it can change is the one
    whose name it returns, and that entry exists afterwards; with an empty
    file name it returns [None] at once and changes nothing. *)
Theorem optimizer_writes_only_its_file (file : FileStorage) (mw mh : option N) (w : world) :
  same_data w (optimize_with_tinypng file mw mh w).2
  /\ (forall name,
        uploads (optimize_with_tinypng file mw mh w).2 !! name <> uploads w !! name ->
        (optimize_with_tinypng file mw mh w).1 = Returned (Some name))
  /\ (forall name,
        (optimize_with_tinypng file mw mh w).1 = Returned (Some name) ->
        is_Some (uploads (optimize_with_tinypng file mw mh w).2 !! name))
  /\ (filename file = "" -> optimize_with_tinypng file mw mh w = (Returned None, w)).
Proof.
  split; [apply optimize_frame|].
  unfold optimize_with_tinypng.
  assert (Hsame : forall (r : result (option string)) (w' : world),
            uploads w' = uploads w -> r <> Returned None -> (forall n, r <> Returned (Some n)) ->
            (forall name, uploads w' !! name <> uploads w !! name -> r = Returned (Some name))
            /\ (forall name, r = Returned (Some name) -> is_Some (uploads w' !! name))).
  { intros r w' Heq _ Hr. split.
    - intros name Hdiff. rewrite Heq in Hdiff. now destruct Hdiff.
    - intros name Hsome. now destruct (Hr name). }
  assert (Hnone : forall w' : world,
            uploads w' = uploads w ->
            (forall name, uploads w' !! name <> uploads w !! name ->
                          @Returned (option string) None = Returned (Some name))
            /\ (forall name, @Returned (option string) None = Returned (Some name) ->
                             is_Some (uploads w' !! name))).
  { intros w' Heq. split.
    - intros name Hdiff. rewrite Heq in Hdiff. now destruct Hdiff.
    - intros name [=]. }
  assert (Hwritten : forall (name : string) (data : bytes) (w' : world),
            uploads w' = <[name := data]> (uploads w) ->
            (forall n, uploads w' !! n <> uploads w !! n ->
                       Returned (Some name) = Returned (Some n))
            /\ (forall n, Returned (Some name) = Returned (Some n) ->
                          is_Some (uploads w' !! n))).
  { intros name data w' Heq. split.
    - intros n Hdiff. destruct (decide (name = n)) as [->|Hne]; [reflexivity|].
      rewrite Heq, lookup_insert_ne in Hdiff by exact Hne. now destruct Hdiff.
    - intros n [= <-]. rewrite Heq, lookup_insert_eq. now eexists. }
  destruct (String.eqb_spec (filename file) "") as [Hempty|Hname].
  { destruct (Hnone w eq_refl) as [H1 H2]. split; [exact H1|]. split; [exact H2|].
    reflexivity. }
  cut (let out := try_except
         (let* image_data := read file in
          let* converted := tinify_convert image_data (resize_method mw mh) in
          write_file (fst (splitext (secure_filename (python w) (filename file))) ++ ".webp")
            converted;;
          ret (Some (fst (splitext (secure_filename (python w) (filename file))) ++ ".webp")))
         (fun e =>
            match e with
            | TinifyError message =>
                flash ("Image optimization failed: " ++ message
                       ++ ". Attempting to save original file.") "warning";;
                save file (secure_filename (python w) (filename file));;
                ret (Some (secure_filename (python w) (filename file)))
            | _ =>
                flash ("An unexpected error occurred during image processing: "
                       ++ exn_str e) "danger";;
                ret None
            end) w in
       (forall name, uploads out.2 !! name <> uploads w !! name -> out.1 = Returned (Some name))
       /\ (forall name, out.1 = Returned (Some name) -> is_Some (uploads out.2 !! name))).
  { cbn zeta. intros [H1 H2]. split; [exact H1|]. split; [exact H2|]. contradiction. }
  cbn zeta. run.
  destruct (stream file) as [data|]; run; [|apply Hnone; reflexivity].
  destruct (tinify w data (resize_method mw mh)) as [converted|e]; run.
  - destruct (String.eqb _ ""); cbn [fst snd].
    + apply Hnone; reflexivity.
    + destruct (name_max w <? _)%nat; cbn [fst snd].
      * apply Hnone; reflexivity.
      * eapply Hwritten. reflexivity.
  - destruct e; run; try (apply Hnone; reflexivity).
    destruct (String.eqb _ ""); cbn [fst snd].
    + apply Hsame; [reflexivity | discriminate | intros; discriminate].
    + destruct (name_max _ <? _)%nat; cbn [fst snd].
      * apply Hsame; [reflexivity | discriminate | intros; discriminate].
      * eapply Hwritten. reflexivity.
Qed.

Lemma all_chars_filter p s : all_chars p (Py.filter p s) = true.
Proof.
  induction s as [|c s IH]; [reflexivity|]. cbn [Py.filter].
  destruct (p c) eqn:Hc; [|exact IH]. cbn [all_chars]. now rewrite Hc, IH.
Qed.

Lemma all_chars_lstrip p q s : all_chars p s = true -> all_chars p (Py.lstrip q s) = true.
Proof.
  induction s as [|c s IH]; [reflexivity|]. cbn [Py.lstrip all_chars].
  intros [Hc Hs]%andb_true_iff. destruct (q c); [now apply IH|].
  cbn [all_chars]. now rewrite Hc, Hs.
Qed.

Lemma all_chars_rstrip p q s : all_chars p s = true -> all_chars p (Py.rstrip q s) = true.
Proof.
  induction s as [|c s IH]; [reflexivity|]. cbn [Py.rstrip all_chars].
  intros [Hc Hs]%andb_true_iff. specialize (IH Hs).
  destruct (Py.rstrip q s) as [|d r].
  - destruct (q c); [reflexivity|]. cbn [all_chars]. now rewrite Hc.
  - cbn [all_chars] in *. now rewrite Hc, IH.
Qed.

Lemma all_chars_substring p s : forall n m,
  all_chars p s = true -> all_chars p (String.substring n m s) = true.
Proof.
  induction s as [|c s IH]; intros n m Hall.
  - destruct n, m; reflexivity.
  - cbn [all_chars] in Hall. apply andb_true_iff in Hall as [Hc Hs].
    destruct n as [|n]; destruct m as [|m]; cbn [String.substring]; try reflexivity.
    + cbn [all_chars]. now rewrite Hc, (IH 0 m Hs).
    + now apply IH.
    + now apply IH.
Qed.

Lemma secure_filename_chars py name :
  all_chars filename_char_ok (secure_filename py name) = true.
Proof.
  unfold secure_filename, Py.strip.
  apply all_chars_rstrip, all_chars_lstrip, all_chars_filter.
Qed.

Lemma splitext_chars p s :
  all_chars p s = true -> all_chars p (fst (splitext s)) = true.
Proof.
  intros Hall. unfold splitext. destruct (_ && _); cbn [fst]; [|exact Hall].
  now apply all_chars_substring.
Qed.

Lemma all_chars_no_slash s : all_chars filename_char_ok s = true -> contains "/" s = false.
Proof.
  induction s as [|c s IH]; [reflexivity|]. cbn [all_chars contains].
  intros [Hc Hs]%andb_true_iff. rewrite (IH Hs), orb_false_r.
  destruct (Ascii.eqb_spec c "/") as [->|]; [discriminate Hc | reflexivity].
Qed.

Lemma lstrip_head p s c rest : Py.lstrip p s = String c rest -> p c = false.
Proof.
  induction s as [|d s IH]; [discriminate|]. cbn [Py.lstrip].
  destruct (p d) eqn:Hd; [exact IH|]. now intros [= <- _].
Qed.

Lemma rstrip_head p s c rest :
  Py.rstrip p s = String c rest -> exists rest', s = String c rest'.
Proof.
  destruct s as [|d s]; [discriminate|]. cbn [Py.rstrip].
  destruct (Py.rstrip p s); [destruct (p d); [discriminate|] |]; intros [= <- _]; eauto.
Qed.

Lemma secure_filename_head py name c rest :
  secure_filename py name = String c rest -> c <> "."%char.
Proof.
  unfold secure_filename, Py.strip. intros Hname.
  apply rstrip_head in Hname as [rest' Hname]. apply lstrip_head in Hname.
  intros ->. discriminate Hname.
Qed.

Lemma optimize_name_plain (file : FileStorage) (mw mh : option N) (w : world)
    (name : string) :
  (optimize_with_tinypng file mw mh w).1 = Returned (Some name) ->
  name <> ""
  /\ all_chars filename_char_ok name = true
  /\ contains "/" name = false
  /\ name <> "." /\ name <> "..".
Proof.
  intros Hname.
  split; [exact (proj2 (proj2 (optimize_frame file mw mh w)) name Hname)|].
  assert (Hcases : name = fst (splitext (secure_filename (python w) (filename file))) ++ ".webp"
                   \/ (name = secure_filename (python w) (filename file) /\ name <> "")).
  { revert Hname. unfold optimize_with_tinypng.
    destruct (String.eqb (filename file) ""); [discriminate|].
    run. destruct (stream file) as [data|]; run; [|discriminate].
    destruct (tinify w data (resize_method mw mh)) as [converted|e]; run.
    - destruct (String.eqb _ ""); cbn [fst]; [discriminate|].
      destruct (name_max w <? _)%nat; cbn [fst]; [discriminate|]. intros [= <-]. now left.
    - destruct e; run; try discriminate.
      destruct (String.eqb_spec (secure_filename (python w) (filename file)) ""); cbn [fst];
        [discriminate|].
      destruct (name_max _ <? _)%nat; cbn [fst]; [discriminate|]. intros [= <-]. now right. }
  assert (Hok : all_chars filename_char_ok name = true).
  { destruct Hcases as [-> | [-> _]]; [|apply secure_filename_chars].
    rewrite all_chars_app, (splitext_chars _ _ (secure_filename_chars _ _)). reflexivity. }
  split; [exact Hok|]. split; [now apply all_chars_no_slash|].
  destruct Hcases as [-> | [Heq Hne]].
  - destruct (fst (splitext (secure_filename (python w) (filename file)))) as [|c [|d [|]]];
      split; discriminate.
  - destruct name as [|c rest]; [contradiction|].
    symmetry in Heq. apply secure_filename_head in Heq.
    split; intros [= -> _]; now apply Heq.
Qed.

(** X4: a name that the optimizer returns is not empty, is made of ASCII
    letters, digits, underscores, dots and hyphens only, so holds no path
    separator, and is neither [.] nor [..]. *)
Theorem optimizer_names_are_plain (file : FileStorage) (mw mh : option N) (w : world)
    (name : string) :
  (optimize_with_tinypng file mw mh w).1 = Returned (Some name) ->
  name <> ""
  /\ all_chars filename_char_ok name = true
  /\ contains "/" name = false
  /\ name <> "." /\ name <> "..".
Proof. exact (optimize_name_plain file mw mh w name). Qed.

(** Case analysis on the test for an empty name in [write_file], and on
    its test for a name that is too long. *)
Ltac case_empty_name :=
  match goal with
  | |- context [if String.eqb ?s "" then _ else _] => destruct (String.eqb s "")
  end.

Ltac case_long_name :=
  match goal with
  | |- context [if (name_max ?w <? ?n)%nat then _ else _] => destruct (name_max w <? n)%nat
  end.

Lemma optimize_returned_exists file mw mh w name :
  (optimize_with_tinypng file mw mh w).1 = Returned (Some name) ->
  is_Some (uploads (optimize_with_tinypng file mw mh w).2 !! name).
Proof.
  unfold optimize_with_tinypng.
  destruct (String.eqb (filename file) ""); [discriminate|].
  run. destruct (stream file) as [data|]; run; [|discriminate].
  destruct (tinify w data (resize_method mw mh)) as [converted|e]; run.
  - case_empty_name; cbn [fst snd]; [discriminate|].
    case_long_name; cbn [fst snd]; [discriminate|]. intros [= <-].
    cbn [uploads set_uploads]. rewrite lookup_insert_eq. now eexists.
  - destruct e; run; try discriminate.
    case_empty_name; cbn [fst snd]; [discriminate|].
    case_long_name; cbn [fst snd]; [discriminate|]. intros [= <-].
    cbn [uploads set_uploads]. rewrite lookup_insert_eq. now eexists.
Qed.

(** X5: a name that the optimizer returns is served by [uploaded_file]
    from the directory the optimizer leaves: the bytes served are the upload
    as the remote service converted it, or the upload itself. *)
Theorem optimized_file_is_served (file : FileStorage) (mw mh : option N) (w : world)
    (name : string) :
  (optimize_with_tinypng file mw mh w).1 = Returned (Some name) ->
  exists original data,
    stream file = Some original
    /\ uploaded_file name (optimize_with_tinypng file mw mh w).2
       = (Returned data, (optimize_with_tinypng file mw mh w).2)
    /\ (tinify w original (resize_method mw mh) = Returned data \/ data = original).
Proof.
  intros Hname.
  destruct (optimize_name_plain _ _ _ _ _ Hname) as (Hne & _ & Hslash & Hdot & Hdots).
  apply String.eqb_neq in Hne, Hdot, Hdots.
  unfold uploaded_file. rewrite Hslash, Hne, Hdot, Hdots. cbn [orb].
  revert Hname. unfold optimize_with_tinypng.
  destruct (String.eqb (filename file) ""); [discriminate|].
  run. destruct (stream file) as [original|]; run; [|discriminate].
  destruct (tinify w original (resize_method mw mh)) as [converted|e] eqn:Hremote; run.
  - case_empty_name; cbn [fst snd]; [discriminate|].
    case_long_name; cbn [fst snd]; [discriminate|]. intros [= <-].
    exists original, converted. cbn [uploads set_uploads]. rewrite lookup_insert_eq.
    split; [reflexivity|]. split; [reflexivity | now left].
  - destruct e; run; try discriminate.
    case_empty_name; cbn [fst snd]; [discriminate|].
    case_long_name; cbn [fst snd]; [discriminate|]. intros [= <-].
    exists original, original. cbn [uploads set_uploads]. rewrite lookup_insert_eq.
    split; [reflexivity|]. split; [reflexivity | now right].
Qed.

Lemma optimize_converts_run (file : FileStorage) (mw mh : option N) (w : world)
    (data converted : bytes) :
  filename file <> "" ->
  stream file = Some data ->
  tinify w data (resize_method mw mh) = Returned converted ->
  String.length (fst (splitext (secure_filename (python w) (filename file))) ++ ".webp")
  <= name_max w ->
  optimize_with_tinypng file mw mh w
  = (Returned (Some (fst (splitext (secure_filename (python w) (filename file))) ++ ".webp")),
     set_uploads
       (<[fst (splitext (secure_filename (python w) (filename file))) ++ ".webp" := converted]>
          (uploads w)) w).
Proof.
  intros Hname Hstream Hremote Hshort.
  apply String.eqb_neq in Hname. apply Nat.ltb_ge in Hshort.
  unfold optimize_with_tinypng. rewrite Hname. run. rewrite Hstream. run.
  rewrite Hremote. run.
  match goal with
  | |- context [if (name_max w <? ?n)%nat then _ else _] =>
      replace (name_max w <? n)%nat with false by (symmetry; exact Hshort)
  end.
  match goal with
  | |- context [if String.eqb ?s "" then _ else _] =>
      destruct (String.eqb_spec s "") as [Hempty|_]
  end; [|reflexivity].
  apply append_nonempty in Hempty; [contradiction | discriminate].
Qed.

(** X6: when the upload has a name, its bytes can be read, the remote
    service converts them, and the name made for the result (the sanitized
    base name with the extension [.webp]) is not longer than the file
    system takes, the optimizer writes the converted bytes under that name,
    returns the name and flashes nothing. *)
Theorem optimizer_converts (file : FileStorage) (mw mh : option N) (w : world)
    (data converted : bytes) :
  filename file <> "" ->
  stream file = Some data ->
  tinify w data (resize_method mw mh) = Returned converted ->
  String.length (fst (splitext (secure_filename (python w) (filename file))) ++ ".webp")
  <= name_max w ->
  optimize_with_tinypng file mw mh w
  = (Returned (Some (fst (splitext (secure_filename (python w) (filename file))) ++ ".webp")),
     set_uploads
       (<[fst (splitext (secure_filename (python w) (filename file))) ++ ".webp" := converted]>
          (uploads w)) w).
Proof. exact (optimize_converts_run file mw mh w data converted). Qed.

(** ** The login guard *)

Lemma login_required_anonymous (f : M response) w :
  session_user w = None -> login_required f w = refused w.
Proof. intros H. unfold login_required. now rewrite H. Qed.

(** X7: without a logged-in user, the three admin routes answer with the
    redirect to the login page and a warning, whatever the content type, the
    item and the request; nothing else changes. *)
Theorem anonymous_request_is_refused (content_type : string) (item_id : nat)
    (rq : request) (w : world) :
  session_user w = None ->
  manage_content content_type rq w = refused w
  /\ edit_content content_type item_id rq w = refused w
  /\ delete_content content_type item_id rq w = refused w.
Proof.
  intros Hanonymous. repeat split; now apply login_required_anonymous.
Qed.

(** X8: [logout] clears the logged-in user and touches neither the database
    nor the upload directory; every admin request after it is refused,
    with the redirect to the login page and nothing changed but the flashed
    messages. *)
Theorem logout_closes_admin_routes (content_type : string) (item_id : nat)
    (rq : request) (w : world) :
  (logout w).1 = Returned (Redirect Login)
  /\ session_user (logout w).2 = None
  /\ db (logout w).2 = db w
  /\ uploads (logout w).2 = uploads w
  /\ manage_content content_type rq (logout w).2 = refused (logout w).2
  /\ edit_content content_type item_id rq (logout w).2 = refused (logout w).2
  /\ delete_content content_type item_id rq (logout w).2 = refused (logout w).2.
Proof.
  repeat (split; [reflexivity|]).
  repeat split; now apply login_required_anonymous.
Qed.

(** ** Items that are not there *)

Lemma set_db_same w : set_db (db w) w = w.
Proof. now destruct w. Qed.

Lemma fits_item_id (item_id : nat) :
  fits_sqlite_integer (Z.of_nat item_id) = true <-> (Z.of_nat item_id < 2 ^ 63)%Z.
Proof.
  unfold fits_sqlite_integer. rewrite andb_true_iff, Z.leb_le, Z.ltb_lt. lia.
Qed.

(** An id that SQLite cannot take is the key of no row either, but it is
    not answered by 404: the driver raises. *)
Lemma huge_item_id_overflows (content_type : string) (item_id : nat) (rq : request)
    (w : world) (u : nat) (Model : model) :
  session_user w = Some u ->
  query_get Model item_id (db w) = None ->
  (2 ^ 63 <= Z.of_nat item_id)%Z ->
  (edit_models !! content_type = Some Model ->
   edit_content content_type item_id rq w = (Raised OverflowError, w))
  /\ (delete_models !! content_type = Some Model ->
      delete_content content_type item_id rq w = (Raised OverflowError, w)).
Proof.
  intros Hu Hmissing Hhuge.
  assert (Hfits : fits_sqlite_integer (Z.of_nat item_id) = false).
  { apply not_true_iff_false. rewrite fits_item_id. lia. }
  split; intros Hmodel.
  - unfold edit_content. rewrite (login_required_logged_in _ _ _ Hu), Hmodel.
    run. now rewrite Hmissing, Hfits.
  - unfold delete_content. rewrite (login_required_logged_in _ _ _ Hu), Hmodel.
    run. now rewrite Hmissing, Hfits.
Qed.

(** X9: for a known content type and an id that SQLite can take (one below
    2^63) under which the table has no row, [edit_content] and
    [delete_content] raise [NotFound] (a 404 response) and change
    nothing. *)
Theorem missing_item_is_not_found (content_type : string) (item_id : nat) (rq : request)
    (w : world) (u : nat) (Model : model) :
  session_user w = Some u ->
  query_get Model item_id (db w) = None ->
  (Z.of_nat item_id < 2 ^ 63)%Z ->
  (edit_models !! content_type = Some Model ->
   edit_content content_type item_id rq w = (Raised NotFound, w))
  /\ (delete_models !! content_type = Some Model ->
      delete_content content_type item_id rq w = (Raised NotFound, w)).
Proof.
  intros Hu Hmissing Hfits. apply fits_item_id in Hfits. split; intros Hmodel.
  - unfold edit_content. rewrite (login_required_logged_in _ _ _ Hu), Hmodel.
    run. now rewrite Hmissing, Hfits.
  - unfold delete_content. rewrite (login_required_logged_in _ _ _ Hu), Hmodel.
    run. now rewrite Hmissing, Hfits.
Qed.

(** ** The edit of a client logo *)

(** X10: [edit_content] has no branch for client logos: a POST for an
    existing client logo changes no row and no file, whatever the form and
    the uploads hold, and still reports "Client Logo updated successfully!". *)
Theorem edit_client_logo_changes_nothing (item_id : nat) (rq : request) (w : world)
    (u : nat) (item : ClientLogo.t) :
  session_user w = Some u ->
  method rq = POST ->
  table_get item_id (client_logos (db w)) = Some item ->
  edit_content "client_logos" item_id rq w
  = (Returned (Redirect (ManageContent "client_logos")),
     set_flashes (flashes w ++ [("Client Logo updated successfully!", "success")]) w).
Proof.
  intros Hu Hpost Hitem. unfold edit_content.
  rewrite (login_required_logged_in _ _ _ Hu).
  replace (edit_models !! "client_logos") with (Some ClientLogoModel) by reflexivity.
  run. unfold query_get. run. rewrite Hitem. run. rewrite Hpost. run.
  unfold edit. dispatch. run. cbn [begin violation pending]. run.
  now rewrite set_db_same.
Qed.

(** ** The characters of a slug *)

(** X11: the slug of any title holds no space, no ampersand, no slash and
    no ASCII capital letter, on any interpreter. *)
Theorem slug_characters (py : Py.runtime) (title : string) :
  all_chars slug_char_ok (slugify py title) = true.
Proof. exact (slugify_ok py title). Qed.

(** ** Deleting any item *)

Lemma table_get_delete {T} `{Row T} (i : nat) (rows : list T) :
  table_get i (table_delete i rows) = None.
Proof.
  unfold table_get, table_delete. induction rows as [|x rows IH]; [reflexivity|].
  cbn [List.filter]. destruct (Nat.eqb (pk x) i) eqn:Hx; cbn [negb]; [exact IH|].
  cbn [List.find]. now rewrite Hx.
Qed.

Lemma query_get_item Model item_id d item :
  query_get Model item_id d = Some item ->
  model_of item = Model /\ entity_id item = item_id.
Proof.
  destruct Model; cbn [query_get]; unfold fmap, option_fmap, option_map;
    destruct (table_get item_id _) as [r|] eqn:Hget; intros [= <-];
    (split; [reflexivity | exact (proj1 (table_get_pk _ _ _ Hget))]).
Qed.

Lemma session_delete_gone Model item_id d item :
  query_get Model item_id d = Some item ->
  query_get Model item_id (pending (session_delete item (begin d))) = None.
Proof.
  intros Hget. destruct (query_get_item _ _ _ _ Hget) as [<- <-].
  destruct item; cbn [model_of query_get session_delete begin pending entity_id
                      projects blog_posts testimonials submissions statistics team_members
                      services client_logos certifications set_projects set_blog_posts
                      set_testimonials set_submissions set_statistics set_team_members
                      set_services set_client_logos set_certifications set_project_images];
    now rewrite table_get_delete.
Qed.

Lemma remove_gallery_files_run images w :
  exists files,
    remove_gallery_files images w = (Returned tt, set_uploads files w)
    /\ forall name, uploads w !! name = None -> files !! name = None.
Proof.
  revert w. induction images as [|img rest IH]; intros w.
  - exists (uploads w). cbn [remove_gallery_files]. unfold ret. rewrite set_uploads_same.
    split; [reflexivity | auto].
  - cbn [remove_gallery_files]. rewrite bind_run. unfold try_remove.
    destruct (IH (set_uploads (delete (ProjectImage.image_url img) (uploads w)) w))
      as (files & Hrun & Hgone).
    exists files. rewrite Hrun. split; [reflexivity|].
    intros name Hnone. apply Hgone. cbn [uploads set_uploads].
    destruct (decide (ProjectImage.image_url img = name)) as [->|Hne];
      [apply lookup_delete_eq | now rewrite lookup_delete_ne].
Qed.

(** X12: deleting an existing item of any content type (its key being, as
    the keys of SQLite are, below 2^63) removes its row, so that a lookup by
    its id finds nothing, and removes the file that its [image_url] names;
    the answer is the redirect to the listing (to the dashboard for a
    submission), and a second delete of the same id raises [NotFound] and
    changes nothing. *)
Theorem delete_is_final (content_type : string) (item_id : nat) (rq : request) (w : world)
    (u : nat) (Model : model) (item : entity) :
  session_user w = Some u ->
  delete_models !! content_type = Some Model ->
  query_get Model item_id (db w) = Some item ->
  (Z.of_nat item_id < 2 ^ 63)%Z ->
  exists w',
    delete_content content_type item_id rq w
    = (Returned (Redirect (if String.eqb content_type "submissions" then Dashboard
                           else ManageContent content_type)), w')
    /\ query_get Model item_id (db w') = None
    /\ (forall name, entity_image_url item = Some name -> name <> "" ->
          uploads w' !! name = None)
    /\ delete_content content_type item_id rq w' = (Raised NotFound, w').
Proof.
  intros Hu HModel Hitem Hfits. apply fits_item_id in Hfits.
  pose proof (session_delete_gone _ _ _ _ Hitem) as Hgone.
  assert (Hfirst : exists files,
            (if Py.truthy (entity_image_url item)
             then try_remove (default "" (entity_image_url item)) else ret tt) w
            = (Returned tt, set_uploads files w)
            /\ forall name, entity_image_url item = Some name -> name <> "" ->
                            files !! name = None).
  { destruct (entity_image_url item) as [image|]; cbn [Py.truthy default].
    - destruct (String.eqb_spec image "") as [->|Hne]; cbn [negb]; unfold id.
      + exists (uploads w). unfold ret. rewrite set_uploads_same. split; [reflexivity|].
        intros name [= <-] Hname. now destruct Hname.
      + exists (delete image (uploads w)). split; [reflexivity|].
        intros name [= <-] _. apply lookup_delete_eq.
    - exists (uploads w). unfold ret. rewrite set_uploads_same. now split. }
  destruct Hfirst as (files1 & Hrun1 & Hfiles1).
  assert (Hsecond : forall w1, exists files,
            match item with
            | EProject r =>
                if String.eqb content_type "projects"
                then remove_gallery_files (images_of (Project.id r) (db w1)) else ret tt
            | _ => ret tt
            end w1 = (Returned tt, set_uploads files w1)
            /\ forall name, uploads w1 !! name = None -> files !! name = None).
  { intros w1.
    assert (Hstay : exists files, @ret unit tt w1 = (Returned tt, set_uploads files w1)
                      /\ forall name, uploads w1 !! name = None -> files !! name = None).
    { exists (uploads w1). unfold ret. rewrite set_uploads_same. now split. }
    destruct item; try exact Hstay.
    destruct (String.eqb content_type "projects"); [|exact Hstay].
    apply remove_gallery_files_run. }
  assert (Hthird : forall w1, exists files,
            match item with
            | EService r =>
                if String.eqb content_type "services" && Py.truthy (Service.header_image_url r)
                then try_remove (default "" (Service.header_image_url r)) else ret tt
            | _ => ret tt
            end w1 = (Returned tt, set_uploads files w1)
            /\ forall name, uploads w1 !! name = None -> files !! name = None).
  { intros w1.
    assert (Hstay : exists files, @ret unit tt w1 = (Returned tt, set_uploads files w1)
                      /\ forall name, uploads w1 !! name = None -> files !! name = None).
    { exists (uploads w1). unfold ret. rewrite set_uploads_same. now split. }
    destruct item; try exact Hstay.
    destruct (_ && _); [|exact Hstay].
    eexists. split; [reflexivity|]. intros name Hnone.
    destruct (decide (default "" (Service.header_image_url r) = name)) as [->|Hne];
      [apply lookup_delete_eq | now rewrite lookup_delete_ne]. }
  unfold delete_content. rewrite (login_required_logged_in _ _ _ Hu), HModel.
  rewrite bind_run. unfold get_or_404 at 1. rewrite Hitem.
  rewrite bind_run, Hrun1. rewrite bind_run. unfold get_world at 1.
  destruct (Hsecond (set_uploads files1 w)) as (files2 & Hrun2 & Hfiles2).
  cbn [db set_uploads] in *. rewrite bind_run, Hrun2.
  destruct (Hthird (set_uploads files2 (set_uploads files1 w))) as (files3 & Hrun3 & Hfiles3).
  rewrite bind_run, Hrun3.
  rewrite bind_run. unfold commit at 1.
  replace (violation (session_delete item (begin (db w)))) with (@None exn)
    by (now destruct item).
  rewrite bind_run. unfold flash at 1.
  eexists. split.
  { destruct (String.eqb content_type "submissions"); reflexivity. }
  cbn [db set_db set_flashes set_uploads uploads session_user].
  split; [exact Hgone|].
  split.
  { intros name Himage Hname. apply Hfiles3, Hfiles2, Hfiles1; assumption. }
  unfold delete_content, login_required. cbn [session_user set_flashes set_db set_uploads].
  rewrite Hu, bind_run. unfold get_or_404.
  cbn [db set_db set_flashes set_uploads]. now rewrite Hgone, Hfits.
Qed.

(** ** Creates that fail after the image was written *)

Lemma upload_present field rq file :
  multi_get field (files rq) = Some file -> filename file <> "" ->
  upload_missing field rq = false.
Proof.
  intros Hfile Hname. unfold upload_missing. rewrite Hfile. now apply String.eqb_neq.
Qed.

(** X13: a create of a team member whose image is converted and written
    (the name made for it is not longer than the file system takes) but
    whose [order_num] is not a number for [int] raises [ValueError]: no row
    is stored, and the converted image stays in the upload directory. *)
Theorem create_team_member_bad_order (rq : request) (w : world) (u : nat)
    (file : FileStorage) (data converted : bytes) (name position bio order_num : string) :
  session_user w = Some u ->
  method rq = POST ->
  multi_get "member_image" (files rq) = Some file ->
  filename file <> "" ->
  stream file = Some data ->
  tinify w data (resize_method (Some 800%N) None) = Returned converted ->
  String.length (fst (splitext (secure_filename (python w) (filename file))) ++ ".webp")
  <= name_max w ->
  multi_get "name" (form rq) = Some name ->
  multi_get "position" (form rq) = Some position ->
  multi_get "bio" (form rq) = Some bio ->
  multi_get "order_num" (form rq) = Some order_num ->
  Py.int (python w) order_num = None ->
  manage_content "team_members" rq w
  = (Raised (ValueError order_num),
     set_uploads
       (<[fst (splitext (secure_filename (python w) (filename file))) ++ ".webp" := converted]>
          (uploads w)) w).
Proof.
  intros Hu Hpost Hfile Hname Hstream Hremote Hshort Hn Hp Hb Ho Hint.
  unfold manage_content. rewrite (login_required_logged_in _ _ _ Hu).
  replace (manage_models !! "team_members") with (Some TeamMemberModel) by reflexivity.
  rewrite Hpost. unfold create. dispatch. unfold create_team_member.
  rewrite (upload_present _ _ _ Hfile Hname).
  run. rewrite Hfile. run.
  rewrite (optimize_converts_run _ _ _ _ _ _ Hname Hstream Hremote Hshort).
  rewrite truthy_Some by (apply append_nonempty; discriminate).
  run. rewrite Hn. run. rewrite Hp. run. rewrite Hb. run. rewrite Ho. run.
  cbn [python set_uploads]. now rewrite Hint.
Qed.



(** ** The contact form *)

Lemma contact_stores_submission_run (rq : request) (w : world)
    (name email subject message : string) :
  method rq = POST ->
  multi_get "name" (form rq) = Some name ->
  multi_get "email" (form rq) = Some email ->
  multi_get "subject" (form rq) = Some subject ->
  multi_get "message" (form rq) = Some message ->
  contact rq w
  = (Returned (Json "success" "Thank you! Your message has been sent successfully."),
     set_db (set_submissions
               (submissions (db w)
                ++ [ContactSubmission.mk (next_pk (submissions (db w))) name email
                      (Some subject) message (utcnow w)])
               (db w)) w).
Proof.
  intros Hpost Hn He Hs Hm. unfold contact. rewrite Hpost. run.
  rewrite Hn. run. rewrite He. run. rewrite Hs. run. rewrite Hm. run.
  reflexivity.
Qed.

(** X15: a POST to [contact] that carries a name, an email, a subject and a
    message stores them as one new submission, after the submissions already
    there, under a fresh id and with the current time, and answers with the
    success message; no login is asked for. *)
Theorem contact_stores_submission (rq : request) (w : world)
    (name email subject message : string) :
  method rq = POST ->
  multi_get "name" (form rq) = Some name ->
  multi_get "email" (form rq) = Some email ->
  multi_get "subject" (form rq) = Some subject ->
  multi_get "message" (form rq) = Some message ->
  contact rq w
  = (Returned (Json "success" "Thank you! Your message has been sent successfully."),
     set_db (set_submissions
               (submissions (db w)
                ++ [ContactSubmission.mk (next_pk (submissions (db w))) name email
                      (Some subject) message (utcnow w)])
               (db w)) w).
Proof. exact (contact_stores_submission_run rq w name email subject message). Qed.

(** X16: a POST to [contact] that lacks one of the four fields raises
    [BadRequestKeyError] and stores nothing; a GET renders the form and
    stores nothing. *)
Theorem contact_without_a_field (rq : request) (w : world) :
  (method rq = POST ->
   multi_get "name" (form rq) = None \/ multi_get "email" (form rq) = None
   \/ multi_get "subject" (form rq) = None \/ multi_get "message" (form rq) = None ->
   exists key, contact rq w = (Raised (BadRequestKeyError key), w))
  /\ (method rq = GET -> contact rq w = (Returned (Page "contact.html"), w)).
Proof.
  split; intros Hmethod; unfold contact; rewrite Hmethod; [|reflexivity].
  intros Hmissing. run.
  destruct (multi_get "name" (form rq)); run; [|eauto].
  destruct (multi_get "email" (form rq)); run; [|eauto].
  destruct (multi_get "subject" (form rq)); run; [|eauto].
  destruct (multi_get "message" (form rq)); run; [|eauto].
  destruct Hmissing as [H | [H | [H | H]]]; discriminate H.
Qed.

Lemma table_delete_above {T} `{Row T} (i : nat) (rows : list T) :
  (forall x, In x rows -> pk x < i) -> table_delete i rows = rows.
Proof.
  unfold table_delete. induction rows as [|x rows IH]; intros Hbelow; [reflexivity|].
  cbn [List.filter].
  assert (Hx : Nat.eqb (pk x) i = false).
  { apply Nat.eqb_neq. specialize (Hbelow x (or_introl eq_refl)). lia. }
  rewrite Hx. cbn [negb]. f_equal. apply IH. intros y Hy. apply Hbelow. now right.
Qed.

Lemma table_get_appended {T} `{Row T} (i : nat) (rows : list T) (r : T) :
  (forall x, In x rows -> pk x < i) -> pk r = i ->
  table_get i (rows ++ [r]) = Some r.
Proof.
  intros Hbelow Hpk. unfold table_get.
  induction rows as [|x rows IH]; cbn [app List.find].
  - now rewrite Hpk, Nat.eqb_refl.
  - assert (Hx : Nat.eqb (pk x) i = false).
    { apply Nat.eqb_neq. specialize (Hbelow x (or_introl eq_refl)). lia. }
    rewrite Hx. apply IH. intros y Hy. apply Hbelow. now right.
Qed.

Lemma table_delete_appended {T} `{Row T} (i : nat) (rows : list T) (r : T) :
  (forall x, In x rows -> pk x < i) -> pk r = i ->
  table_delete i (rows ++ [r]) = rows.
Proof.
  intros Hbelow Hpk. unfold table_delete. rewrite List.filter_app. cbn [List.filter].
  rewrite Hpk, Nat.eqb_refl. cbn [negb]. rewrite app_nil_r.
  exact (table_delete_above i rows Hbelow).
Qed.

Lemma set_submissions_same d : set_submissions (submissions d) d = d.
Proof. now destruct d. Qed.

(** X17: the submission that a POST to [contact] has stored is removed again
    by the admin's [delete_content] for submissions with its id: the database
    is then what it was before the contact request, and no file was
    touched. *)
Theorem contact_then_delete (rq rq' : request) (w : world) (u : nat)
    (name email subject message : string) :
  session_user w = Some u ->
  method rq = POST ->
  multi_get "name" (form rq) = Some name ->
  multi_get "email" (form rq) = Some email ->
  multi_get "subject" (form rq) = Some subject ->
  multi_get "message" (form rq) = Some message ->
  (delete_content "submissions" (next_pk (submissions (db w))) rq' (contact rq w).2).1
  = Returned (Redirect Dashboard)
  /\ db (delete_content "submissions" (next_pk (submissions (db w))) rq' (contact rq w).2).2
     = db w
  /\ uploads (delete_content "submissions" (next_pk (submissions (db w))) rq'
                (contact rq w).2).2
     = uploads w.
Proof.
  intros Hu Hpost Hn He Hs Hm.
  rewrite (contact_stores_submission_run rq w name email subject message) by assumption.
  cbn [snd]. unfold delete_content, login_required. cbn [session_user set_db]. rewrite Hu.
  replace (delete_models !! "submissions") with (Some ContactSubmissionModel) by reflexivity.
  run. unfold query_get. run. cbn [db set_db submissions set_submissions].
  rewrite (table_get_appended (next_pk (submissions (db w))))
    by (reflexivity || (intros x Hx; exact (next_pk_above _ _ Hx))).
  run. cbn [entity_image_url Py.truthy]. run.
  cbn [session_delete begin pending violation db set_db submissions set_submissions
       ContactSubmission.id uploads set_flashes].
  split; [reflexivity|]. split; [|reflexivity].
  rewrite (table_delete_appended (next_pk (submissions (db w))))
    by (reflexivity || (intros x Hx; exact (next_pk_above _ _ Hx))).
  destruct (db w); reflexivity.
Qed.

(** ** Creating a blog post *)

(** X18: a create of a blog post with a title and a content stores one new
    post with the author "Admin" and the current time, after the posts
    already there and under a fresh id; it redirects to the listing, and the
    message it flashes is "Blo added successfully!" (the name in the message is
    the content type without its last character). *)
Theorem create_blog_post (rq : request) (w : world) (u : nat) (title content : string) :
  session_user w = Some u ->
  method rq = POST ->
  multi_get "title" (form rq) = Some title ->
  multi_get "content" (form rq) = Some content ->
  manage_content "blog" rq w
  = (Returned (Redirect (ManageContent "blog")),
     set_flashes (flashes w ++ [("Blo added successfully!", "success")])
       (set_db (set_blog_posts
                  (blog_posts (db w)
                   ++ [BlogPost.mk (next_pk (blog_posts (db w))) title content "Admin"
                         (utcnow w)])
                  (db w)) w)).
Proof.
  intros Hu Hpost Htitle Hcontent.
  unfold manage_content. rewrite (login_required_logged_in _ _ _ Hu).
  replace (manage_models !! "blog") with (Some BlogPostModel) by reflexivity.
  rewrite Hpost. unfold create. dispatch. unfold create_blog. run.
  rewrite Htitle. run. rewrite Hcontent. run. reflexivity.
Qed.

(** ** Requests that only read *)

(** X19: a GET request to [manage_content] or to [edit_content] changes
    neither the database nor the upload directory, whatever the content type
    and the item. *)
Theorem get_request_changes_nothing (content_type : string) (item_id : nat)
    (rq : request) (w : world) :
  method rq = GET ->
  db (manage_content content_type rq w).2 = db w
  /\ uploads (manage_content content_type rq w).2 = uploads w
  /\ db (edit_content content_type item_id rq w).2 = db w
  /\ uploads (edit_content content_type item_id rq w).2 = uploads w.
Proof.
  intros Hget. unfold manage_content, edit_content, login_required.
  destruct (session_user w); [|repeat split].
  rewrite Hget.
  destruct (manage_models !! content_type), (edit_models !! content_type) as [Model|];
    run; try destruct (query_get Model item_id (db w));
    try destruct (fits_sqlite_integer _); repeat split.
Qed.

(** ** The gallery of a project *)

Lemma add_gallery_images_keeps_files project_id gallery s w name :
  is_Some (uploads w !! name) ->
  is_Some (uploads (add_gallery_images project_id gallery s w).2 !! name).
Proof.
  revert s w. induction gallery as [|file rest IH]; intros s w Hthere; [exact Hthere|].
  cbn [add_gallery_images]. destruct (String.eqb (filename file) ""); [now apply IH|].
  rewrite bind_run.
  pose proof (optimize_keeps_files file (Some 1200%N) None w name Hthere) as Hkept.
  destruct (optimize_with_tinypng file (Some 1200%N) None w) as [[filename|e] w1];
    cbn [snd] in *; [now apply IH | exact Hkept].
Qed.

(** X20: the gallery loop of a project edit only appends: when it returns,
    the gallery records of the session are those from before followed by the
    new ones, at most one per upload; every new record belongs to the edited
    project and names a file that is in the upload directory; no other table
    is touched. *)
Theorem gallery_uploads_only_append (project_id : nat) (gallery : list FileStorage)
    (s s' : session) (w w' : world) :
  add_gallery_images project_id gallery s w = (Returned s', w') ->
  exists added,
    project_images (pending s') = (project_images (pending s) ++ added)%list
    /\ Forall (fun im => ProjectImage.project_id im = project_id
                         /\ is_Some (uploads w' !! ProjectImage.image_url im)) added
    /\ length added <= length gallery
    /\ (forall Model, query_all Model (pending s') = query_all Model (pending s))
    /\ violation s' = violation s.
Proof.
  revert s w. induction gallery as [|file rest IH]; intros s w.
  - intros [= <- <-]. exists []. rewrite app_nil_r. repeat split; auto.
  - cbn [add_gallery_images].
    destruct (String.eqb (filename file) "").
    { intros Hrun. destruct (IH _ _ Hrun) as (added & H1 & H2 & H3 & H4 & H5).
      exists added. repeat split; auto. cbn [length]. lia. }
    rewrite bind_run.
    pose proof (fun name => optimize_returned_exists file (Some 1200%N) None w name)
      as Hexists.
    destruct (optimize_with_tinypng file (Some 1200%N) None w) as [[filename|e] w1];
      cbn [fst snd] in *; [|discriminate].
    destruct filename as [name|]; cbn [Py.truthy default].
    2:{ intros Hrun. destruct (IH _ _ Hrun) as (added & H1 & H2 & H3 & H4 & H5).
        exists added. repeat split; auto. cbn [length]. lia. }
    destruct (String.eqb name ""); cbn [negb].
    { intros Hrun. destruct (IH _ _ Hrun) as (added & H1 & H2 & H3 & H4 & H5).
      exists added. repeat split; auto. cbn [length]. lia. }
    intros Hrun. destruct (IH _ _ Hrun) as (added & H1 & H2 & H3 & H4 & H5).
    unfold id in *.
    exists (with_pk (next_pk (project_images (pending s))) (ProjectImage.mk 0 name project_id)
            :: added).
    split.
    { rewrite H1. cbn [session_add_image pending project_images set_project_images].
      unfold table_insert. now rewrite <- app_assoc. }
    split.
    { constructor; [|exact H2]. split; [reflexivity|].
      cbn [with_pk ProjectImage_row ProjectImage.image_url].
      pose proof (add_gallery_images_keeps_files project_id rest
                    (session_add_image (ProjectImage.mk 0 name project_id) s) w1 name
                    (Hexists name eq_refl)) as Hkept.
      now rewrite Hrun in Hkept. }
    split; [cbn [length]; lia|].
    split; [|rewrite H5; reflexivity].
    intros Model. rewrite H4. now destruct Model.
Qed.


(** ** The rows an edit can change *)

Lemma returns_only_bind {A B} (Q : A -> Prop) (P : B -> Prop) (m : M A) (k : A -> M B) :
  returns_only Q m -> (forall a, Q a -> returns_only P (k a)) ->
  returns_only P (bind m k).
Proof.
  intros Hm Hk w b. rewrite bind_run. specialize (Hm w).
  destruct (m w) as [[a|e] w1]; [|discriminate]. apply Hk. now apply Hm.
Qed.

Lemma returns_only_any {A} (m : M A) : returns_only (fun _ => True) m.
Proof. intros w a _. exact I. Qed.

Lemma returns_only_ret {A} (P : A -> Prop) (a : A) : P a -> returns_only P (ret a).
Proof. intros HP w b [= <-]. exact HP. Qed.

Lemma table_get_update_other {T} `{Row T} (j : nat) (rows : list T) (r : T) :
  j <> pk r -> table_get j (table_update r rows) = table_get j rows.
Proof.
  intros Hne. unfold table_get, table_update.
  induction rows as [|x rows IH]; [reflexivity|]. cbn [List.map List.find].
  destruct (Nat.eqb (pk x) (pk r)) eqn:Hx.
  - apply Nat.eqb_eq in Hx.
    replace (Nat.eqb (pk r) j) with false by (symmetry; apply Nat.eqb_neq; lia).
    replace (Nat.eqb (pk x) j) with false by (symmetry; apply Nat.eqb_neq; lia).
    exact IH.
  - destruct (Nat.eqb (pk x) j); [reflexivity | exact IH].
Qed.

Lemma touches_only_begin Model i d : touches_only Model i d (begin d).
Proof. intros Other j _. reflexivity. Qed.

Lemma touches_only_update Model i d s item :
  touches_only Model i d s -> model_of item = Model -> entity_id item = i ->
  touches_only Model i d (session_update item s).
Proof.
  intros Hs <- <- Other j Hother. rewrite <- (Hs Other j Hother).
  destruct item, Other;
    cbn [session_update pending query_get model_of entity_id
         projects blog_posts testimonials submissions statistics team_members services
         client_logos certifications set_projects set_blog_posts set_testimonials
         set_submissions set_statistics set_team_members set_services set_client_logos
         set_certifications] in *;
    try reflexivity;
    (destruct Hother as [Hmodel | Hid]; [now destruct Hmodel|]);
    now rewrite table_get_update_other.
Qed.

Lemma touches_only_images Model i d s s' :
  touches_only Model i d s ->
  (forall Other j, query_get Other j (pending s') = query_get Other j (pending s)) ->
  touches_only Model i d s'.
Proof. intros Hs Hsame Other j Hother. now rewrite Hsame, Hs. Qed.

Lemma query_get_add_image image s Other j :
  query_get Other j (pending (session_add_image image s)) = query_get Other j (pending s).
Proof. now destruct Other. Qed.

Lemma query_get_delete_image i s Other j :
  query_get Other j (pending (session_delete_image i s)) = query_get Other j (pending s).
Proof. now destruct Other. Qed.

Lemma add_gallery_images_touches Model i d project_id gallery s :
  touches_only Model i d s ->
  returns_only (touches_only Model i d) (add_gallery_images project_id gallery s).
Proof.
  revert s. induction gallery as [|file rest IH]; intros s Hs; cbn [add_gallery_images].
  - now apply returns_only_ret.
  - destruct (String.eqb (filename file) ""); [now apply IH|].
    apply (returns_only_bind (fun _ => True)); [apply returns_only_any|].
    intros filename _. apply IH. destruct (Py.truthy filename); [|exact Hs].
    apply (touches_only_images _ _ _ s); [exact Hs|]. apply query_get_add_image.
Qed.

Lemma delete_gallery_images_touches Model i d ids s :
  touches_only Model i d s ->
  returns_only (touches_only Model i d) (delete_gallery_images ids s).
Proof.
  revert s. induction ids as [|img_id rest IH]; intros s Hs; cbn [delete_gallery_images].
  - now apply returns_only_ret.
  - apply (returns_only_bind (fun _ => True)); [apply returns_only_any|]. intros w0 _.
    destruct (image_by_form_id _ img_id (pending s)) as [image|]; [|now apply IH].
    apply (returns_only_bind (fun _ => True)); [apply returns_only_any|].
    intros _ _. apply IH.
    apply (touches_only_images _ _ _ s); [exact Hs|]. apply query_get_delete_image.
Qed.

(** Walking through an edit branch. *)
Ltac touches :=
  repeat match goal with
         | |- returns_only _ (bind (add_gallery_images _ _ _) _) =>
             eapply returns_only_bind;
             [apply add_gallery_images_touches, touches_only_update;
              [eassumption | reflexivity ..]
             | intros ? ?]
         | |- returns_only _ (delete_gallery_images _ _) =>
             apply delete_gallery_images_touches; assumption
         | |- returns_only _ (bind _ _) =>
             apply (returns_only_bind (fun _ => True)); [apply returns_only_any | intros ? _]
         | |- returns_only _ (ret _) =>
             apply returns_only_ret;
             first [assumption | apply touches_only_update; [assumption | reflexivity ..]]
         end.

Lemma edit_touches content_type item rq d :
  returns_only (touches_only (model_of item) (entity_id item) d)
    (edit content_type item rq (begin d)).
Proof.
  pose proof (touches_only_begin (model_of item) (entity_id item) d) as Hbegin.
  unfold edit.
  repeat (case_content_type content_type; [destruct item; touches|]);
    try (now apply returns_only_ret).
  all: unfold edit_project, edit_blog, edit_testimonial, edit_statistic, edit_team_member,
         edit_service, edit_certification; touches.
Qed.

(** X22: an edit leaves every row alone except the row of the registered
    model under the edited id: any other row of that table, and every row of
    every other content table, is afterwards what it was before. *)
Theorem edit_touches_one_row (content_type : string) (item_id : nat) (rq : request)
    (w : world) (Other : model) (j : nat) :
  edit_models !! content_type <> Some Other \/ j <> item_id ->
  query_get Other j (db (edit_content content_type item_id rq w).2)
  = query_get Other j (db w).
Proof.
  intros Hother. unfold edit_content, login_required.
  destruct (session_user w); [|reflexivity].
  destruct (edit_models !! content_type) as [Model|]; [|reflexivity].
  run. destruct (query_get Model item_id (db w)) as [item|] eqn:Hitem;
    [|destruct (fits_sqlite_integer _); reflexivity].
  destruct (method rq); [reflexivity|].
  destruct (query_get_item _ _ _ _ Hitem) as [HModel Hid].
  pose proof (keeps_edit content_type item rq (begin (db w)) w) as (Hdb & _).
  pose proof (edit_touches content_type item rq (db w) w) as Htouch.
  destruct (edit content_type item rq (begin (db w)) w) as [[s|e] w1]; cbn [fst snd] in *;
    [|now rewrite Hdb].
  destruct (violation s); cbn [snd]; [now rewrite Hdb|].
  cbn [db set_db set_flashes]. apply (Htouch s eq_refl).
  rewrite HModel, Hid. destruct Hother as [Hne | Hne]; [left | right; exact Hne].
  intros ->. now apply Hne.
Qed.

(** ** A created row and its files *)

Lemma owned_exists (files : gmap string bytes) (column : option string) :
  (forall name, column = Some name -> name <> "" -> is_Some (files !! name)) ->
  Forall (fun name => is_Some (files !! name)) (owned column).
Proof.
  intros Hthere. destruct column as [name|]; cbn [owned]; [|constructor].
  destruct (String.eqb_spec name ""); repeat constructor. now apply Hthere.
Qed.

(** Running the next step of a create branch, keeping what is known of the
    files. *)
Ltac step_create :=
  match goal with
  | |- context [optimize_with_tinypng ?f ?a ?b ?w0] =>
      let Hnew := fresh "Hnew" in
      let Hkept := fresh "Hkept" in
      pose proof (fun name => optimize_returned_exists f a b w0 name) as Hnew;
      pose proof (fun name => optimize_keeps_files f a b w0 name) as Hkept;
      destruct (optimize_with_tinypng f a b w0) as [[?|?] ?]; cbn [fst snd] in Hnew, Hkept
  | |- context [match multi_get ?k ?d with _ => _ end] => destruct (multi_get k d)
  | |- context [match upload_given ?k ?d with _ => _ end] => destruct (upload_given k d)
  | |- context [match Py.int ?py ?v with _ => _ end] => destruct (Py.int py v)
  | |- context [if ?b then _ else _] => destruct b
  end; run; try discriminate.

Lemma create_files content_type rq w new_item w' :
  create content_type rq w = (Returned (NewItem new_item), w') ->
  Forall (fun name => is_Some (uploads w' !! name)) (entity_images new_item).
Proof.
  unfold create.
  repeat (case_content_type content_type;
          [unfold create_project, create_blog, create_testimonial, create_statistic,
             create_team_member, create_service, create_client_logo, create_certification;
           run; repeat step_create;
           intros [= <- <-]; cbn [entity_images]|]).
  all: try (intros [=]); try constructor.
  all: try apply Forall_app; try split.
  all: apply owned_exists; intros name Hname Hne; cbn in Hname.
  all: first
         [ discriminate Hname
         | solve [subst; eauto]
         | injection Hname as <-;
           match goal with
           | a : option string |- _ =>
               destruct a; cbn [default] in *; unfold id in *;
               [eauto | now destruct Hne]
           end ].
Qed.

Lemma session_add_images now new_item d :
  exists stored,
    query_all (model_of new_item) (pending (session_add now new_item (begin d)))
    = (query_all (model_of new_item) d ++ [stored])%list
    /\ entity_images stored = entity_images new_item.
Proof.
  destruct new_item as [r|r|r|r|r|r|r|r|r];
    cbn [session_add begin pending model_of query_all];
    unfold table_insert; eexists;
    (split;
     [cbn [query_all projects blog_posts testimonials submissions statistics team_members
           services client_logos certifications set_projects set_blog_posts
           set_testimonials set_submissions set_statistics set_team_members set_services
           set_client_logos set_certifications];
      rewrite fmap_app; reflexivity
     | reflexivity]).
Qed.

(** X23: when [manage_content] adds a row, every file that the row names
    in its [image_url] (and, for a service, in its [header_image_url]) is in
    the upload directory at the end of the request. *)
Theorem created_row_has_its_files (content_type : string) (rq : request) (w : world) :
  db (manage_content content_type rq w).2 = db w
  \/ exists Model stored,
       manage_models !! content_type = Some Model
       /\ query_all Model (db (manage_content content_type rq w).2)
          = (query_all Model (db w) ++ [stored])%list
       /\ Forall (fun name => is_Some (uploads (manage_content content_type rq w).2 !! name))
            (entity_images stored).
Proof.
  unfold manage_content, login_required.
  destruct (session_user w); [|left; reflexivity].
  destruct (manage_models !! content_type) as [Model|] eqn:Hmodel; [|left; reflexivity].
  destruct (method rq); [left; reflexivity|].
  rewrite bind_run.
  pose proof (keeps_create content_type rq w) as (Hdb & _ & Hnow & _).
  pose proof (create_model content_type rq w) as Hclass.
  pose proof (create_files content_type rq w) as Hfiles.
  destruct (create content_type rq w) as [[outcome|e] w1]; cbn [fst snd] in *;
    [|left; exact Hdb].
  destruct outcome as [r|new_item|]; run; try (left; exact Hdb).
  destruct (violation _); run; [left; exact Hdb|].
  right. cbn [db set_db set_flashes uploads]. rewrite Hdb, Hnow.
  specialize (Hclass new_item eq_refl). rewrite Hmodel in Hclass. injection Hclass as ->.
  destruct (session_add_images (utcnow w) new_item (db w)) as (stored & Hrows & Himages).
  exists (model_of new_item), stored. split; [reflexivity|]. split; [exact Hrows|].
  rewrite Himages. exact (Hfiles new_item w1 eq_refl).
Qed.

(** ** What a delete leaves alone *)

Lemma table_get_delete_other {T} `{Row T} (i j : nat) (rows : list T) :
  j <> i -> table_get j (table_delete i rows) = table_get j rows.
Proof.
  intros Hne. unfold table_get, table_delete.
  induction rows as [|x rows IH]; [reflexivity|]. cbn [List.filter List.find].
  destruct (Nat.eqb (pk x) i) eqn:Hx; cbn [negb List.find].
  - apply Nat.eqb_eq in Hx.
    replace (Nat.eqb (pk x) j) with false by (symmetry; apply Nat.eqb_neq; lia).
    exact IH.
  - destruct (Nat.eqb (pk x) j); [reflexivity | exact IH].
Qed.

Lemma session_delete_other item d Other j :
  Other <> model_of item \/ j <> entity_id item ->
  query_get Other j (pending (session_delete item (begin d))) = query_get Other j d.
Proof.
  intros Hother.
  destruct item, Other;
    cbn [session_delete pending begin query_get model_of entity_id
         projects blog_posts testimonials submissions statistics team_members services
         client_logos certifications set_projects set_blog_posts set_testimonials
         set_submissions set_statistics set_team_members set_services set_client_logos
         set_certifications set_project_images] in *;
    try reflexivity;
    (destruct Hother as [Hmodel | Hid]; [now destruct Hmodel|]);
    now rewrite table_get_delete_other.
Qed.

Lemma session_delete_images item d image :
  In image (project_images d) ->
  ProjectImage.project_id image <> entity_id item ->
  In image (project_images (pending (session_delete item (begin d)))).
Proof.
  intros Hin Hother.
  destruct item; cbn [session_delete pending begin project_images set_project_images
                      set_projects set_blog_posts set_testimonials set_submissions
                      set_statistics set_team_members set_services set_client_logos
                      set_certifications entity_id] in *;
    try exact Hin.
  apply List.filter_In. split; [exact Hin|]. now apply negb_true_iff, Nat.eqb_neq.
Qed.

Lemma remove_gallery_files_subset images w :
  exists files,
    remove_gallery_files images w = (Returned tt, set_uploads files w)
    /\ files ⊆ uploads w.
Proof.
  revert w. induction images as [|img rest IH]; intros w.
  - exists (uploads w). cbn [remove_gallery_files]. unfold ret. now rewrite set_uploads_same.
  - cbn [remove_gallery_files]. rewrite bind_run. unfold try_remove.
    destruct (IH (set_uploads (delete (ProjectImage.image_url img) (uploads w)) w))
      as (files & Hrun & Hsub).
    exists files. rewrite Hrun. split; [reflexivity|].
    etransitivity; [exact Hsub|]. apply delete_subseteq.
Qed.

Lemma delete_content_run (content_type : string) (item_id : nat) (rq : request) (w : world)
    (u : nat) (Model : model) (item : entity) :
  session_user w = Some u ->
  delete_models !! content_type = Some Model ->
  query_get Model item_id (db w) = Some item ->
  exists r files,
    delete_content content_type item_id rq w
    = (Returned r,
       set_flashes (flashes w ++ [(display_name content_type ++ " deleted.", "info")])
         (set_db (pending (session_delete item (begin (db w)))) (set_uploads files w)))
    /\ files ⊆ uploads w.
Proof.
  intros Hu HModel Hitem.
  unfold delete_content. rewrite (login_required_logged_in _ _ _ Hu), HModel.
  rewrite bind_run. unfold get_or_404 at 1. rewrite Hitem.
  rewrite bind_run.
  assert (Hstay : forall w1 : world, exists files,
            @ret unit tt w1 = (Returned tt, set_uploads files w1) /\ files ⊆ uploads w1).
  { intros w1. exists (uploads w1). unfold ret. now rewrite set_uploads_same. }
  assert (Hfirst : exists files,
            (if Py.truthy (entity_image_url item)
             then try_remove (default "" (entity_image_url item)) else ret tt) w
            = (Returned tt, set_uploads files w) /\ files ⊆ uploads w).
  { destruct (Py.truthy (entity_image_url item)); [|apply Hstay].
    eexists. split; [reflexivity | apply delete_subseteq]. }
  destruct Hfirst as (files1 & -> & Hsub1).
  rewrite bind_run. unfold get_world at 1. rewrite bind_run. cbn [db set_uploads].
  assert (Hsecond : exists files,
            match item with
            | EProject r =>
                if String.eqb content_type "projects"
                then remove_gallery_files (images_of (Project.id r) (db w)) else ret tt
            | _ => ret tt
            end (set_uploads files1 w)
            = (Returned tt, set_uploads files (set_uploads files1 w))
            /\ files ⊆ uploads (set_uploads files1 w)).
  { destruct item; try apply Hstay.
    destruct (String.eqb content_type "projects"); [|apply Hstay].
    apply remove_gallery_files_subset. }
  destruct Hsecond as (files2 & -> & Hsub2).
  rewrite bind_run.
  assert (Hthird : exists files,
            match item with
            | EService r =>
                if String.eqb content_type "services" && Py.truthy (Service.header_image_url r)
                then try_remove (default "" (Service.header_image_url r)) else ret tt
            | _ => ret tt
            end (set_uploads files2 (set_uploads files1 w))
            = (Returned tt, set_uploads files (set_uploads files2 (set_uploads files1 w)))
            /\ files ⊆ uploads (set_uploads files2 (set_uploads files1 w))).
  { destruct item; try apply Hstay.
    destruct (_ && _); [|apply Hstay].
    eexists. split; [reflexivity | apply delete_subseteq]. }
  destruct Hthird as (files3 & -> & Hsub3).
  rewrite bind_run. unfold commit at 1.
  replace (violation (session_delete item (begin (db w)))) with (@None exn)
    by (now destruct item).
  rewrite bind_run. unfold flash at 1.
  cbn [uploads set_uploads] in Hsub2, Hsub3.
  exists (if String.eqb content_type "submissions" then Redirect Dashboard
          else Redirect (ManageContent content_type)), files3.
  split.
  - destruct (String.eqb content_type "submissions"); reflexivity.
  - etransitivity; [exact Hsub3|]. etransitivity; [exact Hsub2 | exact Hsub1].
Qed.

(** X24: a delete leaves every row alone except the row of the registered
    model under the deleted id; it removes no gallery record of another
    project; and it writes no file: every file in the upload directory
    afterwards was there before, with the same content. *)
Theorem delete_touches_one_row (content_type : string) (item_id : nat) (rq : request)
    (w : world) :
  (forall Other j,
     delete_models !! content_type <> Some Other \/ j <> item_id ->
     query_get Other j (db (delete_content content_type item_id rq w).2)
     = query_get Other j (db w))
  /\ (forall image,
        In image (project_images (db w)) ->
        ProjectImage.project_id image <> item_id ->
        In image (project_images (db (delete_content content_type item_id rq w).2)))
  /\ uploads (delete_content content_type item_id rq w).2 ⊆ uploads w.
Proof.
  destruct (session_user w) as [u|] eqn:Hu.
  2:{ unfold delete_content. rewrite (login_required_anonymous _ _ Hu). repeat split; auto. }
  destruct (delete_models !! content_type) as [Model|] eqn:HModel.
  2:{ unfold delete_content. rewrite (login_required_logged_in _ _ _ Hu), HModel.
      repeat split; auto. }
  destruct (query_get Model item_id (db w)) as [item|] eqn:Hitem.
  2:{ unfold delete_content. rewrite (login_required_logged_in _ _ _ Hu), HModel.
      rewrite bind_run. unfold get_or_404. rewrite Hitem.
      destruct (fits_sqlite_integer _); repeat split; auto. }
  destruct (query_get_item _ _ _ _ Hitem) as [Hclass Hid].
  destruct (delete_content_run content_type item_id rq w u Model item Hu HModel Hitem)
    as (r & files & -> & Hsub).
  cbn [snd db set_db set_flashes uploads set_uploads].
  split; [|split; [|exact Hsub]].
  - intros Other j Hother. apply session_delete_other. rewrite Hclass, Hid.
    destruct Hother as [Hne | Hne]; [left | right; exact Hne]. intros ->. now apply Hne.
  - intros image Hin Hne. apply session_delete_images; [exact Hin | now rewrite Hid].
Qed.

(** ** The further properties at sample requests *)

(** A team member whose order is not a number: the request raises and the
    database stays. *)
Lemma raised_request_leaves_database_witness :
  db (manage_content "team_members" bad_order_request banda_world).2 = db banda_world.
Proof.
  apply (proj1 (raised_request_leaves_database "team_members" 0 bad_order_request
                  banda_world (ValueError "first"))).
  vm_compute. reflexivity.
Defined.

(** The optimizer on the upload "site plan.png". *)
Lemma optimizer_writes_only_its_file_witness :
  is_Some (uploads (optimize_with_tinypng site_plan (Some 800%N) None
                      (admin_world [] empty_db service_up)).2 !! "site_plan.webp").
Proof.
  apply (proj1 (proj2 (proj2 (optimizer_writes_only_its_file site_plan (Some 800%N) None
                                (admin_world [] empty_db service_up))))).
  vm_compute. reflexivity.
Defined.

Lemma optimizer_names_are_plain_witness :
  "site_plan.webp" <> ""
  /\ all_chars filename_char_ok "site_plan.webp" = true
  /\ contains "/" "site_plan.webp" = false
  /\ "site_plan.webp" <> "." /\ "site_plan.webp" <> "..".
Proof.
  apply (optimizer_names_are_plain site_plan (Some 800%N) None
           (admin_world [] empty_db service_up) "site_plan.webp").
  vm_compute. reflexivity.
Defined.

Lemma optimized_file_is_served_witness :
  exists original data,
    stream site_plan = Some original
    /\ uploaded_file "site_plan.png"
         (optimize_with_tinypng site_plan (Some 800%N) None
            (admin_world [] empty_db service_down)).2
       = (Returned data,
          (optimize_with_tinypng site_plan (Some 800%N) None
             (admin_world [] empty_db service_down)).2)
    /\ (tinify (admin_world [] empty_db service_down) original
          (resize_method (Some 800%N) None) = Returned data
        \/ data = original).
Proof.
  apply (optimized_file_is_served site_plan (Some 800%N) None
           (admin_world [] empty_db service_down) "site_plan.png").
  vm_compute. reflexivity.
Defined.

Lemma optimizer_converts_witness :
  optimize_with_tinypng site_plan (Some 150%N) (Some 150%N)
    (admin_world [] empty_db service_up)
  = (Returned (Some "site_plan.webp"),
     set_uploads (<["site_plan.webp" := webp]> ∅) (admin_world [] empty_db service_up)).
Proof.
  apply (optimizer_converts site_plan (Some 150%N) (Some 150%N)
           (admin_world [] empty_db service_up) png webp);
    [discriminate | reflexivity | reflexivity | vm_compute; lia].
Defined.

(** Requests without a logged-in user. *)
Lemma anonymous_request_is_refused_witness :
  manage_content "projects" blog_request anonymous_world = refused anonymous_world
  /\ edit_content "projects" 4 blog_request anonymous_world = refused anonymous_world
  /\ delete_content "projects" 4 blog_request anonymous_world = refused anonymous_world.
Proof.
  apply (anonymous_request_is_refused "projects" 4 blog_request anonymous_world).
  reflexivity.
Defined.

(** A service id that is not in the table. *)
Lemma missing_item_is_not_found_witness :
  edit_content "services" 9 blog_request (solar_world service_up)
  = (Raised NotFound, solar_world service_up)
  /\ delete_content "services" 9 blog_request (solar_world service_up)
     = (Raised NotFound, solar_world service_up).
Proof.
  destruct (missing_item_is_not_found "services" 9 blog_request (solar_world service_up) 1
              ServiceModel eq_refl eq_refl eq_refl) as [Hedit Hdelete].
  split; [apply Hedit | apply Hdelete]; reflexivity.
Defined.

Lemma edit_client_logo_changes_nothing_witness :
  edit_content "client_logos" 2
    (post_request "/admin/edit/client_logos/2" [("name", "Escom Ltd")] []) logo_world
  = (Returned (Redirect (ManageContent "client_logos")),
     set_flashes [("Client Logo updated successfully!", "success")] logo_world).
Proof.
  apply (edit_client_logo_changes_nothing 2 _ logo_world 1 escom); reflexivity.
Defined.

(** Deleting the solar service, twice. *)
Lemma delete_is_final_witness :
  exists w',
    delete_content "services" 1 blog_request (solar_world service_up)
    = (Returned (Redirect (ManageContent "services")), w')
    /\ query_get ServiceModel 1 (db w') = None
    /\ uploads w' !! "old-thumb.webp" = None
    /\ delete_content "services" 1 blog_request w' = (Raised NotFound, w').
Proof.
  destruct (delete_is_final "services" 1 blog_request (solar_world service_up) 1
              ServiceModel (EService solar) eq_refl eq_refl eq_refl eq_refl)
    as (w' & Hrun & Hgone & Hfile & Hagain).
  exists w'. split; [exact Hrun|]. split; [exact Hgone|].
  split; [apply Hfile; [reflexivity | discriminate] | exact Hagain].
Defined.

Lemma create_team_member_bad_order_witness :
  manage_content "team_members" bad_order_request banda_world
  = (Raised (ValueError "first"),
     set_uploads (<["new_photo.webp" := webp]> (uploads banda_world)) banda_world).
Proof.
  apply (create_team_member_bad_order bad_order_request banda_world 1
           (mkfile "new photo.png" (Some png)) png webp "C. Banda" "Site Engineer" "Roads."
           "first"); try reflexivity; first [discriminate | vm_compute; lia].
Defined.


(** A message sent through the contact form, and its removal by the admin. *)
Lemma contact_stores_submission_witness :
  List.map ContactSubmission.id
    (submissions (db (contact contact_request inbox_world).2)) = [3; 4].
Proof.
  rewrite (contact_stores_submission contact_request inbox_world "T. Mwale" "t@example.org"
             "Quote" "Please call.") by reflexivity.
  reflexivity.
Defined.

Lemma contact_without_a_field_witness :
  exists key,
    contact (post_request "/contact" [("name", "T. Mwale"); ("message", "Please call.")] [])
      inbox_world
    = (Raised (BadRequestKeyError key), inbox_world).
Proof.
  apply (proj1 (contact_without_a_field
                  (post_request "/contact" [("name", "T. Mwale"); ("message", "Please call.")] [])
                  inbox_world)); [reflexivity|].
  right. left. reflexivity.
Defined.

Lemma contact_then_delete_witness :
  db (delete_content "submissions" 4 blog_request (contact contact_request inbox_world).2).2
  = db inbox_world.
Proof.
  apply (contact_then_delete contact_request blog_request inbox_world 1 "T. Mwale"
           "t@example.org" "Quote" "Please call."); reflexivity.
Defined.

Lemma create_blog_post_witness :
  flashes (manage_content "blog" blog_request (admin_world [] empty_db service_up)).2
  = [("Blo added successfully!", "success")].
Proof.
  rewrite (create_blog_post blog_request (admin_world [] empty_db service_up) 1
             "Sustainable construction" "Green materials.") by reflexivity.
  reflexivity.
Defined.

Lemma get_request_changes_nothing_witness :
  db (edit_content "services" 1 (mkrequest GET "/admin/edit/services/1" [] [])
        (solar_world service_up)).2
  = db (solar_world service_up).
Proof.
  apply (get_request_changes_nothing "services" 1
           (mkrequest GET "/admin/edit/services/1" [] []) (solar_world service_up)).
  reflexivity.
Defined.

(** Two photographs added to the gallery of the office block. *)
Lemma gallery_uploads_only_append_witness :
  exists s' w' added,
    add_gallery_images 4 [mkfile "east.png" (Some png); mkfile "west.png" (Some png)]
      (begin (db office_world)) office_world = (Returned s', w')
    /\ project_images (pending s') = (project_images (db office_world) ++ added)%list
    /\ length added <= 2.
Proof.
  eexists. eexists.
  assert (Hrun : add_gallery_images 4
                   [mkfile "east.png" (Some png); mkfile "west.png" (Some png)]
                   (begin (db office_world)) office_world
                 = (Returned _, _)) by (vm_compute; reflexivity).
  destruct (gallery_uploads_only_append _ _ _ _ _ _ Hrun) as (added & Hrows & _ & Hlen & _).
  exists added. split; [exact Hrun|]. split; [exact Hrows | exact Hlen].
Defined.


Lemma edit_touches_one_row_witness :
  query_get ServiceModel 1
    (db (edit_content "team_members" 1
           (post_request "/admin/edit/team_members/1" banda_form [])
           (admin_world [] (set_services [solar] (db banda_world)) service_up)).2)
  = Some (EService solar).
Proof.
  rewrite (edit_touches_one_row "team_members" 1 _ _ ServiceModel 1);
    [reflexivity | left; vm_compute; discriminate].
Defined.

Lemma delete_touches_one_row_witness :
  In (ProjectImage.mk 7 "bridge.webp" 9)
    (project_images (db (delete_content "projects" 4 blog_request shared_world).2)).
Proof.
  apply (proj1 (proj2 (delete_touches_one_row "projects" 4 blog_request shared_world))).
  - right. left. reflexivity.
  - discriminate.
Defined.
